(** * File over EtherCAT (FoE): [ecx_FOEread] and [ecx_FOEwrite] of src/ec_foe.c

    The two blocking drivers are embedded as total functions over an
    explicit environment: the answers of the mailbox transport
    ([ecx_mbxreceive], [ecx_mbxsend]) are given as a script, one entry per
    turn of the do-while loop, and every call into the transport, every
    write into the caller's buffer and every progress-hook call is logged
    as an event. *)

From Stdlib Require Import ZArith List Lia Bool.
Import ListNotations.
Open Scope Z_scope.

(** ** Machine integers *)

Definition uint8 (z : Z) : Z := z mod 256.
Definition uint16 (z : Z) : Z := z mod 65536.
Definition uint32 (z : Z) : Z := z mod 4294967296.
(** [int32] is the two's complement reading of the low 32 bits.  Signed
    overflow is undefined in C; where the drivers add to an [int] the sum is
    wrapped, and the theorems that depend on a sum state its bound. *)
Definition int32 (z : Z) : Z := (z + 2147483648) mod 4294967296 - 2147483648.
Definition INT32_MAX : Z := 2147483647.

(** ** Memory blocks *)

(** [mem_read l off n]: the [n] octets of block [l] from offset [off]
    on.  A block is represented by its written prefix; octets behind it
    read as zero (mailbox buffers are cleared when they leave the pool). *)
Definition mem_read (l : list Z) (off n : Z) : list Z :=
  firstn (Z.to_nat n) (skipn (Z.to_nat off) l ++ repeat 0 (Z.to_nat n)).

(** [memcpy dst off src]: block [dst] after [src] has been copied to offset
    [off]. *)
Definition memcpy (dst : list Z) (off : Z) (src : list Z) : list Z :=
  firstn (Z.to_nat off) (dst ++ repeat 0 (Z.to_nat off)) ++ src
  ++ skipn (Z.to_nat off + length src) dst.

(** ** The FoE packet, [ec_FOEt] *)

Record ec_mbxheadert := {
  length_ : Z;      (* MbxHeader.length *)
  address : Z;
  priority : Z;
  mbxtype : Z
}.

(** The two unions of [ec_FOEt] are one field each: [U32] is read as
    [Password], [PacketNumber] or [ErrorCode], [Payload] as [FileName],
    [Data] or [ErrorText]. *)
Record ec_FOEt := {
  MbxHeader : ec_mbxheadert;
  OpCode : Z;
  Reserved : Z;
  U32 : Z;
  Payload : list Z
}.

Definition Password := U32.
Definition PacketNumber := U32.
Definition ErrorCode := U32.
Definition FileName := Payload.
Definition Data := Payload.
Definition ErrorText := Payload.

(** [ec_clearmbx]: every octet of the buffer is zero. *)
Definition ec_clearmbx : ec_FOEt :=
  {| MbxHeader := {| length_ := 0; address := 0; priority := 0; mbxtype := 0 |};
     OpCode := 0; Reserved := 0; U32 := 0; Payload := [] |}.

(** Modelled from the spec: the FoE opcodes of soem's headers, which are not
    part of the source file: READ=1, WRITE=2, DATA=3, ACK=4, ERROR=5,
    BUSY=6. *)
Definition ECT_FOE_READ : Z := 1.
Definition ECT_FOE_WRITE : Z := 2.
Definition ECT_FOE_DATA : Z := 3.
Definition ECT_FOE_ACK : Z := 4.
Definition ECT_FOE_ERROR : Z := 5.
Definition ECT_FOE_BUSY : Z := 6.

(** Modelled from the spec: [MBX_HDR_SET_CNT], a macro of soem's headers;
    the counter is the high nibble of the mailbox type octet. *)
Definition MBX_HDR_SET_CNT (cnt : Z) : Z := uint8 (Z.shiftl cnt 4).

(** Modelled from the spec: [ec_nextmbxcnt], a function of the mailbox layer
    (not in the source file): [next_mbx_cnt(prev)] returns
    [(prev mod 7) + 1]. *)
Definition ec_nextmbxcnt (cnt : Z) : Z := cnt mod 7 + 1.

(** What the source takes from soem's headers and the spec gives no value
    for: the mailbox type of FoE, the size of the payload array, the error
    numbers and the byte-order macros of the host. *)
Class Soem := {
  ECT_MBXT_FOE : Z;
  EC_MAXFOEDATA : Z;
  EC_ERR_TYPE_PACKET_ERROR : Z;
  EC_ERR_TYPE_FOE_ERROR : Z;
  EC_ERR_TYPE_FOE_BUF2SMALL : Z;
  EC_ERR_TYPE_FOE_PACKETNUMBER : Z;
  EC_ERR_TYPE_FOE_FILE_NOTFOUND : Z;
  htoes : Z -> Z;
  htoel : Z -> Z;
  etohs : Z -> Z;
  etohl : Z -> Z;
  (* the error numbers are positive, so that their negation cannot be taken
     for a work counter *)
  EC_ERR_TYPE_positive :
    0 < EC_ERR_TYPE_PACKET_ERROR /\ 0 < EC_ERR_TYPE_FOE_ERROR /\
    0 < EC_ERR_TYPE_FOE_BUF2SMALL /\ 0 < EC_ERR_TYPE_FOE_PACKETNUMBER /\
    0 < EC_ERR_TYPE_FOE_FILE_NOTFOUND
}.

(** A little-endian host with the numbers of the SOEM headers. *)
Definition soem_le : Soem.
Proof.
  refine {| ECT_MBXT_FOE := 4; EC_MAXFOEDATA := 1474;
            EC_ERR_TYPE_PACKET_ERROR := 3; EC_ERR_TYPE_FOE_ERROR := 5;
            EC_ERR_TYPE_FOE_BUF2SMALL := 6; EC_ERR_TYPE_FOE_PACKETNUMBER := 7;
            EC_ERR_TYPE_FOE_FILE_NOTFOUND := 10;
            htoes := fun x => x; htoel := fun x => x;
            etohs := fun x => x; etohl := fun x => x |}.
  repeat split.
Defined.

(** ** The environment and the event log *)

(** What is passed to [ecx_mbxsend]: a pool buffer with the packet it holds
    at the call, or the address of the local pointer variable [MbxOut]. *)
Inductive sendarg :=
| MbxOut_buf (id : nat) (m : ec_FOEt)
| MbxOut_addr.

(** The calls into the mailbox layer and the hook, the copy into the caller's
    buffer of a read, and the store through [FOEp] that the BUSY branch of a
    write makes into a buffer it has passed on before. *)
Inductive event :=
| Ev_mbxreceive (timeout wkc : Z) (got : option (nat * ec_FOEt))
| Ev_getmbx (id : nat)
| Ev_mbxsend (arg : sendarg) (mbx_cnt wkc : Z)
| Ev_dropmbx (id : nat)
| Ev_FOEhook (slave packetnumber n : Z)
| Ev_memcpy_p (off : Z) (bytes : list Z)
| Ev_store_FOEp (id : nat) (m : ec_FOEt).

(** One turn of the transfer loop, as the transport answers it: the work
    counter and the mailbox of [ecx_mbxreceive], and the work counter
    [ecx_mbxsend] returns if the driver sends in this turn. *)
Record round := {
  rx_wkc : Z;
  rx_mbx : ec_FOEt;
  tx_wkc : Z
}.

(** When the script is used up the slave stays silent: the receive times out
    with work counter 0. *)
Definition silence : round :=
  {| rx_wkc := 0; rx_mbx := ec_clearmbx; tx_wkc := 0 |}.

(** Modelled from the spec: [ecx_mbxreceive] of the mailbox layer (not in the
    source file): "on success transfers ownership of a filled buffer to the
    caller; wkc > 0 means success".  The buffer comes from the pool, whose
    next free buffer is [pool]; the pointer passed in is NULL at every call
    site and stays NULL on failure. *)
Definition ecx_mbxreceive (timeout wkc : Z) (m : ec_FOEt) (pool : nat)
  : option nat * nat * list event :=
  if 0 <? wkc
  then (Some pool, S pool, [Ev_mbxreceive timeout wkc (Some (pool, m))])
  else (None, pool, [Ev_mbxreceive timeout wkc None]).

(** [if (MbxIn) ecx_dropmbx(context, MbxIn);] *)
Definition drop_if (Mbx : option nat) : list event :=
  match Mbx with Some id => [Ev_dropmbx id] | None => [] end.

(** The arguments of a call, with the fields of the context the drivers
    read: [mbx_l] of the slave and whether [FOEhook] is set. *)
Record args := {
  slave : Z;
  filename : list Z;
  password : Z;
  timeout : Z;
  mbx_l : Z;
  FOEhook : bool
}.

(** What the transport answers during one call: the zero-timeout receive that
    empties the slave's out mailbox, the send of the request, and the turns
    of the loop. *)
Record transport := {
  stale_wkc : Z;
  stale_mbx : ec_FOEt;
  req_wkc : Z;
  script : list round
}.

Section Drivers.
Context {H : Soem}.

(** [maxdata = context->slavelist[slave].mbx_l - 12;] into a [uint16]. *)
Definition maxdata_of (a : args) : Z := uint16 (mbx_l a - 12).

(** Lines 93-113 and 234-254: the request packet, assembled in a cleared
    buffer. *)
Definition FOE_request (op : Z) (a : args) (cnt : Z) : ec_FOEt :=
  let fnsize := uint16 (Z.of_nat (length (filename a))) in
  let fnsize := if fnsize >? EC_MAXFOEDATA then uint16 EC_MAXFOEDATA else fnsize in
  let maxdata := maxdata_of a in
  let fnsize := if fnsize >? maxdata then maxdata else fnsize in
  {| MbxHeader := {| length_ := htoes (uint16 (6 + fnsize));
                     address := htoes 0;
                     priority := 0;
                     mbxtype := uint8 (ECT_MBXT_FOE + MBX_HDR_SET_CNT cnt) |};
     OpCode := op;
     Reserved := 0;
     U32 := htoel (uint32 (password a));
     Payload := mem_read (filename a) 0 fnsize |}.

(** ** [ecx_FOEread] *)

(** The variables of [ecx_FOEread] that live across turns of the loop,
    with the caller's [*psize] and buffer, the slave's [mbx_cnt] and the
    next free buffer of the pool. *)
Record rstate := {
  r_mbx_cnt : Z;
  r_psize : Z;            (* *psize *)
  r_buf : list Z;         (* the caller's buffer, from the initial p on *)
  r_p : Z;                (* p, as an offset into the buffer *)
  r_dataread : Z;
  r_prevpacket : Z;
  r_MbxIn : option nat;
  r_MbxOut : option nat;
  r_wkc : Z;
  r_pool : nat
}.

(** Lines 121-195: one turn of the do-while loop.  The result is the state
    after the turn, the events of the turn and [worktodo]. *)
Definition FOEread_iter (a : args) (buffersize : Z) (r : round) (st : rstate)
  : rstate * list event * bool :=
  let maxdata := maxdata_of a in
  (* worktodo = FALSE; if (MbxIn) ecx_dropmbx(context, MbxIn); MbxIn = NULL; *)
  let ev_drop := drop_if (r_MbxIn st) in
  (* wkc = ecx_mbxreceive(context, slave, &MbxIn, timeout); *)
  let '(MbxIn, pool, ev_rx) :=
    ecx_mbxreceive (timeout a) (rx_wkc r) (rx_mbx r) (r_pool st) in
  let wkc := rx_wkc r in
  if 0 <? wkc then
    let aFOEp := rx_mbx r in
    if Z.land (mbxtype (MbxHeader aFOEp)) 0x0f =? ECT_MBXT_FOE then
      if OpCode aFOEp =? ECT_FOE_DATA then
        let segmentdata := uint16 (etohs (length_ (MbxHeader aFOEp)) - 6) in
        let packetnumber := int32 (etohl (PacketNumber aFOEp)) in
        let prevpacket := int32 (r_prevpacket st + 1) in
        if (packetnumber =? prevpacket)
           && (int32 (r_dataread st + segmentdata) <=? buffersize) then
          (* memcpy(p, &aFOEp->Data[0], segmentdata); *)
          let bytes := mem_read (Data aFOEp) 0 segmentdata in
          let buf := memcpy (r_buf st) (r_p st) bytes in
          let dataread := int32 (r_dataread st + segmentdata) in
          let p := r_p st + segmentdata in
          let worktodo := segmentdata =? maxdata in
          (* MbxOut = ecx_getmbx(context); ec_clearmbx(MbxOut); *)
          let MbxOut := pool in
          let cnt := uint8 (ec_nextmbxcnt (r_mbx_cnt st)) in
          let FOEp :=
            {| MbxHeader := {| length_ := htoes 6;
                               address := htoes 0;
                               priority := 0;
                               mbxtype := uint8 (ECT_MBXT_FOE + MBX_HDR_SET_CNT cnt) |};
               OpCode := ECT_FOE_ACK;
               Reserved := 0;
               U32 := htoel (uint32 packetnumber);
               Payload := [] |} in
          (* wkc = ecx_mbxsend(context, slave, MbxOut, EC_TIMEOUTTXM);
             MbxOut = NULL; *)
          let wkc := tx_wkc r in
          let worktodo := if wkc <=? 0 then false else worktodo in
          let ev_hook :=
            if FOEhook a then [Ev_FOEhook (slave a) packetnumber dataread] else [] in
          ({| r_mbx_cnt := cnt; r_psize := dataread; r_buf := buf; r_p := p;
              r_dataread := dataread; r_prevpacket := prevpacket;
              r_MbxIn := MbxIn; r_MbxOut := None; r_wkc := wkc;
              r_pool := S pool |},
           ev_drop ++ ev_rx
           ++ [Ev_memcpy_p (r_p st) bytes; Ev_getmbx MbxOut;
               Ev_mbxsend (MbxOut_buf MbxOut FOEp) cnt wkc]
           ++ ev_hook,
           worktodo)
        else
          ({| r_mbx_cnt := r_mbx_cnt st; r_psize := r_dataread st;
              r_buf := r_buf st; r_p := r_p st;
              r_dataread := r_dataread st; r_prevpacket := prevpacket;
              r_MbxIn := MbxIn; r_MbxOut := r_MbxOut st;
              r_wkc := - EC_ERR_TYPE_FOE_BUF2SMALL; r_pool := pool |},
           ev_drop ++ ev_rx, false)
      else
        let wkc := if OpCode aFOEp =? ECT_FOE_ERROR
                   then - EC_ERR_TYPE_FOE_ERROR
                   else - EC_ERR_TYPE_PACKET_ERROR in
        ({| r_mbx_cnt := r_mbx_cnt st; r_psize := r_dataread st;
            r_buf := r_buf st; r_p := r_p st;
            r_dataread := r_dataread st; r_prevpacket := r_prevpacket st;
            r_MbxIn := MbxIn; r_MbxOut := r_MbxOut st;
            r_wkc := wkc; r_pool := pool |},
         ev_drop ++ ev_rx, false)
    else
      ({| r_mbx_cnt := r_mbx_cnt st; r_psize := r_dataread st;
          r_buf := r_buf st; r_p := r_p st;
          r_dataread := r_dataread st; r_prevpacket := r_prevpacket st;
          r_MbxIn := MbxIn; r_MbxOut := r_MbxOut st;
          r_wkc := - EC_ERR_TYPE_PACKET_ERROR; r_pool := pool |},
       ev_drop ++ ev_rx, false)
  else
    ({| r_mbx_cnt := r_mbx_cnt st; r_psize := r_psize st;
        r_buf := r_buf st; r_p := r_p st;
        r_dataread := r_dataread st; r_prevpacket := r_prevpacket st;
        r_MbxIn := MbxIn; r_MbxOut := r_MbxOut st;
        r_wkc := wkc; r_pool := pool |},
     ev_drop ++ ev_rx, false).

(** The do-while loop: one script entry per turn. *)
Fixpoint FOEread_loop (a : args) (buffersize : Z) (sc : list round)
  (st : rstate) : rstate * list event :=
  match sc with
  | [] => let '(st', ev, _) := FOEread_iter a buffersize silence st in (st', ev)
  | r :: sc' =>
      let '(st', ev, worktodo) := FOEread_iter a buffersize r st in
      if worktodo
      then let '(st'', ev') := FOEread_loop a buffersize sc' st' in (st'', ev ++ ev')
      else (st', ev)
  end.

(** The state when the loop is entered (lines 85-116), for a request that the
    transport took with work counter [wkc]. *)
Definition FOEread_init (a : args) (t : transport) (mbx_cnt psize : Z)
  (buf : list Z) : rstate * list event :=
  (* wkc = ecx_mbxreceive(context, slave, &MbxIn, 0); *)
  let '(MbxIn, pool, ev_rx) := ecx_mbxreceive 0 (stale_wkc t) (stale_mbx t) 0%nat in
  (* MbxOut = ecx_getmbx(context); ec_clearmbx(MbxOut); *)
  let MbxOut := pool in
  let cnt := uint8 (ec_nextmbxcnt mbx_cnt) in
  let FOEp := FOE_request ECT_FOE_READ a cnt in
  (* wkc = ecx_mbxsend(context, slave, MbxOut, EC_TIMEOUTTXM); MbxOut = NULL; *)
  let wkc := req_wkc t in
  ({| r_mbx_cnt := cnt; r_psize := psize; r_buf := buf; r_p := 0;
      r_dataread := 0; r_prevpacket := 0;
      r_MbxIn := MbxIn; r_MbxOut := None; r_wkc := wkc; r_pool := S pool |},
   ev_rx ++ [Ev_getmbx MbxOut; Ev_mbxsend (MbxOut_buf MbxOut FOEp) cnt wkc]).

(** Lines 198-199: the buffers still held are dropped. *)
Definition FOEread_exit (st : rstate) : list event :=
  drop_if (r_MbxIn st) ++ drop_if (r_MbxOut st).

(** What a call leaves behind: the returned work counter, [*psize], the
    caller's buffer, the slave's mailbox counter, the final [dataread], and
    the events in the order they happened. *)
Record rresult := {
  ret : Z;
  psize_out : Z;
  buf_out : list Z;
  mbx_cnt_out : Z;
  dataread_out : Z;
  trace : list event
}.

Definition ecx_FOEread (a : args) (t : transport) (mbx_cnt psize : Z)
  (buf : list Z) : rresult :=
  let buffersize := psize in
  let '(st0, ev0) := FOEread_init a t mbx_cnt psize buf in
  let '(st, ev) :=
    if 0 <? r_wkc st0
    then FOEread_loop a buffersize (script t) st0
    else (st0, []) in
  {| ret := r_wkc st; psize_out := r_psize st; buf_out := r_buf st;
     mbx_cnt_out := r_mbx_cnt st; dataread_out := r_dataread st;
     trace := ev0 ++ ev ++ FOEread_exit st |}.

(** ** [ecx_FOEwrite] *)

(** The variables of [ecx_FOEwrite] that live across turns of the loop.
    [w_FOEp] is the buffer [FOEp] points to and [w_FOEp_mem] what the driver
    has last stored there. *)
Record wstate := {
  w_mbx_cnt : Z;
  w_psize : Z;
  w_p : Z;                (* p, as an offset into the file buffer *)
  w_sendpacket : Z;
  w_segmentdata : Z;
  w_dofinalzero : bool;
  w_MbxIn : option nat;
  w_MbxOut : option nat;
  w_FOEp : nat;
  w_FOEp_mem : ec_FOEt;
  w_wkc : Z;
  w_pool : nat
}.

(** Lines 284-288 and 341-345: [tsize = psize; if (tsize > maxdata) tsize =
    maxdata;] *)
Definition tsize_of (psize maxdata : Z) : Z :=
  if psize >? maxdata then maxdata else psize.

(** Lines 304-314 and 358-368: the DATA packet stored through [FOEp] into a
    buffer that holds [old].  The source copies [segmentdata] octets into
    [uint8 Data[EC_MAXFOEDATA]] and does not compare [maxdata] with
    [EC_MAXFOEDATA]: this is what line 314 and line 368 do while
    [segmentdata <= EC_MAXFOEDATA]; beyond that the copy leaves the array,
    and the theorems on what a packet carries assume
    [maxdata <= EC_MAXFOEDATA]. *)
Definition FOE_data (old : ec_FOEt) (cnt sendpacket segmentdata : Z)
  (bytes : list Z) : ec_FOEt :=
  {| MbxHeader := {| length_ := htoes (uint16 (6 + segmentdata));
                     address := htoes 0;
                     priority := 0;
                     mbxtype := uint8 (ECT_MBXT_FOE + MBX_HDR_SET_CNT cnt) |};
     OpCode := ECT_FOE_DATA;
     Reserved := Reserved old;
     U32 := htoel (uint32 sendpacket);
     Payload := memcpy (Payload old) 0 bytes |}.

(** Lines 262-406: one turn of the do-while loop. *)
Definition FOEwrite_iter (a : args) (buf : list Z) (r : round) (st : wstate)
  : wstate * list event * bool :=
  let maxdata := maxdata_of a in
  let ev_drop := drop_if (w_MbxIn st) in
  let '(MbxIn, pool, ev_rx) :=
    ecx_mbxreceive (timeout a) (rx_wkc r) (rx_mbx r) (w_pool st) in
  let wkc := rx_wkc r in
  (* the state when nothing but MbxIn and wkc changes *)
  let leave (wkc : Z) :=
    ({| w_mbx_cnt := w_mbx_cnt st; w_psize := w_psize st; w_p := w_p st;
        w_sendpacket := w_sendpacket st; w_segmentdata := w_segmentdata st;
        w_dofinalzero := w_dofinalzero st;
        w_MbxIn := MbxIn; w_MbxOut := w_MbxOut st;
        w_FOEp := w_FOEp st; w_FOEp_mem := w_FOEp_mem st;
        w_wkc := wkc; w_pool := pool |},
     ev_drop ++ ev_rx, false) in
  if 0 <? wkc then
    let aFOEp := rx_mbx r in
    if Z.land (mbxtype (MbxHeader aFOEp)) 0x0f =? ECT_MBXT_FOE then
      if OpCode aFOEp =? ECT_FOE_ACK then
        let packetnumber := int32 (etohl (PacketNumber aFOEp)) in
        if packetnumber =? w_sendpacket st then
          let ev_hook :=
            if FOEhook a then [Ev_FOEhook (slave a) packetnumber (w_psize st)] else [] in
          let tsize := tsize_of (w_psize st) maxdata in
          if negb (tsize =? 0) || w_dofinalzero st then
            let segmentdata := tsize in
            let psize := int32 (w_psize st - segmentdata) in
            let dofinalzero := (psize =? 0) && (segmentdata =? maxdata) in
            (* MbxOut = ecx_getmbx(context); ec_clearmbx(MbxOut);
               FOEp = (ec_FOEt * )MbxOut; *)
            let MbxOut := pool in
            let cnt := uint8 (ec_nextmbxcnt (w_mbx_cnt st)) in
            let sendpacket := int32 (w_sendpacket st + 1) in
            let bytes := mem_read buf (w_p st) segmentdata in
            let FOEp := FOE_data ec_clearmbx cnt sendpacket segmentdata bytes in
            let p := w_p st + segmentdata in
            (* wkc = ecx_mbxsend(context, slave, MbxOut, EC_TIMEOUTTXM);
               MbxOut = NULL; *)
            let wkc := tx_wkc r in
            let worktodo := if wkc <=? 0 then false else true in
            ({| w_mbx_cnt := cnt; w_psize := psize; w_p := p;
                w_sendpacket := sendpacket; w_segmentdata := segmentdata;
                w_dofinalzero := dofinalzero;
                w_MbxIn := MbxIn; w_MbxOut := None;
                w_FOEp := MbxOut; w_FOEp_mem := FOEp;
                w_wkc := wkc; w_pool := S pool |},
             ev_drop ++ ev_rx ++ ev_hook
             ++ [Ev_getmbx MbxOut; Ev_mbxsend (MbxOut_buf MbxOut FOEp) cnt wkc],
             worktodo)
          else
            let '(st', ev, w) := leave wkc in (st', ev ++ ev_hook, w)
        else leave (- EC_ERR_TYPE_FOE_PACKETNUMBER)
      else if OpCode aFOEp =? ECT_FOE_BUSY then
        if negb (w_sendpacket st =? 0) then
          let psize := int32 (w_psize st + w_segmentdata st) in
          let p := w_p st - w_segmentdata st in
          let sendpacket := int32 (w_sendpacket st - 1) in
          let tsize := tsize_of psize maxdata in
          if negb (tsize =? 0) || w_dofinalzero st then
            let segmentdata := tsize in
            let psize := int32 (psize - segmentdata) in
            let dofinalzero := (psize =? 0) && (segmentdata =? maxdata) in
            (* no ecx_getmbx here: FOEp still points to the buffer of the
               last send *)
            let cnt := uint8 (ec_nextmbxcnt (w_mbx_cnt st)) in
            let sendpacket := int32 (sendpacket + 1) in
            let bytes := mem_read buf p segmentdata in
            let FOEp := FOE_data (w_FOEp_mem st) cnt sendpacket segmentdata bytes in
            let p := p + segmentdata in
            (* wkc = ecx_mbxsend(context, slave, (ec_mbxbuft * )&MbxOut,
                                 EC_TIMEOUTTXM); *)
            let wkc := tx_wkc r in
            let worktodo := if wkc <=? 0 then false else true in
            ({| w_mbx_cnt := cnt; w_psize := psize; w_p := p;
                w_sendpacket := sendpacket; w_segmentdata := segmentdata;
                w_dofinalzero := dofinalzero;
                w_MbxIn := MbxIn; w_MbxOut := w_MbxOut st;
                w_FOEp := w_FOEp st; w_FOEp_mem := FOEp;
                w_wkc := wkc; w_pool := pool |},
             ev_drop ++ ev_rx
             ++ [Ev_store_FOEp (w_FOEp st) FOEp; Ev_mbxsend MbxOut_addr cnt wkc],
             worktodo)
          else
            ({| w_mbx_cnt := w_mbx_cnt st; w_psize := psize; w_p := p;
                w_sendpacket := sendpacket; w_segmentdata := w_segmentdata st;
                w_dofinalzero := w_dofinalzero st;
                w_MbxIn := MbxIn; w_MbxOut := w_MbxOut st;
                w_FOEp := w_FOEp st; w_FOEp_mem := w_FOEp_mem st;
                w_wkc := wkc; w_pool := pool |},
             ev_drop ++ ev_rx, false)
        else leave wkc
      else if OpCode aFOEp =? ECT_FOE_ERROR then
        if ErrorCode aFOEp =? 0x8001
        then leave (- EC_ERR_TYPE_FOE_FILE_NOTFOUND)
        else leave (- EC_ERR_TYPE_FOE_ERROR)
      else leave (- EC_ERR_TYPE_PACKET_ERROR)
    else leave (- EC_ERR_TYPE_PACKET_ERROR)
  else leave wkc.

(** The do-while loop: one script entry per turn. *)
Fixpoint FOEwrite_loop (a : args) (buf : list Z) (sc : list round)
  (st : wstate) : wstate * list event :=
  match sc with
  | [] => let '(st', ev, _) := FOEwrite_iter a buf silence st in (st', ev)
  | r :: sc' =>
      let '(st', ev, worktodo) := FOEwrite_iter a buf r st in
      if worktodo
      then let '(st'', ev') := FOEwrite_loop a buf sc' st' in (st'', ev ++ ev')
      else (st', ev)
  end.

(** The state when the loop is entered (lines 226-257). *)
Definition FOEwrite_init (a : args) (t : transport) (mbx_cnt psize : Z)
  : wstate * list event :=
  let '(MbxIn, pool, ev_rx) := ecx_mbxreceive 0 (stale_wkc t) (stale_mbx t) 0%nat in
  let MbxOut := pool in
  let cnt := uint8 (ec_nextmbxcnt mbx_cnt) in
  let FOEp := FOE_request ECT_FOE_WRITE a cnt in
  let wkc := req_wkc t in
  ({| w_mbx_cnt := cnt; w_psize := psize; w_p := 0;
      w_sendpacket := 0; w_segmentdata := 0; w_dofinalzero := true;
      w_MbxIn := MbxIn; w_MbxOut := None;
      w_FOEp := MbxOut; w_FOEp_mem := FOEp;
      w_wkc := wkc; w_pool := S pool |},
   ev_rx ++ [Ev_getmbx MbxOut; Ev_mbxsend (MbxOut_buf MbxOut FOEp) cnt wkc]).

(** Lines 409-410. *)
Definition FOEwrite_exit (st : wstate) : list event :=
  drop_if (w_MbxIn st) ++ drop_if (w_MbxOut st).

(** What a call leaves behind: the returned work counter, the slave's
    mailbox counter, the final values of the loop variables, and the
    events in the order they happened. *)
Record wresult := {
  wret : Z;
  wfinal : wstate;
  wtrace : list event
}.

Definition ecx_FOEwrite (a : args) (t : transport) (mbx_cnt psize : Z)
  (buf : list Z) : wresult :=
  let '(st0, ev0) := FOEwrite_init a t mbx_cnt psize in
  let '(st, ev) :=
    if 0 <? w_wkc st0
    then FOEwrite_loop a buf (script t) st0
    else (st0, []) in
  {| wret := w_wkc st; wfinal := st; wtrace := ev0 ++ ev ++ FOEwrite_exit st |}.

(** ** Reaching a turn of the loop *)

(** [FOEread_turns a buffersize pre st = Some (st', ev)]: started in [st],
    the loop goes through the turns [pre], sets [worktodo] in each of them,
    and stands at its head again in [st'], having made the events [ev]. *)
Fixpoint FOEread_turns (a : args) (buffersize : Z) (pre : list round)
  (st : rstate) : option (rstate * list event) :=
  match pre with
  | [] => Some (st, [])
  | r :: pre' =>
      let '(st', ev, worktodo) := FOEread_iter a buffersize r st in
      if worktodo
      then match FOEread_turns a buffersize pre' st' with
           | Some (st'', ev') => Some (st'', ev ++ ev')
           | None => None
           end
      else None
  end.

Fixpoint FOEwrite_turns (a : args) (buf : list Z) (pre : list round)
  (st : wstate) : option (wstate * list event) :=
  match pre with
  | [] => Some (st, [])
  | r :: pre' =>
      let '(st', ev, worktodo) := FOEwrite_iter a buf r st in
      if worktodo
      then match FOEwrite_turns a buf pre' st' with
           | Some (st'', ev') => Some (st'', ev ++ ev')
           | None => None
           end
      else None
  end.

(** The fields of a received mailbox as the drivers decode them. *)
Definition is_FOE (m : ec_FOEt) : Prop :=
  Z.land (mbxtype (MbxHeader m)) 0x0f = ECT_MBXT_FOE.
Definition segmentdata_of (m : ec_FOEt) : Z :=
  uint16 (etohs (length_ (MbxHeader m)) - 6).
Definition packetnumber_of (m : ec_FOEt) : Z :=
  int32 (etohl (PacketNumber m)).

(** The length field of a sent DATA packet covers the six octets before the
    payload and the payload. *)
Definition DATA_header_ok (m : ec_FOEt) : Prop :=
  length_ (MbxHeader m) = htoes (uint16 (6 + Z.of_nat (length (Data m)))).

End Drivers.

(** ** Reading the event log *)

(** The packets with opcode DATA that were passed to [ecx_mbxsend] in a
    mailbox buffer, in order. *)
Fixpoint DATA_sent (tr : list event) : list ec_FOEt :=
  match tr with
  | [] => []
  | Ev_mbxsend (MbxOut_buf _ m) _ _ :: tr' =>
      if OpCode m =? ECT_FOE_DATA then m :: DATA_sent tr' else DATA_sent tr'
  | _ :: tr' => DATA_sent tr'
  end.

(** What was passed to [ecx_mbxsend], call by call, with the slave's
    [mbx_cnt] at the call. *)
Fixpoint sends (tr : list event) : list (sendarg * Z) :=
  match tr with
  | [] => []
  | Ev_mbxsend arg cnt _ :: tr' => (arg, cnt) :: sends tr'
  | _ :: tr' => sends tr'
  end.

(** The segments copied into the caller's buffer by a read, in order. *)
Fixpoint accepted (tr : list event) : list (list Z) :=
  match tr with
  | [] => []
  | Ev_memcpy_p _ bytes :: tr' => bytes :: accepted tr'
  | _ :: tr' => accepted tr'
  end.

Definition size (s : list Z) : Z := Z.of_nat (length s).
Definition total (l : list (list Z)) : Z := fold_right (fun s n => size s + n) 0 l.

(** ** The ledger of mailbox buffers *)

(** The buffers the driver holds: at most one inbound and one outbound. *)
Record held := { h_in : option nat; h_out : option nat }.

Definition nothing_held : held := {| h_in := None; h_out := None |}.

Definition holds (o : option nat) (id : nat) : bool :=
  match o with Some i => Nat.eqb i id | None => false end.

(** One event against the ledger.  The result is [None] when the event
    breaks the discipline: a second inbound or outbound buffer is taken while
    one is held; a buffer that the driver does not hold as outbound is passed
    to [ecx_mbxsend], or something that is no mailbox buffer is; a buffer
    that the driver does not hold as inbound is dropped, so that an outbound
    buffer leaves the driver through [ecx_mbxsend] only; a packet is stored
    through [FOEp] into a buffer that the driver does not hold as outbound.
    [keep_on_failure] says who has the buffer after [ecx_mbxsend] returned a
    work counter that is not positive: the caller, as the spec of the mailbox
    layer has it ([true]), or no longer the caller ([false]). *)
Definition ledger_step (keep_on_failure : bool) (h : held) (e : event)
  : option held :=
  match e with
  | Ev_mbxreceive _ _ (Some (id, _)) =>
      match h_in h with
      | None => Some {| h_in := Some id; h_out := h_out h |}
      | Some _ => None
      end
  | Ev_getmbx id =>
      match h_out h with
      | None => Some {| h_in := h_in h; h_out := Some id |}
      | Some _ => None
      end
  | Ev_mbxsend (MbxOut_buf id _) _ wkc =>
      if holds (h_out h) id
      then if keep_on_failure && (wkc <=? 0)
           then Some h
           else Some {| h_in := h_in h; h_out := None |}
      else None
  | Ev_mbxsend MbxOut_addr _ _ => None
  | Ev_dropmbx id =>
      if holds (h_in h) id then Some {| h_in := None; h_out := h_out h |}
      else None
  | Ev_store_FOEp id _ =>
      if holds (h_out h) id then Some h else None
  | _ => Some h
  end.

Fixpoint ledger (keep_on_failure : bool) (h : held) (tr : list event)
  : option held :=
  match tr with
  | [] => Some h
  | e :: tr' =>
      match ledger_step keep_on_failure h e with
      | Some h' => ledger keep_on_failure h' tr'
      | None => None
      end
  end.

(** Every [ecx_mbxsend] of the log returned a positive work counter. *)
Definition sends_taken (tr : list event) : Prop :=
  Forall (fun e => match e with Ev_mbxsend _ _ wkc => 0 < wkc | _ => True end) tr.

(** ** The mailbox counter along the sends *)

Section Counter.
Context {H : Soem}.

(** [cnt_chain prev l]: along the sends [l], each counter is the successor,
    by [ec_nextmbxcnt], of the one before ([prev] for the first), it is what
    the slave's [mbx_cnt] holds at the call, and a packet sent in a mailbox
    buffer carries it in its mailbox type. *)
Fixpoint cnt_chain (prev : Z) (l : list (sendarg * Z)) : Prop :=
  match l with
  | [] => True
  | (arg, cnt) :: l' =>
      cnt = uint8 (ec_nextmbxcnt prev) /\
      match arg with
      | MbxOut_buf _ m =>
          mbxtype (MbxHeader m) = uint8 (ECT_MBXT_FOE + MBX_HDR_SET_CNT cnt)
      | MbxOut_addr => True
      end /\
      cnt_chain cnt l'
  end.

End Counter.

(** ** Scripted slaves *)

(** A slave with a mailbox of 16 octets, so that [maxdata] is 4, on the
    little-endian host. *)
Definition slave16 : args :=
  {| slave := 1; filename := [97]; password := 0; timeout := 1000;
     mbx_l := 16; FOEhook := true |}.

(** A received FoE mailbox with opcode [op], number [n] and payload [d]. *)
Definition FOE_mbx (op n : Z) (d : list Z) : ec_FOEt :=
  {| MbxHeader := {| length_ := 6 + size d; address := 0; priority := 0;
                     mbxtype := 20 |};
     OpCode := op; Reserved := 0; U32 := n; Payload := d |}.

(** A turn in which the slave answers with [m] and takes what is sent. *)
Definition answer (m : ec_FOEt) : round :=
  {| rx_wkc := 1; rx_mbx := m; tx_wkc := 1 |}.

(** The transport of a call whose request is taken and whose out mailbox
    was empty. *)
Definition session (sc : list round) : transport :=
  {| stale_wkc := 0; stale_mbx := ec_clearmbx; req_wkc := 1; script := sc |}.

(** The transport of a call whose request is not taken. *)
Definition no_session : transport :=
  {| stale_wkc := 0; stale_mbx := ec_clearmbx; req_wkc := 0; script := [] |}.

(** Scenario S4: [maxdata] 4, eight octets to write, the slave answers
    ACK(0), BUSY, ACK(1), ACK(2), ACK(3). *)
Definition S4_file : list Z := [10; 11; 12; 13; 14; 15; 16; 17].
Definition S4_script : list round :=
  [answer (FOE_mbx ECT_FOE_ACK 0 []); answer (FOE_mbx ECT_FOE_BUSY 0 []);
   answer (FOE_mbx ECT_FOE_ACK 1 []); answer (FOE_mbx ECT_FOE_ACK 2 []);
   answer (FOE_mbx ECT_FOE_ACK 3 [])].
Definition S4 : wresult :=
  @ecx_FOEwrite soem_le slave16 (session S4_script) 0 8 S4_file.

(** ** Segmentation *)

(** A list of segments that ends the way FoE marks the end of a file: full
    segments of [maxdata] octets, then one that is strictly shorter. *)
Definition segmented (maxdata : Z) (P : list (list Z)) : Prop :=
  exists P' l, P = P' ++ [l] /\
               Forall (fun s => size s = maxdata) P' /\ size l < maxdata.

(** What the write loop keeps true at its head while the slave acknowledges:
    [sent] are the segments sent so far, of a file [buf]. *)
Definition FOEwrite_inv (maxdata : Z) (buf : list Z) (st : wstate)
  (sent : list (list Z)) : Prop :=
  0 <= w_psize st <= INT32_MAX /\ 0 <= w_p st /\
  w_p st + w_psize st = size buf /\
  concat sent = firstn (Z.to_nat (w_p st)) buf /\
  ((sent = [] /\ w_dofinalzero st = true) \/
   exists S' l, sent = S' ++ [l] /\ Forall (fun s => size s = maxdata) S' /\
                size l <= maxdata /\ (0 < w_psize st -> size l = maxdata) /\
                w_dofinalzero st = (w_psize st =? 0) && (size l =? maxdata)).

(** What the read loop keeps true at its head, for a caller's buffer of
    [buffersize] octets: no outbound buffer is held, and [dataread], which
    is also where the cursor [p] stands, is within the buffer. *)
Definition FOEread_inv (buffersize : Z) (st : rstate) : Prop :=
  r_MbxOut st = None /\ 0 <= r_dataread st <= Z.max 0 buffersize /\
  r_p st = r_dataread st.

(** The DATA packet with counter [cnt], number [n] and payload [d], as the
    write driver on the little-endian host assembles it in a cleared
    buffer. *)
Definition DATA_pkt (cnt n : Z) (d : list Z) : ec_FOEt :=
  @FOE_data soem_le ec_clearmbx cnt n (size d) d.

(** The same file to an acknowledging slave. *)
Definition acks_script : list round :=
  [answer (FOE_mbx ECT_FOE_ACK 0 []); answer (FOE_mbx ECT_FOE_ACK 1 []);
   answer (FOE_mbx ECT_FOE_ACK 2 []); answer (FOE_mbx ECT_FOE_ACK 3 [])].

(** The loop variables that a BUSY rewinds, after the turns [pre] of a
    write of [S4_file]. *)
Definition S4_after (pre : list round) : option (Z * Z * Z * Z) :=
  match @FOEwrite_turns soem_le slave16 S4_file pre
          (fst (@FOEwrite_init soem_le slave16 (session pre) 0 8)) with
  | Some (st, _) => Some (w_psize st, w_p st, w_sendpacket st, w_segmentdata st)
  | None => None
  end.

(** A write of an empty file whose only DATA packet is answered with
    BUSY. *)
Definition empty_BUSY : wresult :=
  @ecx_FOEwrite soem_le slave16
    (session [answer (FOE_mbx ECT_FOE_ACK 0 []); answer (FOE_mbx ECT_FOE_BUSY 0 [])])
    0 0 [].

(** A write of an empty file whose WRITE request is answered with BUSY. *)
Definition BUSY_first : wresult :=
  @ecx_FOEwrite soem_le slave16 (session [answer (FOE_mbx ECT_FOE_BUSY 0 [])]) 0 0 [].

(** A read into a buffer of 100 octets whose request is not taken. *)
Definition read_no_session : rresult :=
  @ecx_FOEread soem_le slave16 no_session 0 100 (repeat 0 100).

(** A read into a buffer of 100 octets with [maxdata] 4; the slave answers
    with one DATA packet of eight octets. *)
Definition read_long_DATA : rresult :=
  @ecx_FOEread soem_le slave16
    (session [answer (FOE_mbx ECT_FOE_DATA 1 [0; 1; 2; 3; 4; 5; 6; 7])])
    0 100 (repeat 0 100).

(** Scenario S2: ten octets read in segments of 4, 4 and 2. *)
Definition S2_script : list round :=
  [answer (FOE_mbx ECT_FOE_DATA 1 [0; 1; 2; 3]);
   answer (FOE_mbx ECT_FOE_DATA 2 [4; 5; 6; 7]);
   answer (FOE_mbx ECT_FOE_DATA 3 [8; 9])].
Definition S2 : rresult :=
  @ecx_FOEread soem_le slave16 (session S2_script) 0 10 (repeat 0 10).

(** The stores through [FOEp] into a buffer passed on before. *)
Fixpoint stores (tr : list event) : list (nat * ec_FOEt) :=
  match tr with
  | [] => []
  | Ev_store_FOEp id m :: tr' => (id, m) :: stores tr'
  | _ :: tr' => stores tr'
  end.

(** The mailbox counter that the receiver of a send finds in the high nibble
    of the mailbox type, when a mailbox buffer was sent. *)
Definition carried_cnt (arg : sendarg) : option Z :=
  match arg with
  | MbxOut_buf _ m => Some (Z.shiftr (mbxtype (MbxHeader m)) 4)
  | MbxOut_addr => None
  end.

(** A read into a buffer of five octets; the slave answers with a DATA
    packet of eight (scenario S3). *)
Definition S3_round : round := answer (FOE_mbx ECT_FOE_DATA 1 [0; 1; 2; 3; 4; 5; 6; 7]).

(** A read of the five octets of "hello" in one short DATA packet
    (scenario S1, with [maxdata] 116). *)
Definition slave128 : args :=
  {| slave := 1; filename := [97]; password := 0; timeout := 1000;
     mbx_l := 128; FOEhook := true |}.
Definition S1_round : round :=
  answer (FOE_mbx ECT_FOE_DATA 1 [104; 101; 108; 108; 111]).

(** The slave answers the WRITE request with ERROR 0x8001 (scenario S5). *)
Definition S5_round : round := answer (FOE_mbx ECT_FOE_ERROR 0x8001 []).

Definition BUSY_round : round := answer (FOE_mbx ECT_FOE_BUSY 0 []).

(** ** [ecx_FOEdefinehook] *)

(** Lines 57-61: [context->FOEhook = hook; return 1;].  Of the pointer only
    whether it is not NULL is kept, as in [FOEhook] of [args]. *)
Definition ecx_FOEdefinehook (a : args) (hook : bool) : args * Z :=
  ({| slave := slave a; filename := filename a; password := password a;
      timeout := timeout a; mbx_l := mbx_l a; FOEhook := hook |}, 1).

(** ** More readings of the event log *)

(** The packets with opcode ACK that were passed to [ecx_mbxsend] in a
    mailbox buffer, in order. *)
Fixpoint ACK_sent (tr : list event) : list ec_FOEt :=
  match tr with
  | [] => []
  | Ev_mbxsend (MbxOut_buf _ m) _ _ :: tr' =>
      if OpCode m =? ECT_FOE_ACK then m :: ACK_sent tr' else ACK_sent tr'
  | _ :: tr' => ACK_sent tr'
  end.

(** The calls of the hook, with their three arguments. *)
Fixpoint hooks (tr : list event) : list (Z * Z * Z) :=
  match tr with
  | [] => []
  | Ev_FOEhook sl n d :: tr' => (sl, n, d) :: hooks tr'
  | _ :: tr' => hooks tr'
  end.

(** [running d l]: the sums of the sizes of the segments [l], one after each
    segment, starting from [d]. *)
Fixpoint running (d : Z) (l : list (list Z)) : list Z :=
  match l with
  | [] => []
  | s :: l' => (d + size s) :: running (d + size s) l'
  end.

Section Accepting.
Context {H : Soem}.

(** The test of the read loop, lines 126-136, on the mailbox of a turn: the
    receive succeeded, the mailbox is an FoE DATA packet, its number is the
    next one and its segment fits the buffer. *)
Definition FOEread_accepts (bs : Z) (r : round) (st : rstate) : bool :=
  (0 <? rx_wkc r)
  && (Z.land (mbxtype (MbxHeader (rx_mbx r))) 0x0f =? ECT_MBXT_FOE)
  && (OpCode (rx_mbx r) =? ECT_FOE_DATA)
  && (packetnumber_of (rx_mbx r) =? int32 (r_prevpacket st + 1))
  && (int32 (r_dataread st + segmentdata_of (rx_mbx r)) <=? bs).

(** The ACK that answers DATA packet number [n], with counter [cnt]. *)
Definition FOE_ack (cnt n : Z) : ec_FOEt :=
  {| MbxHeader := {| length_ := htoes 6; address := htoes 0; priority := 0;
                     mbxtype := uint8 (ECT_MBXT_FOE + MBX_HDR_SET_CNT cnt) |};
     OpCode := ECT_FOE_ACK; Reserved := 0;
     U32 := htoel (uint32 n); Payload := [] |}.

End Accepting.

(** What the read loop keeps true of the caller's buffer [buf], at the head
    of every turn and on return: the segments [acc] accepted so far stand
    at its start, in order, the rest is as the caller passed it, and
    [dataread], where the cursor [p] stands, is their total size. *)
Definition FOEread_landed (bs : Z) (buf : list Z) (st : rstate)
  (acc : list (list Z)) : Prop :=
  r_p st = r_dataread st /\ r_dataread st = total acc /\
  0 <= total acc <= Z.max 0 bs /\
  r_buf st = concat acc ++ skipn (Z.to_nat (total acc)) buf.

(** The hook calls of a read that has accepted the segments [acc] after [n]
    earlier ones of total size [d]. *)
Definition FOEread_hook_calls (sl : Z) (n : nat) (d : Z) (acc : list (list Z))
  : list (Z * Z * Z) :=
  map (fun x => (sl, int32 (Z.of_nat (fst x)), snd x))
      (combine (seq (S n) (length acc)) (running d acc)).

Section Cooperating.
Context {H : Soem}.

(** The octets that the read loop copies from the mailbox of a turn, line
    138.  The mailbox buffer is read as its payload followed by zeros; this
    is what the source reads while [segmentdata <= EC_MAXFOEDATA], the size
    of [Data], and the theorems on what lands in the caller's buffer assume
    that bound. *)
Definition payload_of (r : round) : list Z :=
  mem_read (Data (rx_mbx r)) 0 (segmentdata_of (rx_mbx r)).

(** A turn in which the slave sends an FoE DATA packet and takes the ACK. *)
Definition DATA_turn (r : round) : Prop :=
  0 < rx_wkc r /\ is_FOE (rx_mbx r) /\ OpCode (rx_mbx r) = ECT_FOE_DATA /\
  0 < tx_wkc r.

End Cooperating.

(** ** The turns of the write loop that send *)

Section Sending.
Context {H : Soem}.

(** The tests of the write loop, lines 267-289, that lead to the send of a
    DATA packet in a new mailbox buffer: the receive succeeded, the mailbox
    is an FoE ACK with the number of the last packet, and a segment or the
    final empty packet is due. *)
Definition FOEwrite_sends (a : args) (r : round) (st : wstate) : bool :=
  (0 <? rx_wkc r)
  && (Z.land (mbxtype (MbxHeader (rx_mbx r))) 0x0f =? ECT_MBXT_FOE)
  && (OpCode (rx_mbx r) =? ECT_FOE_ACK)
  && (packetnumber_of (rx_mbx r) =? w_sendpacket st)
  && (negb (tsize_of (w_psize st) (maxdata_of a) =? 0) || w_dofinalzero st).

(** The tests, lines 267-346, that lead to the resend of the BUSY branch. *)
Definition FOEwrite_resends (a : args) (r : round) (st : wstate) : bool :=
  (0 <? rx_wkc r)
  && (Z.land (mbxtype (MbxHeader (rx_mbx r))) 0x0f =? ECT_MBXT_FOE)
  && negb (OpCode (rx_mbx r) =? ECT_FOE_ACK)
  && (OpCode (rx_mbx r) =? ECT_FOE_BUSY)
  && negb (w_sendpacket st =? 0)
  && (negb (tsize_of (int32 (w_psize st + w_segmentdata st)) (maxdata_of a) =? 0)
      || w_dofinalzero st).

(** The numbers 1, 2, ..., as the packet number fields of [k] packets. *)
Definition FOE_numbers (k : nat) : list Z :=
  map (fun i => htoel (uint32 (Z.of_nat i))) (seq 1 k).

(** What the write loop keeps true at its head, whatever the slave answers:
    [sent] are the DATA packets passed on in mailbox buffers so far, of a file
    [buf].  They are numbered from 1, their payloads are the file up to the
    cursor, and the last one is what [segmentdata] and [FOEp] remember. *)
Definition FOEwrite_sent (maxdata : Z) (buf : list Z) (st : wstate)
  (sent : list ec_FOEt) : Prop :=
  0 <= w_psize st /\ 0 <= w_p st /\ w_p st + w_psize st = size buf /\
  concat (map Data sent) = firstn (Z.to_nat (w_p st)) buf /\
  w_sendpacket st = int32 (Z.of_nat (length sent)) /\
  map U32 sent = FOE_numbers (length sent) /\
  Forall DATA_header_ok sent /\
  ((sent = [] /\ w_dofinalzero st = true) \/
   exists S' m, sent = S' ++ [m] /\
     Forall (fun x => size (Data x) = maxdata) S' /\
     size (Data m) <= maxdata /\ size (Data m) <= w_p st /\
     (0 < w_psize st -> size (Data m) = maxdata) /\
     w_dofinalzero st = (w_psize st =? 0) && (size (Data m) =? maxdata) /\
     w_segmentdata st = size (Data m) /\
     Data m = mem_read buf (w_p st - size (Data m)) (size (Data m)) /\
     exists cnt, w_FOEp_mem st
                 = FOE_data ec_clearmbx cnt (w_sendpacket st) (w_segmentdata st) (Data m)).

(** What the DATA packets of a call show on every path: numbers from 1,
    payloads that are the file from its start on, full segments before the
    last. *)
Definition FOEwrite_in_order (maxdata : Z) (buf : list Z) (D : list ec_FOEt)
  : Prop :=
  map U32 D = FOE_numbers (length D) /\
  Forall DATA_header_ok D /\
  (exists n, concat (map Data D) = firstn n buf) /\
  Forall (fun x => size (Data x) = maxdata) (removelast D) /\
  Forall (fun x => size (Data x) <= maxdata) D.

End Sending.

(** ** More scripted slaves *)

(** An ACK with a number that no DATA packet had. *)
Definition ACK7_round : round := answer (FOE_mbx ECT_FOE_ACK 7 []).

(** A DATA packet, which a write does not expect. *)
Definition DATA_round : round := answer (FOE_mbx ECT_FOE_DATA 1 []).

(** The write of [S4_file] to an acknowledging slave, and a slave that
    answers with the DATA packets of that write. *)
Definition S4_acked : wresult :=
  @ecx_FOEwrite soem_le slave16 (session acks_script) 0 8 S4_file.
Definition S4_echo : list round := map answer (DATA_sent (wtrace S4_acked)).


(** * Properties of the drivers *)

Section Properties.
Context {H : Soem}.

(** ** Integers and memory blocks *)

Lemma int32_id z : - 2147483648 <= z <= INT32_MAX -> int32 z = z.
Proof.
  unfold int32, INT32_MAX. intros Hz.
  rewrite Z.mod_small; lia.
Qed.

Lemma memcpy_nil bytes : memcpy [] 0 bytes = bytes.
Proof.
  unfold memcpy. simpl. rewrite skipn_nil. apply app_nil_r.
Qed.

Lemma mem_read_length l off n : length (mem_read l off n) = Z.to_nat n.
Proof.
  unfold mem_read. rewrite length_firstn, length_app, repeat_length. lia.
Qed.

Lemma size_mem_read l off n : 0 <= n -> size (mem_read l off n) = n.
Proof.
  intros Hn. unfold size. rewrite mem_read_length. lia.
Qed.

Lemma mem_read_inside l off n :
  0 <= off -> 0 <= n -> off + n <= size l ->
  mem_read l off n = firstn (Z.to_nat n) (skipn (Z.to_nat off) l).
Proof.
  unfold mem_read, size. intros Ho Hn Hl.
  rewrite firstn_app.
  replace (Z.to_nat n - length (skipn (Z.to_nat off) l))%nat with 0%nat
    by (rewrite length_skipn; lia).
  simpl. apply app_nil_r.
Qed.

Lemma firstn_mem_read l off n :
  0 <= off -> 0 <= n -> off + n <= size l ->
  firstn (Z.to_nat off) l ++ mem_read l off n = firstn (Z.to_nat (off + n)) l.
Proof.
  intros Ho Hn Hl. rewrite mem_read_inside by assumption.
  rewrite Z2Nat.inj_add by assumption.
  rewrite <- (firstn_skipn (Z.to_nat off) l) at 3.
  rewrite firstn_app, length_firstn.
  unfold size in Hl.
  replace (Nat.min (Z.to_nat off) (length l)) with (Z.to_nat off) by lia.
  rewrite firstn_firstn.
  replace (Nat.min (Z.to_nat off + Z.to_nat n) (Z.to_nat off)) with (Z.to_nat off) by lia.
  f_equal. f_equal. lia.
Qed.

(** ** The event log under concatenation *)

Lemma DATA_sent_app tr1 tr2 : DATA_sent (tr1 ++ tr2) = DATA_sent tr1 ++ DATA_sent tr2.
Proof.
  induction tr1 as [|e tr1 IH]; simpl; [reflexivity|].
  destruct e as [| |[id m|]| | | |]; try assumption.
  destruct (OpCode m =? ECT_FOE_DATA); simpl; congruence.
Qed.

Lemma sends_app tr1 tr2 : sends (tr1 ++ tr2) = sends tr1 ++ sends tr2.
Proof.
  induction tr1 as [|e tr1 IH]; simpl; [reflexivity|].
  destruct e; simpl; congruence.
Qed.

Lemma accepted_app tr1 tr2 : accepted (tr1 ++ tr2) = accepted tr1 ++ accepted tr2.
Proof.
  induction tr1 as [|e tr1 IH]; simpl; [reflexivity|].
  destruct e; simpl; congruence.
Qed.

Lemma total_app l1 l2 : total (l1 ++ l2) = total l1 + total l2.
Proof.
  induction l1 as [|s l1 IH]; simpl; lia.
Qed.

Lemma ledger_app k h tr1 tr2 :
  ledger k h (tr1 ++ tr2) =
  match ledger k h tr1 with Some h' => ledger k h' tr2 | None => None end.
Proof.
  revert h. induction tr1 as [|e tr1 IH]; intros h; simpl; [reflexivity|].
  destruct (ledger_step k h e); [apply IH | reflexivity].
Qed.

Lemma DATA_sent_drop_if o : DATA_sent (drop_if o) = [].
Proof. destruct o; reflexivity. Qed.

Lemma sends_drop_if o : sends (drop_if o) = [].
Proof. destruct o; reflexivity. Qed.

Lemma accepted_drop_if o : accepted (drop_if o) = [].
Proof. destruct o; reflexivity. Qed.

(** ** Turns and the loop *)

Lemma FOEwrite_loop_turns a buf pre sc st st' ev :
  FOEwrite_turns a buf pre st = Some (st', ev) ->
  FOEwrite_loop a buf (pre ++ sc) st =
  (fst (FOEwrite_loop a buf sc st'), ev ++ snd (FOEwrite_loop a buf sc st')).
Proof.
  revert st ev. induction pre as [|r pre IH]; intros st ev Ht; simpl in *.
  - inversion Ht; subst. simpl. destruct (FOEwrite_loop a buf sc st'); reflexivity.
  - destruct (FOEwrite_iter a buf r st) as [[st1 ev1] [|]]; [|discriminate].
    destruct (FOEwrite_turns a buf pre st1) as [[st2 ev2]|] eqn:Ht1; [|discriminate].
    inversion Ht; subst. rewrite (IH _ _ Ht1).
    destruct (FOEwrite_loop a buf sc st'); simpl. now rewrite app_assoc.
Qed.

Lemma FOEread_loop_turns a bs pre sc st st' ev :
  FOEread_turns a bs pre st = Some (st', ev) ->
  FOEread_loop a bs (pre ++ sc) st =
  (fst (FOEread_loop a bs sc st'), ev ++ snd (FOEread_loop a bs sc st')).
Proof.
  revert st ev. induction pre as [|r pre IH]; intros st ev Ht; simpl in *.
  - inversion Ht; subst. simpl. destruct (FOEread_loop a bs sc st'); reflexivity.
  - destruct (FOEread_iter a bs r st) as [[st1 ev1] [|]]; [|discriminate].
    destruct (FOEread_turns a bs pre st1) as [[st2 ev2]|] eqn:Ht1; [|discriminate].
    inversion Ht; subst. rewrite (IH _ _ Ht1).
    destruct (FOEread_loop a bs sc st'); simpl. now rewrite app_assoc.
Qed.

(** ** The write driver: what holds at the head of the loop *)

Ltac split_ifs :=
  repeat match goal with
         | |- context [if ?b then _ else _] => destruct b
         end.

Lemma FOEwrite_init_fields a t mbx_cnt psize :
  let st := fst (FOEwrite_init a t mbx_cnt psize) in
  w_wkc st = req_wkc t /\ w_MbxOut st = None /\ w_sendpacket st = 0 /\
  w_psize st = psize /\ w_p st = 0 /\ w_dofinalzero st = true /\
  DATA_sent (snd (FOEwrite_init a t mbx_cnt psize)) = [].
Proof.
  unfold FOEwrite_init, ecx_mbxreceive.
  destruct (0 <? stale_wkc t); simpl; repeat split.
Qed.

Lemma FOEwrite_iter_MbxOut a buf r st :
  w_MbxOut st = None -> w_MbxOut (fst (fst (FOEwrite_iter a buf r st))) = None.
Proof.
  intros HO. unfold FOEwrite_iter, ecx_mbxreceive.
  split_ifs; simpl; auto.
Qed.

Lemma FOEwrite_turns_MbxOut a buf pre st st' ev :
  FOEwrite_turns a buf pre st = Some (st', ev) ->
  w_MbxOut st = None -> w_MbxOut st' = None.
Proof.
  revert st ev. induction pre as [|r pre IH]; intros st ev Ht HO; simpl in Ht.
  - now inversion Ht; subst.
  - pose proof (FOEwrite_iter_MbxOut a buf r st HO) as H1.
    destruct (FOEwrite_iter a buf r st) as [[st1 ev1] [|]]; [|discriminate].
    destruct (FOEwrite_turns a buf pre st1) as [[st2 ev2]|] eqn:Ht1; [|discriminate].
    inversion Ht; subst. eapply IH; eauto.
Qed.

(** A call whose request was taken and whose loop has reached, after the
    turns [pre], the turn [r] in which it stops. *)
Lemma ecx_FOEwrite_stops a t mbx_cnt psize buf pre r rest st ev st' ev' :
  0 < req_wkc t -> script t = pre ++ r :: rest ->
  FOEwrite_turns a buf pre (fst (FOEwrite_init a t mbx_cnt psize)) = Some (st, ev) ->
  FOEwrite_iter a buf r st = (st', ev', false) ->
  ecx_FOEwrite a t mbx_cnt psize buf =
  {| wret := w_wkc st'; wfinal := st';
     wtrace := snd (FOEwrite_init a t mbx_cnt psize) ++ (ev ++ ev')
               ++ FOEwrite_exit st' |}.
Proof.
  intros Hreq Hsc Ht Hit. unfold ecx_FOEwrite.
  destruct (FOEwrite_init_fields a t mbx_cnt psize) as (Hw & _).
  destruct (FOEwrite_init a t mbx_cnt psize) as [st0 ev0]; simpl in *.
  rewrite Hw. rewrite (proj2 (Z.ltb_lt _ _) Hreq).
  rewrite Hsc, (FOEwrite_loop_turns _ _ _ _ _ _ _ Ht). simpl.
  rewrite Hit. reflexivity.
Qed.

(** The turn of the write loop that receives ERROR. *)
Lemma FOEwrite_iter_ERROR a buf r st :
  0 < rx_wkc r -> is_FOE (rx_mbx r) -> OpCode (rx_mbx r) = ECT_FOE_ERROR ->
  FOEwrite_iter a buf r st =
  ({| w_mbx_cnt := w_mbx_cnt st; w_psize := w_psize st; w_p := w_p st;
      w_sendpacket := w_sendpacket st; w_segmentdata := w_segmentdata st;
      w_dofinalzero := w_dofinalzero st;
      w_MbxIn := Some (w_pool st); w_MbxOut := w_MbxOut st;
      w_FOEp := w_FOEp st; w_FOEp_mem := w_FOEp_mem st;
      w_wkc := if ErrorCode (rx_mbx r) =? 0x8001
               then - EC_ERR_TYPE_FOE_FILE_NOTFOUND
               else - EC_ERR_TYPE_FOE_ERROR;
      w_pool := S (w_pool st) |},
   drop_if (w_MbxIn st)
   ++ [Ev_mbxreceive (timeout a) (rx_wkc r) (Some (w_pool st, rx_mbx r))],
   false).
Proof.
  intros Hwkc HF Hop. unfold FOEwrite_iter, ecx_mbxreceive.
  rewrite (proj2 (Z.ltb_lt _ _) Hwkc). unfold is_FOE in HF.
  rewrite HF, Z.eqb_refl, Hop. simpl.
  destruct (ErrorCode (rx_mbx r) =? 0x8001); reflexivity.
Qed.

(** The turn of the write loop that receives BUSY while [sendpacket] is 0:
    nothing changes but [MbxIn] and [wkc], nothing is sent, and [worktodo]
    stays FALSE. *)
Lemma FOEwrite_iter_BUSY_0 a buf r st :
  0 < rx_wkc r -> is_FOE (rx_mbx r) -> OpCode (rx_mbx r) = ECT_FOE_BUSY ->
  w_sendpacket st = 0 ->
  FOEwrite_iter a buf r st =
  ({| w_mbx_cnt := w_mbx_cnt st; w_psize := w_psize st; w_p := w_p st;
      w_sendpacket := w_sendpacket st; w_segmentdata := w_segmentdata st;
      w_dofinalzero := w_dofinalzero st;
      w_MbxIn := Some (w_pool st); w_MbxOut := w_MbxOut st;
      w_FOEp := w_FOEp st; w_FOEp_mem := w_FOEp_mem st;
      w_wkc := rx_wkc r; w_pool := S (w_pool st) |},
   drop_if (w_MbxIn st)
   ++ [Ev_mbxreceive (timeout a) (rx_wkc r) (Some (w_pool st, rx_mbx r))],
   false).
Proof.
  intros Hwkc HF Hop H0. unfold FOEwrite_iter, ecx_mbxreceive.
  rewrite (proj2 (Z.ltb_lt _ _) Hwkc). unfold is_FOE in HF.
  rewrite HF, Z.eqb_refl, Hop, H0. reflexivity.
Qed.

(** C8.  When the write loop receives an ERROR packet, in whatever turn, the
    call returns minus EC_ERR_TYPE_FOE_FILE_NOTFOUND if the ErrorCode field
    reads 0x8001 and minus EC_ERR_TYPE_FOE_ERROR otherwise, a negative
    number; after the receive the only event is the release of the received
    buffer, so nothing more is sent and the rest of the script is not
    looked at. *)
Theorem FOEwrite_ERROR_terminates a t mbx_cnt psize buf pre r rest st ev :
  0 < req_wkc t -> script t = pre ++ r :: rest ->
  FOEwrite_turns a buf pre (fst (FOEwrite_init a t mbx_cnt psize)) = Some (st, ev) ->
  0 < rx_wkc r -> is_FOE (rx_mbx r) -> OpCode (rx_mbx r) = ECT_FOE_ERROR ->
  let res := ecx_FOEwrite a t mbx_cnt psize buf in
  wret res = (if ErrorCode (rx_mbx r) =? 0x8001
              then - EC_ERR_TYPE_FOE_FILE_NOTFOUND
              else - EC_ERR_TYPE_FOE_ERROR)
  /\ wret res < 0
  /\ wtrace res =
     snd (FOEwrite_init a t mbx_cnt psize) ++ ev ++ drop_if (w_MbxIn st)
     ++ [Ev_mbxreceive (timeout a) (rx_wkc r) (Some (w_pool st, rx_mbx r));
         Ev_dropmbx (w_pool st)]
  /\ sends (wtrace res) = sends (snd (FOEwrite_init a t mbx_cnt psize) ++ ev).
Proof.
  intros Hreq Hsc Ht Hwkc HF Hop res.
  pose proof (FOEwrite_iter_ERROR a buf r st Hwkc HF Hop) as Hit.
  assert (HO : w_MbxOut st = None).
  { eapply FOEwrite_turns_MbxOut; eauto.
    apply (FOEwrite_init_fields a t mbx_cnt psize). }
  unfold res. rewrite (ecx_FOEwrite_stops _ _ _ _ _ _ _ _ _ _ _ _ Hreq Hsc Ht Hit).
  unfold FOEwrite_exit. simpl. rewrite HO. simpl.
  pose proof EC_ERR_TYPE_positive as (_ & He & _ & _ & Hn).
  repeat split.
  - destruct (ErrorCode (rx_mbx r) =? 0x8001); lia.
  - now rewrite <- !app_assoc.
  - rewrite !sends_app, sends_drop_if. simpl. now rewrite !app_nil_r.
Qed.

(** Whatever the state, the turn that receives BUSY passes no mailbox
    buffer to [ecx_mbxsend] and takes none from the pool. *)
Lemma FOEwrite_iter_BUSY_sends a buf r st :
  0 < rx_wkc r -> is_FOE (rx_mbx r) -> OpCode (rx_mbx r) = ECT_FOE_BUSY ->
  Forall (fun x => fst x = MbxOut_addr) (sends (snd (fst (FOEwrite_iter a buf r st))))
  /\ DATA_sent (snd (fst (FOEwrite_iter a buf r st))) = [].
Proof.
  intros Hwkc HF Hop. unfold FOEwrite_iter, ecx_mbxreceive.
  rewrite (proj2 (Z.ltb_lt _ _) Hwkc). unfold is_FOE in HF.
  rewrite HF, Z.eqb_refl, Hop. simpl (ECT_FOE_BUSY =? ECT_FOE_ACK).
  simpl (ECT_FOE_BUSY =? ECT_FOE_BUSY). cbv iota zeta.
  destruct (w_MbxIn st); split_ifs; simpl; split;
    repeat constructor.
Qed.

(** C10.  A BUSY packet received while [sendpacket] is 0 leaves [worktodo]
    FALSE and the work counter of the receive in [wkc]; when it answers the
    WRITE request the call returns that positive work counter although no
    DATA packet, and nothing else after the request, has been sent. *)
Theorem FOEwrite_BUSY_before_DATA a t mbx_cnt psize buf r rest :
  0 < req_wkc t -> script t = r :: rest ->
  0 < rx_wkc r -> is_FOE (rx_mbx r) -> OpCode (rx_mbx r) = ECT_FOE_BUSY ->
  (forall st, w_sendpacket st = 0 ->
     snd (FOEwrite_iter a buf r st) = false /\
     w_wkc (fst (fst (FOEwrite_iter a buf r st))) = rx_wkc r /\
     sends (snd (fst (FOEwrite_iter a buf r st))) = []) /\
  let res := ecx_FOEwrite a t mbx_cnt psize buf in
  wret res = rx_wkc r /\ 0 < wret res /\
  DATA_sent (wtrace res) = [] /\
  length (sends (wtrace res)) = 1%nat /\
  w_psize (wfinal res) = psize /\ w_p (wfinal res) = 0.
Proof.
  intros Hreq Hsc Hwkc HF Hop. split.
  - intros st H0. rewrite (FOEwrite_iter_BUSY_0 a buf r st Hwkc HF Hop H0).
    simpl. rewrite sends_app, sends_drop_if. repeat split.
  - intros res.
    destruct (FOEwrite_init_fields a t mbx_cnt psize) as (_ & HO & H0 & Hp & Hc & _ & HD).
    pose proof (FOEwrite_iter_BUSY_0 a buf r _ Hwkc HF Hop H0) as Hit.
    unfold res.
    rewrite (ecx_FOEwrite_stops a t mbx_cnt psize buf [] r rest _ [] _ _ Hreq Hsc eq_refl Hit).
    unfold FOEwrite_exit. simpl. rewrite HO, Hp, Hc. simpl.
    rewrite !DATA_sent_app, !sends_app, HD, DATA_sent_drop_if, sends_drop_if.
    repeat split; try assumption.
    unfold FOEwrite_init, ecx_mbxreceive. destruct (0 <? stale_wkc t); reflexivity.
Qed.

(** ** The write driver: segmentation *)

Lemma size_app (l1 l2 : list Z) : size (l1 ++ l2) = size l1 + size l2.
Proof. unfold size. rewrite length_app. lia. Qed.

Lemma size_0_nil (l : list Z) : size l = 0 -> l = [].
Proof. destruct l; [reflexivity | unfold size; simpl; lia]. Qed.

Lemma size_concat_full m (P : list (list Z)) :
  Forall (fun s => size s = m) P -> size (concat P) = Z.of_nat (length P) * m.
Proof.
  induction 1 as [|s P Hs _ IH]; [reflexivity|].
  simpl concat. rewrite size_app, IH, Hs. simpl length. lia.
Qed.

(** One turn of the write loop that does not receive BUSY: if it sets
    [worktodo] the invariant holds again, with the segment it has sent; if it
    leaves the loop with a positive work counter, the segments sent are the
    whole file and end with a short one. *)
Lemma FOEwrite_iter_segments a buf r st sent st' ev w :
  0 < maxdata_of a ->
  FOEwrite_inv (maxdata_of a) buf st sent ->
  OpCode (rx_mbx r) <> ECT_FOE_BUSY ->
  FOEwrite_iter a buf r st = (st', ev, w) ->
  (w = true -> FOEwrite_inv (maxdata_of a) buf st' (sent ++ map Data (DATA_sent ev))) /\
  (w = false -> 0 < w_wkc st' ->
   DATA_sent ev = [] /\ concat sent = buf /\ segmented (maxdata_of a) sent).
Proof.
  intros Hmax (Hps & Hp & Hsum & Hcat & Hshape) Hnb Hit.
  pose proof EC_ERR_TYPE_positive as (Hpe & Hfe & _ & Hpn & Hnf).
  unfold FOEwrite_iter, ecx_mbxreceive in Hit.
  destruct (0 <? rx_wkc r) eqn:Hrx; cbv zeta in Hit.
  2:{ inversion Hit; subst; simpl. apply Z.ltb_ge in Hrx.
      split; [discriminate | intros; lia]. }
  destruct (Z.land (mbxtype (MbxHeader (rx_mbx r))) 0x0f =? ECT_MBXT_FOE).
  2:{ inversion Hit; subst; simpl. split; [discriminate | intros; lia]. }
  destruct (OpCode (rx_mbx r) =? ECT_FOE_ACK).
  - destruct (int32 (etohl (PacketNumber (rx_mbx r))) =? w_sendpacket st).
    2:{ inversion Hit; subst; simpl. split; [discriminate | intros; lia]. }
    set (ts := tsize_of (w_psize st) (maxdata_of a)) in *.
    assert (Hts : 0 <= ts <= w_psize st /\ ts <= maxdata_of a /\
                  (ts < w_psize st -> ts = maxdata_of a)).
    { unfold ts, tsize_of. destruct (w_psize st >? maxdata_of a) eqn:E.
      - apply Z.gtb_lt in E. lia.
      - rewrite Z.gtb_ltb in E. apply Z.ltb_ge in E. lia. }
    destruct (negb (ts =? 0) || w_dofinalzero st) eqn:Hgo.
    + (* a segment is sent *)
      destruct (tx_wkc r <=? 0) eqn:Htx.
      { inversion Hit; subst; simpl. apply Z.leb_le in Htx.
        split; [discriminate | intros; lia]. }
      inversion Hit; subst; clear Hit. split; [intros _ | discriminate].
      rewrite DATA_sent_app, DATA_sent_drop_if. simpl.
      assert (Hev : DATA_sent (if FOEhook a
                       then [Ev_FOEhook (slave a)
                               (int32 (etohl (PacketNumber (rx_mbx r)))) (w_psize st)]
                       else []) = []) by (destruct (FOEhook a); reflexivity).
      rewrite DATA_sent_app, Hev. simpl. rewrite memcpy_nil.
      assert (Hsz : size (mem_read buf (w_p st) ts) = ts) by (apply size_mem_read; lia).
      unfold FOEwrite_inv. simpl.
      rewrite int32_id by (unfold INT32_MAX in *; lia).
      repeat split; try lia.
      * rewrite concat_app. simpl. rewrite app_nil_r, Hcat.
        apply firstn_mem_read; lia.
      * right. exists sent, (mem_read buf (w_p st) ts).
        rewrite Hsz. repeat split; try lia.
        destruct Hshape as [(-> & _) | (sent' & l & -> & HS' & Hl & Hfull & Hdfz)];
          [constructor|].
        apply Forall_app. split; [assumption|]. constructor; [|constructor].
        destruct (Z.eq_dec (w_psize st) 0) as [E0|E0]; [|lia].
        assert (ts = 0) by lia.
        rewrite Hdfz, E0 in Hgo. replace (ts =? 0) with true in Hgo
          by (symmetry; apply Z.eqb_eq; assumption).
        simpl in Hgo. apply Z.eqb_eq in Hgo. assumption.
    + (* nothing is left to send *)
      apply orb_false_iff in Hgo. destruct Hgo as (Hz & Hdfz0).
      apply negb_false_iff, Z.eqb_eq in Hz.
      inversion Hit; subst; clear Hit. split; [discriminate | intros _ _].
      rewrite !DATA_sent_app, DATA_sent_drop_if. simpl.
      assert (Hps0 : w_psize st = 0) by lia.
      split; [destruct (FOEhook a); reflexivity|].
      split.
      * rewrite Hcat. apply firstn_all2. unfold size in Hsum. lia.
      * destruct Hshape as [(_ & Ht) | (sent' & l & -> & HS' & Hl & Hfull & Hdfz)];
          [congruence|].
        exists sent', l. repeat split; [assumption|].
        rewrite Hdfz0, Hps0 in Hdfz. simpl in Hdfz.
        symmetry in Hdfz. apply Z.eqb_neq in Hdfz. lia.
  - destruct (OpCode (rx_mbx r) =? ECT_FOE_BUSY) eqn:Hb.
    { apply Z.eqb_eq in Hb. contradiction. }
    destruct (OpCode (rx_mbx r) =? ECT_FOE_ERROR).
    + destruct (ErrorCode (rx_mbx r) =? 0x8001);
        inversion Hit; subst; simpl; (split; [discriminate | intros; lia]).
    + inversion Hit; subst; simpl. split; [discriminate | intros; lia].
Qed.

Lemma tsize_of_nonneg psize maxdata :
  0 <= psize -> 0 <= maxdata -> 0 <= tsize_of psize maxdata.
Proof.
  intros. unfold tsize_of. destruct (psize >? maxdata); assumption.
Qed.

Lemma maxdata_of_nonneg a : 0 <= maxdata_of a.
Proof.
  unfold maxdata_of, uint16. apply Z.mod_pos_bound. lia.
Qed.

(** The DATA packets that a turn sends in a mailbox buffer carry the length
    of their payload. *)
Lemma FOEwrite_iter_DATA_header a buf r st :
  0 <= w_psize st ->
  Forall DATA_header_ok (DATA_sent (snd (fst (FOEwrite_iter a buf r st)))).
Proof.
  intros Hps.
  pose proof (tsize_of_nonneg _ _ Hps (maxdata_of_nonneg a)) as Hts.
  unfold FOEwrite_iter, ecx_mbxreceive.
  destruct (w_MbxIn st); destruct (FOEhook a); split_ifs; simpl;
    try constructor; try constructor.
  all: unfold DATA_header_ok; simpl; rewrite memcpy_nil, mem_read_length;
    now rewrite Z2Nat.id by assumption.
Qed.

Lemma FOEwrite_loop_segments a buf sc :
  0 < maxdata_of a ->
  Forall (fun r => OpCode (rx_mbx r) <> ECT_FOE_BUSY) sc ->
  forall st sent,
  FOEwrite_inv (maxdata_of a) buf st sent ->
  Forall DATA_header_ok (DATA_sent (snd (FOEwrite_loop a buf sc st))) /\
  (0 < w_wkc (fst (FOEwrite_loop a buf sc st)) ->
   let P := sent ++ map Data (DATA_sent (snd (FOEwrite_loop a buf sc st))) in
   concat P = buf /\ segmented (maxdata_of a) P).
Proof.
  intros Hmax Hsc. induction Hsc as [|r sc Hr Hsc IH]; intros st sent HI;
    cbn [FOEwrite_loop].
  - pose proof (FOEwrite_iter_DATA_header a buf silence st (proj1 (proj1 HI))) as Hh.
    destruct (FOEwrite_iter a buf silence st) as [[st1 ev1] w] eqn:Hit.
    cbn [fst snd] in *. split; [exact Hh|]. intros Hw. exfalso.
    unfold FOEwrite_iter, ecx_mbxreceive in Hit. simpl in Hit.
    inversion Hit; subst. simpl in Hw. lia.
  - pose proof (FOEwrite_iter_DATA_header a buf r st (proj1 (proj1 HI))) as Hh.
    destruct (FOEwrite_iter a buf r st) as [[st1 ev1] w] eqn:Hit.
    destruct (FOEwrite_iter_segments _ _ _ _ _ _ _ _ Hmax HI Hr Hit) as (Ht & Hf).
    cbn [fst snd] in Hh.
    destruct w.
    + destruct (IH st1 _ (Ht eq_refl)) as (IHh & IHs).
      destruct (FOEwrite_loop a buf sc st1) as [st2 ev2]; simpl in *.
      rewrite DATA_sent_app. split.
      * apply Forall_app. split; assumption.
      * intros Hw. rewrite map_app, app_assoc. apply IHs. assumption.
    + simpl in *. split; [exact Hh|]. intros Hw.
      destruct (Hf eq_refl Hw) as (-> & Hc & Hs).
      simpl. rewrite app_nil_r. split; assumption.
Qed.

(** C1, as amended.  In every call of [ecx_FOEwrite] that returns a
    positive work counter and in which the slave never answers BUSY, for a
    file of [psize] octets and a slave with a positive [maxdata] that is
    not more than [EC_MAXFOEDATA], the size of [Data]: the DATA packets
    sent carry the file in order, all of them are full but the
    last, and the last is strictly shorter than [maxdata].  An empty file
    is sent as exactly one DATA packet without payload, and a file whose
    size is a positive multiple of [maxdata] ends with a full packet
    followed by a DATA packet without payload.  No payload is longer than
    [Data]. *)
Theorem FOEwrite_ends_with_short_DATA a t mbx_cnt psize buf :
  0 < maxdata_of a -> maxdata_of a <= EC_MAXFOEDATA ->
  0 <= psize <= INT32_MAX -> psize = size buf ->
  Forall (fun r => OpCode (rx_mbx r) <> ECT_FOE_BUSY) (script t) ->
  0 < wret (ecx_FOEwrite a t mbx_cnt psize buf) ->
  let D := DATA_sent (wtrace (ecx_FOEwrite a t mbx_cnt psize buf)) in
  let P := map Data D in
  Forall DATA_header_ok D /\
  concat P = buf /\
  segmented (maxdata_of a) P /\
  (psize = 0 -> P = [[]]) /\
  (0 < psize -> psize mod maxdata_of a = 0 ->
   exists P' s, P = P' ++ [s; []] /\ size s = maxdata_of a) /\
  Forall (fun s => size s <= EC_MAXFOEDATA) P.
Proof.
  intros Hmax Harr Hps Hsz Hnb Hret D P.
  assert (HI : FOEwrite_inv (maxdata_of a) buf
                 (fst (FOEwrite_init a t mbx_cnt psize)) []).
  { destruct (FOEwrite_init_fields a t mbx_cnt psize) as (_ & _ & _ & Hp & Hc & Hd & _).
    unfold FOEwrite_inv. rewrite Hp, Hc, Hd. simpl.
    repeat split; try lia. left. split; reflexivity. }
  assert (HD : Forall DATA_header_ok D /\ concat P = buf /\ segmented (maxdata_of a) P).
  { unfold P, D. clear P D. unfold ecx_FOEwrite in *.
    destruct (FOEwrite_init_fields a t mbx_cnt psize) as (Hw & _ & _ & _ & _ & _ & HD0).
    destruct (FOEwrite_init a t mbx_cnt psize) as [st0 ev0]; simpl in *.
    destruct (0 <? w_wkc st0) eqn:E.
    - destruct (FOEwrite_loop_segments a buf (script t) Hmax Hnb st0 [] HI) as (Hh & Hs).
      destruct (FOEwrite_loop a buf (script t) st0) as [st ev]; simpl in *.
      unfold FOEwrite_exit.
      rewrite !DATA_sent_app, HD0, !DATA_sent_drop_if, !app_nil_r. simpl.
      split; [assumption|]. apply Hs. assumption.
    - exfalso. simpl in Hret. apply Z.ltb_ge in E. lia. }
  destruct HD as (Hh & Hc & Hs). repeat split; try assumption.
  - intros H0. destruct Hs as (P' & l & HP & Hfull & Hl).
    assert (Hb : buf = []) by (apply size_0_nil; lia).
    rewrite HP, Hb, concat_app in Hc. simpl in Hc. rewrite app_nil_r in Hc.
    apply app_eq_nil in Hc. destruct Hc as (Hc1 & ->). rewrite HP.
    destruct Hfull as [|s P'' Hs' _]; [reflexivity|].
    simpl in Hc1. apply app_eq_nil in Hc1. destruct Hc1 as (-> & _).
    unfold size in Hs'. simpl in Hs'. lia.
  - intros Hpos Hmod. destruct Hs as (P' & l & HP & Hfull & Hl).
    assert (Hl0 : 0 <= size l) by (unfold size; lia).
    assert (Hsize : psize = Z.of_nat (length P') * maxdata_of a + size l).
    { rewrite Hsz, <- Hc, HP, concat_app, size_app, (size_concat_full _ _ Hfull).
      simpl. rewrite app_nil_r. reflexivity. }
    assert (Hlz : size l = 0).
    { rewrite Hsize in Hmod. rewrite Z.add_comm, Z.mod_add in Hmod by lia.
      rewrite Z.mod_small in Hmod by lia. assumption. }
    apply size_0_nil in Hlz as Hnil. subst l.
    destruct (exists_last (l := P')) as (P'' & s & HP').
    { intros ->. simpl in Hsize. unfold size in Hsize. simpl in Hsize. lia. }
    exists P'', s. subst P'. rewrite <- app_assoc in HP. split; [exact HP|].
    apply Forall_app in Hfull. destruct Hfull as (_ & Hs').
    now inversion Hs'.
  - destruct Hs as (P' & l & HP & Hfull & Hl). rewrite HP.
    apply Forall_app. split.
    + eapply Forall_impl; [|exact Hfull]. intros x Hx. cbv beta in Hx. lia.
    + constructor; [lia | constructor].
Qed.

(** ** The read driver *)

Lemma FOEread_init_fields a t mbx_cnt psize buf :
  let st := fst (FOEread_init a t mbx_cnt psize buf) in
  r_wkc st = req_wkc t /\ r_psize st = psize /\ r_buf st = buf /\
  r_dataread st = 0 /\ r_prevpacket st = 0 /\ FOEread_inv psize st /\
  accepted (snd (FOEread_init a t mbx_cnt psize buf)) = [].
Proof.
  unfold FOEread_init, ecx_mbxreceive, FOEread_inv.
  destruct (0 <? stale_wkc t); simpl; repeat split; lia.
Qed.

Lemma segmentdata_of_range m : 0 <= segmentdata_of m < 65536.
Proof.
  unfold segmentdata_of, uint16. apply Z.mod_pos_bound. lia.
Qed.

(** One turn of the read loop. *)
Ltac stop_case :=
  split; [repeat split; (assumption || lia)
         | split; [discriminate | intros _ ?; lia]].

Lemma FOEread_iter_spec a bs r st st' ev w :
  bs + 65535 <= INT32_MAX ->
  FOEread_inv bs st ->
  FOEread_iter a bs r st = (st', ev, w) ->
  FOEread_inv bs st' /\
  (w = true ->
   exists bytes, accepted ev = [bytes] /\ size bytes = maxdata_of a /\
     r_dataread st' = r_dataread st + maxdata_of a /\
     r_psize st' = r_dataread st' /\
     r_prevpacket st' = int32 (r_prevpacket st + 1)) /\
  (w = false -> 0 < r_wkc st' ->
   exists bytes, accepted ev = [bytes] /\ size bytes <> maxdata_of a /\
     r_dataread st' = r_dataread st + size bytes /\
     r_psize st' = r_dataread st').
Proof.
  intros Hbs (HO & Hd & Hp) Hit.
  pose proof EC_ERR_TYPE_positive as (Hpe & Hfe & Hb2 & _ & _).
  pose proof (segmentdata_of_range (rx_mbx r)) as Hseg.
  unfold FOEread_iter, ecx_mbxreceive in Hit.
  fold (segmentdata_of (rx_mbx r)) in Hit.
  destruct (0 <? rx_wkc r) eqn:Hrx.
  2:{ inversion Hit; subst; unfold FOEread_inv; simpl. apply Z.ltb_ge in Hrx.
      stop_case. }
  destruct (Z.land (mbxtype (MbxHeader (rx_mbx r))) 0x0f =? ECT_MBXT_FOE).
  2:{ inversion Hit; subst; unfold FOEread_inv; simpl. stop_case. }
  destruct (OpCode (rx_mbx r) =? ECT_FOE_DATA).
  2:{ inversion Hit; subst; unfold FOEread_inv; simpl.
      destruct (OpCode (rx_mbx r) =? ECT_FOE_ERROR); stop_case. }
  destruct ((int32 (etohl (PacketNumber (rx_mbx r))) =? int32 (r_prevpacket st + 1))
            && (int32 (r_dataread st + segmentdata_of (rx_mbx r)) <=? bs)) eqn:Hacc.
  2:{ inversion Hit; subst; unfold FOEread_inv; simpl. stop_case. }
  apply andb_true_iff in Hacc. destruct Hacc as (_ & Hfit).
  rewrite int32_id in Hit, Hfit by (unfold INT32_MAX in *; lia).
  apply Z.leb_le in Hfit.
  assert (Hsz : size (mem_read (Data (rx_mbx r)) 0 (segmentdata_of (rx_mbx r)))
                = segmentdata_of (rx_mbx r)) by (apply size_mem_read; lia).
  inversion Hit; subst; clear Hit. unfold FOEread_inv; simpl.
  rewrite accepted_app, accepted_drop_if. simpl.
  replace (accepted (if FOEhook a
                     then [Ev_FOEhook (slave a)
                             (int32 (etohl (PacketNumber (rx_mbx r))))
                             (r_dataread st + segmentdata_of (rx_mbx r))]
                     else [])) with (@nil (list Z))
    by (destruct (FOEhook a); reflexivity).
  split; [repeat split; lia|].
  split.
  - intros Hw. destruct (tx_wkc r <=? 0); [discriminate|].
    apply Z.eqb_eq in Hw. eexists. split; [reflexivity|].
    rewrite Hsz, <- Hw. repeat split.
  - intros Hw Hpos. destruct (tx_wkc r <=? 0) eqn:Htx.
    + apply Z.leb_le in Htx. lia.
    + apply Z.eqb_neq in Hw. eexists. split; [reflexivity|].
      rewrite Hsz. repeat split. assumption.
Qed.

(** The turns that keep the loop going are accepted full segments. *)
Lemma FOEread_turns_spec a bs pre :
  bs + 65535 <= INT32_MAX ->
  forall st st' ev,
  FOEread_inv bs st -> 0 <= r_prevpacket st ->
  r_prevpacket st + Z.of_nat (length pre) <= INT32_MAX ->
  FOEread_turns a bs pre st = Some (st', ev) ->
  FOEread_inv bs st' /\
  r_prevpacket st' = r_prevpacket st + Z.of_nat (length pre) /\
  Forall (fun s => size s = maxdata_of a) (accepted ev) /\
  r_dataread st' = r_dataread st + total (accepted ev) /\
  (pre <> [] -> r_psize st' = r_dataread st').
Proof.
  intros Hbs. induction pre as [|r pre IH]; intros st st' ev HI Hp0 Hpn Ht.
  - simpl in *. inversion Ht; subst. simpl.
    repeat split; try apply HI; try lia; [constructor | congruence].
  - cbn [FOEread_turns] in Ht.
    destruct (FOEread_iter a bs r st) as [[st1 ev1] [|]] eqn:Hit; [|discriminate].
    destruct (FOEread_iter_spec _ _ _ _ _ _ _ Hbs HI Hit)
      as (HI1 & Ht1 & _).
    destruct (Ht1 eq_refl) as (bytes & Hacc & Hsz & Hd1 & Hps1 & Hpp1).
    rewrite int32_id in Hpp1 by (unfold INT32_MAX in *; simpl length in Hpn; lia).
    destruct (FOEread_turns a bs pre st1) as [[st2 ev2]|] eqn:Ht2; [|discriminate].
    inversion Ht; subst; clear Ht.
    simpl length in Hpn.
    destruct (IH st1 st' ev2 HI1 ltac:(lia) ltac:(lia) Ht2)
      as (HI2 & Hpp2 & Hfull & Hd2 & Hps2).
    rewrite accepted_app, Hacc. simpl.
    repeat split; try apply HI2.
    + rewrite Hpp2, Hpp1. simpl length. lia.
    + constructor; assumption.
    + rewrite Hd2, Hd1, Hsz. lia.
    + intros _. destruct pre as [|r' pre'].
      * simpl in Ht2. inversion Ht2; subst. assumption.
      * apply Hps2. discriminate.
Qed.

(** A read that returns a positive work counter has accepted full segments
    and then one whose size is not [maxdata]; [*psize] is their sum. *)
Lemma FOEread_loop_spec a bs sc :
  bs + 65535 <= INT32_MAX ->
  forall st,
  FOEread_inv bs st ->
  0 < r_wkc (fst (FOEread_loop a bs sc st)) ->
  let st' := fst (FOEread_loop a bs sc st) in
  let ev := snd (FOEread_loop a bs sc st) in
  (exists A l, accepted ev = A ++ [l] /\
               Forall (fun s => size s = maxdata_of a) A /\
               size l <> maxdata_of a) /\
  r_psize st' = r_dataread st + total (accepted ev) /\
  r_dataread st' = r_psize st'.
Proof.
  intros Hbs. induction sc as [|r sc IH]; intros st HI Hw; cbn [FOEread_loop] in *.
  - exfalso. unfold FOEread_iter, ecx_mbxreceive in Hw. simpl in Hw. lia.
  - destruct (FOEread_iter a bs r st) as [[st1 ev1] w] eqn:Hit.
    destruct (FOEread_iter_spec _ _ _ _ _ _ _ Hbs HI Hit) as (HI1 & Ht & Hf).
    destruct w.
    + destruct (Ht eq_refl) as (bytes & Hacc & Hsz & Hd1 & Hps1 & _).
      specialize (IH st1 HI1).
      destruct (FOEread_loop a bs sc st1) as [st2 ev2]; cbn [fst snd] in *.
      destruct (IH Hw) as ((A & l & HA & Hfull & Hl) & Hps2 & Hd2).
      rewrite accepted_app, Hacc, HA. simpl.
      split; [|split].
      * exists (bytes :: A), l. repeat split; try assumption.
        constructor; assumption.
      * rewrite Hps2, Hd1, HA, Hsz. lia.
      * assumption.
    + cbn [fst snd] in *.
      destruct (Hf eq_refl Hw) as (bytes & Hacc & Hsz & Hd1 & Hps1).
      rewrite Hacc. simpl. split; [|split].
      * exists [], bytes. repeat split; [constructor | assumption].
      * lia.
      * lia.
Qed.

(** A call whose request was taken and whose loop has reached, after the
    turns [pre], the turn [r] in which it stops. *)
Lemma ecx_FOEread_stops a t mbx_cnt psize buf pre r rest st ev st' ev' :
  0 < req_wkc t -> script t = pre ++ r :: rest ->
  FOEread_turns a psize pre (fst (FOEread_init a t mbx_cnt psize buf)) = Some (st, ev) ->
  FOEread_iter a psize r st = (st', ev', false) ->
  ecx_FOEread a t mbx_cnt psize buf =
  {| ret := r_wkc st'; psize_out := r_psize st'; buf_out := r_buf st';
     mbx_cnt_out := r_mbx_cnt st'; dataread_out := r_dataread st';
     trace := snd (FOEread_init a t mbx_cnt psize buf) ++ (ev ++ ev')
              ++ FOEread_exit st' |}.
Proof.
  intros Hreq Hsc Ht Hit. unfold ecx_FOEread.
  destruct (FOEread_init_fields a t mbx_cnt psize buf) as (Hw & _).
  destruct (FOEread_init a t mbx_cnt psize buf) as [st0 ev0]; simpl in *.
  rewrite Hw. rewrite (proj2 (Z.ltb_lt _ _) Hreq).
  rewrite Hsc, (FOEread_loop_turns _ _ _ _ _ _ _ Ht). simpl.
  rewrite Hit. reflexivity.
Qed.

(** The turn of the read loop that receives a DATA packet and refuses it. *)
Lemma FOEread_iter_refuse a bs r st :
  0 < rx_wkc r -> is_FOE (rx_mbx r) -> OpCode (rx_mbx r) = ECT_FOE_DATA ->
  (packetnumber_of (rx_mbx r) =? int32 (r_prevpacket st + 1))
  && (int32 (r_dataread st + segmentdata_of (rx_mbx r)) <=? bs) = false ->
  FOEread_iter a bs r st =
  ({| r_mbx_cnt := r_mbx_cnt st; r_psize := r_dataread st;
      r_buf := r_buf st; r_p := r_p st;
      r_dataread := r_dataread st;
      r_prevpacket := int32 (r_prevpacket st + 1);
      r_MbxIn := Some (r_pool st); r_MbxOut := r_MbxOut st;
      r_wkc := - EC_ERR_TYPE_FOE_BUF2SMALL; r_pool := S (r_pool st) |},
   drop_if (r_MbxIn st)
   ++ [Ev_mbxreceive (timeout a) (rx_wkc r) (Some (r_pool st, rx_mbx r))],
   false).
Proof.
  intros Hwkc HF Hop Hno. unfold FOEread_iter, ecx_mbxreceive.
  rewrite (proj2 (Z.ltb_lt _ _) Hwkc). unfold is_FOE in HF.
  rewrite HF, Z.eqb_refl, Hop. simpl (ECT_FOE_DATA =? ECT_FOE_DATA).
  cbv iota zeta.
  unfold packetnumber_of, segmentdata_of in Hno. rewrite Hno. reflexivity.
Qed.

(** The turn of the read loop that receives a DATA packet and accepts it. *)
Lemma FOEread_iter_accept a bs r st :
  0 < rx_wkc r -> is_FOE (rx_mbx r) -> OpCode (rx_mbx r) = ECT_FOE_DATA ->
  packetnumber_of (rx_mbx r) = int32 (r_prevpacket st + 1) ->
  int32 (r_dataread st + segmentdata_of (rx_mbx r)) <= bs ->
  0 < tx_wkc r ->
  snd (FOEread_iter a bs r st) = (segmentdata_of (rx_mbx r) =? maxdata_of a) /\
  let st' := fst (fst (FOEread_iter a bs r st)) in
  r_wkc st' = tx_wkc r /\
  r_dataread st' = int32 (r_dataread st + segmentdata_of (rx_mbx r)) /\
  r_psize st' = r_dataread st' /\
  r_buf st' = memcpy (r_buf st) (r_p st)
                (mem_read (Data (rx_mbx r)) 0 (segmentdata_of (rx_mbx r))).
Proof.
  intros Hwkc HF Hop Hpn Hfit Htx. unfold FOEread_iter, ecx_mbxreceive.
  rewrite (proj2 (Z.ltb_lt _ _) Hwkc). unfold is_FOE in HF.
  rewrite HF, Z.eqb_refl, Hop. simpl (ECT_FOE_DATA =? ECT_FOE_DATA).
  cbv iota zeta.
  unfold packetnumber_of, segmentdata_of in *.
  rewrite Hpn, Z.eqb_refl, (proj2 (Z.leb_le _ _) Hfit).
  replace (tx_wkc r <=? 0) with false by (symmetry; apply Z.leb_gt; assumption).
  simpl. repeat split.
Qed.

Lemma FOEread_exit_accepted st : accepted (FOEread_exit st) = [].
Proof.
  unfold FOEread_exit. now rewrite accepted_app, !accepted_drop_if.
Qed.

(** C3.  When the read loop, in whatever turn, receives a DATA packet whose
    number is not [prevpacket + 1], or whose segment would take [dataread]
    beyond the size of the caller's buffer, the call returns minus
    EC_ERR_TYPE_FOE_BUF2SMALL, a negative number; the turn copies nothing
    into the caller's buffer and sends nothing, and after the receive the
    only event is the release of the received buffer. *)
Theorem FOEread_DATA_refused a t mbx_cnt psize buf pre r rest st ev :
  psize + 65535 <= INT32_MAX -> Z.of_nat (length pre) < INT32_MAX ->
  0 < req_wkc t -> script t = pre ++ r :: rest ->
  FOEread_turns a psize pre (fst (FOEread_init a t mbx_cnt psize buf)) = Some (st, ev) ->
  0 < rx_wkc r -> is_FOE (rx_mbx r) -> OpCode (rx_mbx r) = ECT_FOE_DATA ->
  packetnumber_of (rx_mbx r) <> r_prevpacket st + 1 \/
  r_dataread st + segmentdata_of (rx_mbx r) > psize ->
  let res := ecx_FOEread a t mbx_cnt psize buf in
  ret res = - EC_ERR_TYPE_FOE_BUF2SMALL /\ ret res < 0 /\
  buf_out res = r_buf st /\
  accepted (trace res) = accepted ev /\
  psize_out res = r_dataread st /\ dataread_out res = r_dataread st /\
  trace res =
    snd (FOEread_init a t mbx_cnt psize buf) ++ ev ++ drop_if (r_MbxIn st)
    ++ [Ev_mbxreceive (timeout a) (rx_wkc r) (Some (r_pool st, rx_mbx r));
        Ev_dropmbx (r_pool st)].
Proof.
  intros Hbs Hlen Hreq Hsc Ht Hwkc HF Hop Hbad res.
  destruct (FOEread_init_fields a t mbx_cnt psize buf)
    as (_ & _ & _ & Hd0 & Hp0 & HI0 & Ha0).
  destruct (FOEread_turns_spec a psize pre Hbs _ _ _ HI0
              ltac:(rewrite Hp0; lia) ltac:(rewrite Hp0; lia) Ht)
    as ((HO & Hd & _) & Hpp & _ & _ & _).
  rewrite Hp0 in Hpp.
  pose proof (segmentdata_of_range (rx_mbx r)) as Hseg.
  assert (Hno : (packetnumber_of (rx_mbx r) =? int32 (r_prevpacket st + 1))
                && (int32 (r_dataread st + segmentdata_of (rx_mbx r)) <=? psize) = false).
  { rewrite !int32_id by (unfold INT32_MAX in *; lia).
    apply andb_false_iff. destruct Hbad as [Hn | Hg].
    - left. apply Z.eqb_neq. assumption.
    - right. apply Z.leb_gt. lia. }
  pose proof (FOEread_iter_refuse a psize r st Hwkc HF Hop Hno) as Hit.
  unfold res. rewrite (ecx_FOEread_stops _ _ _ _ _ _ _ _ _ _ _ _ Hreq Hsc Ht Hit).
  unfold FOEread_exit. simpl. rewrite HO. simpl.
  pose proof EC_ERR_TYPE_positive as (_ & _ & Hb2 & _).
  repeat split; try lia.
  - rewrite !accepted_app, Ha0, accepted_drop_if. simpl. now rewrite !app_nil_r.
  - now rewrite <- !app_assoc.
Qed.

(** C4.  When the read loop, in whatever turn, has accepted a DATA packet
    and the ACK for it has been taken by the transport, [worktodo] is TRUE
    exactly if the segment has [maxdata] octets; if the segment is strictly
    shorter the call returns the positive work counter of that send, with
    [*psize] the sum of the sizes of all segments copied into the caller's
    buffer. *)
Theorem FOEread_continues_iff_full a t mbx_cnt psize buf pre r rest st ev :
  psize + 65535 <= INT32_MAX -> Z.of_nat (length pre) < INT32_MAX ->
  0 < req_wkc t -> script t = pre ++ r :: rest ->
  FOEread_turns a psize pre (fst (FOEread_init a t mbx_cnt psize buf)) = Some (st, ev) ->
  0 < rx_wkc r -> is_FOE (rx_mbx r) -> OpCode (rx_mbx r) = ECT_FOE_DATA ->
  packetnumber_of (rx_mbx r) = r_prevpacket st + 1 ->
  r_dataread st + segmentdata_of (rx_mbx r) <= psize ->
  0 < tx_wkc r ->
  (snd (FOEread_iter a psize r st) = true <->
   segmentdata_of (rx_mbx r) = maxdata_of a) /\
  (segmentdata_of (rx_mbx r) < maxdata_of a ->
   let res := ecx_FOEread a t mbx_cnt psize buf in
   ret res = tx_wkc r /\ 0 < ret res /\
   psize_out res = total (accepted (trace res)) /\
   psize_out res = r_dataread st + segmentdata_of (rx_mbx r)).
Proof.
  intros Hbs Hlen Hreq Hsc Ht Hwkc HF Hop Hpn Hfit Htx.
  destruct (FOEread_init_fields a t mbx_cnt psize buf)
    as (_ & _ & _ & Hd0 & Hp0 & HI0 & Ha0).
  destruct (FOEread_turns_spec a psize pre Hbs _ _ _ HI0
              ltac:(rewrite Hp0; lia) ltac:(rewrite Hp0; lia) Ht)
    as (HI & Hpp & _ & Hdr & _).
  rewrite Hp0 in Hpp. rewrite Hd0 in Hdr.
  pose proof (segmentdata_of_range (rx_mbx r)) as Hseg.
  assert (Hd : 0 <= r_dataread st <= Z.max 0 psize) by apply HI.
  assert (Hpn' : packetnumber_of (rx_mbx r) = int32 (r_prevpacket st + 1))
    by (rewrite int32_id by (unfold INT32_MAX in *; lia); assumption).
  assert (Hfit' : int32 (r_dataread st + segmentdata_of (rx_mbx r)) <= psize)
    by (rewrite int32_id by (unfold INT32_MAX in *; lia); assumption).
  destruct (FOEread_iter_accept a psize r st Hwkc HF Hop Hpn' Hfit' Htx)
    as (Hw & Hwkc' & _).
  split.
  - rewrite Hw. apply Z.eqb_eq.
  - intros Hshort res.
    destruct (FOEread_iter a psize r st) as [[st' ev'] w] eqn:Hit.
    cbn [fst snd] in *.
    assert (Hwf : w = false) by (rewrite Hw; apply Z.eqb_neq; lia).
    clear Hw. subst w.
    destruct (FOEread_iter_spec _ _ _ _ _ _ _ Hbs HI Hit) as (_ & _ & Hf).
    destruct (Hf eq_refl ltac:(lia)) as (bytes & Hacc & _ & Hd1 & Hps1).
    unfold res. rewrite (ecx_FOEread_stops _ _ _ _ _ _ _ _ _ _ _ _ Hreq Hsc Ht Hit).
    simpl. rewrite !accepted_app, Ha0, FOEread_exit_accepted, app_nil_r. simpl.
    rewrite total_app, Hacc. simpl.
    assert (Hsz : size bytes = segmentdata_of (rx_mbx r)).
    { unfold FOEread_iter, ecx_mbxreceive in Hit.
      rewrite (proj2 (Z.ltb_lt _ _) Hwkc) in Hit. unfold is_FOE in HF.
      rewrite HF, Z.eqb_refl, Hop in Hit. simpl (ECT_FOE_DATA =? ECT_FOE_DATA) in Hit.
      cbv iota zeta in Hit. unfold packetnumber_of, segmentdata_of in *.
      rewrite Hpn', Z.eqb_refl, (proj2 (Z.leb_le _ _) Hfit') in Hit.
      simpl in Hit. inversion Hit; subst.
      rewrite accepted_app, accepted_drop_if in Hacc. simpl in Hacc.
      inversion Hacc. apply size_mem_read. lia. }
    repeat split; lia.
Qed.

Lemma FOEread_iter_psize a bs r st :
  let st' := fst (fst (FOEread_iter a bs r st)) in
  (0 < rx_wkc r -> r_psize st' = r_dataread st') /\
  (rx_wkc r <= 0 ->
   snd (FOEread_iter a bs r st) = false /\
   r_psize st' = r_psize st /\ r_dataread st' = r_dataread st).
Proof.
  unfold FOEread_iter, ecx_mbxreceive.
  destruct (0 <? rx_wkc r) eqn:Hrx.
  - apply Z.ltb_lt in Hrx. split; [intros _ | lia]. split_ifs; reflexivity.
  - apply Z.ltb_ge in Hrx. simpl. split; [lia | repeat split].
Qed.

Lemma FOEread_loop_psize a bs sc :
  forall st, r_psize st = r_dataread st ->
  r_psize (fst (FOEread_loop a bs sc st)) = r_dataread (fst (FOEread_loop a bs sc st)).
Proof.
  assert (Hstep : forall r st, r_psize st = r_dataread st ->
            r_psize (fst (fst (FOEread_iter a bs r st)))
            = r_dataread (fst (fst (FOEread_iter a bs r st)))).
  { intros r st HJ. destruct (FOEread_iter_psize a bs r st) as (Hok & Hno).
    destruct (Z.lt_ge_cases 0 (rx_wkc r)) as [Hl | Hg]; [auto|].
    destruct (Hno ltac:(lia)) as (_ & -> & ->). assumption. }
  induction sc as [|r sc IH]; intros st HJ; cbn [FOEread_loop].
  - specialize (Hstep silence st HJ).
    destruct (FOEread_iter a bs silence st) as [[st1 ev1] w]. exact Hstep.
  - specialize (Hstep r st HJ).
    destruct (FOEread_iter a bs r st) as [[st1 ev1] [|]]; cbn [fst snd] in *.
    + specialize (IH st1 Hstep).
      destruct (FOEread_loop a bs sc st1) as [st2 ev2]. exact IH.
    + exact Hstep.
Qed.

(** C5, as amended.  When the request has been taken and the first receive
    of the loop has returned a positive work counter, [*psize] is
    [dataread] on return, whatever happens later; when the request is not
    taken, or the first receive fails, [*psize] is left as the caller set it
    while [dataread] is 0. *)
Theorem FOEread_psize_on_return a t mbx_cnt psize buf :
  let res := ecx_FOEread a t mbx_cnt psize buf in
  (0 < req_wkc t -> 0 < rx_wkc (hd silence (script t)) ->
   psize_out res = dataread_out res) /\
  (req_wkc t <= 0 \/ rx_wkc (hd silence (script t)) <= 0 ->
   psize_out res = psize /\ dataread_out res = 0).
Proof.
  intros res. unfold res, ecx_FOEread.
  destruct (FOEread_init_fields a t mbx_cnt psize buf)
    as (Hw & Hps0 & _ & Hd0 & _).
  destruct (FOEread_init a t mbx_cnt psize buf) as [st0 ev0]; cbn [fst snd] in *.
  rewrite Hw.
  destruct (0 <? req_wkc t) eqn:Hreq.
  - apply Z.ltb_lt in Hreq.
    assert (Hloop : forall r sc,
              FOEread_loop a psize (r :: sc) st0 =
              (let '(st', ev, worktodo) := FOEread_iter a psize r st0 in
               if worktodo
               then let '(st'', ev') := FOEread_loop a psize sc st' in (st'', ev ++ ev')
               else (st', ev))) by reflexivity.
    destruct (script t) as [|r sc]; cbn [hd].
    + cbn [FOEread_loop].
      destruct (FOEread_iter_psize a psize silence st0) as (_ & Hno).
      destruct (FOEread_iter a psize silence st0) as [[st1 ev1] w]; cbn [fst snd] in *.
      simpl. split; [intros _ Hc; simpl in Hc; lia|]. intros _.
      destruct (Hno ltac:(simpl; lia)) as (_ & -> & ->). split; assumption.
    + rewrite Hloop.
      destruct (FOEread_iter_psize a psize r st0) as (Hok & Hno).
      pose proof (FOEread_loop_psize a psize sc) as HL.
      destruct (FOEread_iter a psize r st0) as [[st1 ev1] w]; cbn [fst snd] in *.
      split.
      * intros _ Hrx. specialize (Hok Hrx). destruct w; [|exact Hok].
        specialize (HL st1 Hok).
        destruct (FOEread_loop a psize sc st1) as [st2 ev2]. exact HL.
      * intros [Hc | Hrx]; [lia|].
        destruct (Hno Hrx) as (-> & -> & ->). simpl. split; assumption.
  - apply Z.ltb_ge in Hreq. simpl. split; [lia|]. intros _. split; assumption.
Qed.

(** C6, as amended.  After a read that returns a positive work counter,
    [*psize] is the sum of the sizes of the accepted segments; every
    accepted segment but the last has exactly [maxdata] octets, and the last
    has any other size, larger ones included. *)
Theorem FOEread_size_is_sum a t mbx_cnt psize buf :
  psize + 65535 <= INT32_MAX ->
  0 < ret (ecx_FOEread a t mbx_cnt psize buf) ->
  let res := ecx_FOEread a t mbx_cnt psize buf in
  psize_out res = total (accepted (trace res)) /\
  exists A l, accepted (trace res) = A ++ [l] /\
              Forall (fun s => size s = maxdata_of a) A /\
              size l <> maxdata_of a.
Proof.
  intros Hbs Hret res. unfold res, ecx_FOEread in *.
  destruct (FOEread_init_fields a t mbx_cnt psize buf)
    as (Hw & _ & _ & Hd0 & _ & HI0 & Ha0).
  destruct (FOEread_init a t mbx_cnt psize buf) as [st0 ev0]; cbn [fst snd] in *.
  destruct (0 <? r_wkc st0) eqn:Hreq.
  - pose proof (FOEread_loop_spec a psize (script t) Hbs st0 HI0) as HL.
    destruct (FOEread_loop a psize (script t) st0) as [st ev]; cbn [fst snd] in *.
    simpl in Hret. destruct (HL Hret) as (Hshape & Hps & _).
    simpl. rewrite !accepted_app, Ha0, FOEread_exit_accepted, app_nil_r. simpl.
    split; [lia | exact Hshape].
  - apply Z.ltb_ge in Hreq. simpl in Hret. lia.
Qed.

(** ** The ledger of mailbox buffers *)

Ltac ledger_run :=
  repeat (cbn [ledger ledger_step holds h_in h_out app drop_if andb];
          rewrite ?Nat.eqb_refl).

Lemma FOEread_iter_ledger a bs r st :
  r_MbxOut st = None ->
  ledger false {| h_in := r_MbxIn st; h_out := None |}
    (snd (fst (FOEread_iter a bs r st)))
  = Some {| h_in := r_MbxIn (fst (fst (FOEread_iter a bs r st))); h_out := None |}
  /\ r_MbxOut (fst (fst (FOEread_iter a bs r st))) = None.
Proof.
  intros HO. unfold FOEread_iter, ecx_mbxreceive.
  destruct (r_MbxIn st); destruct (FOEhook a); split_ifs;
    cbn [fst snd r_MbxIn r_MbxOut]; ledger_run; split; (reflexivity || assumption).
Qed.

Lemma FOEread_loop_ledger a bs sc :
  forall st, r_MbxOut st = None ->
  ledger false {| h_in := r_MbxIn st; h_out := None |}
    (snd (FOEread_loop a bs sc st))
  = Some {| h_in := r_MbxIn (fst (FOEread_loop a bs sc st)); h_out := None |}
  /\ r_MbxOut (fst (FOEread_loop a bs sc st)) = None.
Proof.
  induction sc as [|r sc IH]; intros st HO; cbn [FOEread_loop].
  - pose proof (FOEread_iter_ledger a bs silence st HO) as Hs.
    destruct (FOEread_iter a bs silence st) as [[st1 ev1] w]. exact Hs.
  - pose proof (FOEread_iter_ledger a bs r st HO) as Hs.
    destruct (FOEread_iter a bs r st) as [[st1 ev1] [|]]; cbn [fst snd] in *;
      [|exact Hs].
    destruct Hs as (Hl & HO1). specialize (IH st1 HO1).
    destruct (FOEread_loop a bs sc st1) as [st2 ev2]; cbn [fst snd] in *.
    rewrite ledger_app, Hl. exact IH.
Qed.

Lemma stores_app tr1 tr2 : stores (tr1 ++ tr2) = stores tr1 ++ stores tr2.
Proof.
  induction tr1 as [|e tr1 IH]; simpl; [reflexivity|].
  destruct e; simpl; congruence.
Qed.

Lemma stores_drop_if o : stores (drop_if o) = [].
Proof. destruct o; reflexivity. Qed.

(** A turn of the write loop that stores nothing through [FOEp] into a
    buffer passed on before, that is, a turn that does not resend after
    BUSY. *)
Lemma FOEwrite_iter_ledger a buf r st :
  w_MbxOut st = None ->
  (stores (snd (fst (FOEwrite_iter a buf r st))) = [] ->
   ledger false {| h_in := w_MbxIn st; h_out := None |}
     (snd (fst (FOEwrite_iter a buf r st)))
   = Some {| h_in := w_MbxIn (fst (fst (FOEwrite_iter a buf r st))); h_out := None |})
  /\ w_MbxOut (fst (fst (FOEwrite_iter a buf r st))) = None.
Proof.
  intros HO. unfold FOEwrite_iter, ecx_mbxreceive.
  destruct (w_MbxIn st); destruct (FOEhook a); split_ifs;
    cbn [fst snd w_MbxIn w_MbxOut stores app drop_if];
    (split; [intros Hst; try discriminate Hst; ledger_run; reflexivity
            | reflexivity || assumption]).
Qed.

(** The turn that resends after BUSY passes to [ecx_mbxsend] what is no
    mailbox buffer. *)
Lemma FOEwrite_iter_resend_addr a buf r st :
  stores (snd (fst (FOEwrite_iter a buf r st))) <> [] ->
  exists cnt wkc,
    In (Ev_mbxsend MbxOut_addr cnt wkc) (snd (fst (FOEwrite_iter a buf r st))).
Proof.
  unfold FOEwrite_iter, ecx_mbxreceive.
  destruct (w_MbxIn st); destruct (FOEhook a); split_ifs;
    cbn [fst snd stores app drop_if]; intros Hst;
    try (exfalso; apply Hst; reflexivity);
    eexists; eexists; cbn [In]; auto 8.
Qed.

Lemma FOEwrite_loop_ledger a buf sc :
  forall st, w_MbxOut st = None ->
  (stores (snd (FOEwrite_loop a buf sc st)) = [] ->
   ledger false {| h_in := w_MbxIn st; h_out := None |}
     (snd (FOEwrite_loop a buf sc st))
   = Some {| h_in := w_MbxIn (fst (FOEwrite_loop a buf sc st)); h_out := None |})
  /\ w_MbxOut (fst (FOEwrite_loop a buf sc st)) = None.
Proof.
  induction sc as [|r sc IH]; intros st HO; cbn [FOEwrite_loop].
  - pose proof (FOEwrite_iter_ledger a buf silence st HO) as Hs.
    destruct (FOEwrite_iter a buf silence st) as [[st1 ev1] w]. exact Hs.
  - pose proof (FOEwrite_iter_ledger a buf r st HO) as Hs.
    destruct (FOEwrite_iter a buf r st) as [[st1 ev1] [|]]; cbn [fst snd] in *;
      [|exact Hs].
    destruct Hs as (Hl & HO1). specialize (IH st1 HO1).
    destruct (FOEwrite_loop a buf sc st1) as [st2 ev2]; cbn [fst snd] in *.
    destruct IH as (IHl & IHO). split; [|exact IHO].
    rewrite stores_app. intros Hst. apply app_eq_nil in Hst.
    destruct Hst as (Hst1 & Hst2).
    rewrite ledger_app, (Hl Hst1). exact (IHl Hst2).
Qed.

Lemma FOEwrite_loop_resend_addr a buf sc :
  forall st, stores (snd (FOEwrite_loop a buf sc st)) <> [] ->
  exists cnt wkc,
    In (Ev_mbxsend MbxOut_addr cnt wkc) (snd (FOEwrite_loop a buf sc st)).
Proof.
  induction sc as [|r sc IH]; intros st; cbn [FOEwrite_loop].
  - pose proof (FOEwrite_iter_resend_addr a buf silence st) as Hs.
    destruct (FOEwrite_iter a buf silence st) as [[st1 ev1] w]. exact Hs.
  - pose proof (FOEwrite_iter_resend_addr a buf r st) as Hs.
    destruct (FOEwrite_iter a buf r st) as [[st1 ev1] [|]]; cbn [fst snd] in *;
      [|exact Hs].
    specialize (IH st1).
    destruct (FOEwrite_loop a buf sc st1) as [st2 ev2]; cbn [fst snd] in *.
    rewrite stores_app. intros Hst.
    destruct (stores ev1) as [|x l] eqn:E.
    + destruct (IH Hst) as (c & w & Hin). exists c, w.
      apply in_or_app. right. exact Hin.
    + destruct (Hs ltac:(discriminate)) as (c & w & Hin). exists c, w.
      apply in_or_app. left. exact Hin.
Qed.

(** A log in which something that is no mailbox buffer is passed to
    [ecx_mbxsend] breaks the ledger, whoever has a buffer after a failed
    send. *)
Lemma ledger_addr k tr cnt wkc :
  In (Ev_mbxsend MbxOut_addr cnt wkc) tr -> forall h, ledger k h tr = None.
Proof.
  induction tr as [|e tr IH]; intros Hin h; [destruct Hin|].
  cbn [ledger]. destruct Hin as [-> | Hin]; [reflexivity|].
  destruct (ledger_step k h e); [apply IH; exact Hin | reflexivity].
Qed.

(** A turn of the write loop that does not receive BUSY stores nothing
    through [FOEp] into a buffer passed on before. *)
Lemma FOEwrite_iter_no_BUSY a buf r st :
  OpCode (rx_mbx r) <> ECT_FOE_BUSY ->
  stores (snd (fst (FOEwrite_iter a buf r st))) = [].
Proof.
  intros Hnb. unfold FOEwrite_iter, ecx_mbxreceive.
  destruct (OpCode (rx_mbx r) =? ECT_FOE_BUSY) eqn:Hb;
    [apply Z.eqb_eq in Hb; contradiction|].
  destruct (w_MbxIn st); destruct (FOEhook a); split_ifs; reflexivity.
Qed.

Lemma FOEwrite_loop_no_BUSY a buf sc :
  Forall (fun r => OpCode (rx_mbx r) <> ECT_FOE_BUSY) sc ->
  forall st, stores (snd (FOEwrite_loop a buf sc st)) = [].
Proof.
  induction 1 as [|r sc Hr _ IH]; intros st; cbn [FOEwrite_loop].
  - pose proof (FOEwrite_iter_no_BUSY a buf silence st ltac:(discriminate)) as Hs.
    destruct (FOEwrite_iter a buf silence st) as [[st1 ev1] w]. exact Hs.
  - pose proof (FOEwrite_iter_no_BUSY a buf r st Hr) as Hs.
    destruct (FOEwrite_iter a buf r st) as [[st1 ev1] [|]]; cbn [fst snd] in *;
      [|exact Hs].
    specialize (IH st1).
    destruct (FOEwrite_loop a buf sc st1) as [st2 ev2]; cbn [fst snd] in *.
    now rewrite stores_app, Hs, IH.
Qed.

Lemma ecx_FOEwrite_no_BUSY a t mbx_cnt psize buf :
  Forall (fun r => OpCode (rx_mbx r) <> ECT_FOE_BUSY) (script t) ->
  stores (wtrace (ecx_FOEwrite a t mbx_cnt psize buf)) = [].
Proof.
  intros Hnb. unfold ecx_FOEwrite.
  assert (H0 : stores (snd (FOEwrite_init a t mbx_cnt psize)) = []).
  { unfold FOEwrite_init, ecx_mbxreceive.
    destruct (0 <? stale_wkc t); reflexivity. }
  destruct (FOEwrite_init a t mbx_cnt psize) as [st0 ev0]; cbn [fst snd] in *.
  pose proof (FOEwrite_loop_no_BUSY a buf (script t) Hnb st0) as HL.
  destruct (0 <? w_wkc st0).
  - destruct (FOEwrite_loop a buf (script t) st0) as [st ev]; cbn [fst snd wtrace] in *.
    unfold FOEwrite_exit.
    now rewrite !stores_app, H0, HL, !stores_drop_if.
  - cbn [wtrace]. unfold FOEwrite_exit.
    now rewrite !stores_app, H0, !stores_drop_if.
Qed.

Lemma ledger_exit o :
  ledger false {| h_in := o; h_out := None |} (drop_if o ++ drop_if None)
  = Some nothing_held.
Proof.
  destruct o; ledger_run; reflexivity.
Qed.

(** While every send is taken, it makes no difference to the ledger who has
    the buffer after a failed send. *)
Lemma ledger_sends_taken tr :
  sends_taken tr -> forall h, ledger true h tr = ledger false h tr.
Proof.
  induction 1 as [|e tr He _ IH]; intros h; [reflexivity|].
  cbn [ledger].
  assert (Hs : ledger_step true h e = ledger_step false h e).
  { destruct e as [| |[id m|] cnt wkc| | | |]; try reflexivity.
    cbn [ledger_step]. destruct (holds (h_out h) id); [|reflexivity].
    replace (wkc <=? 0) with false by (symmetry; apply Z.leb_gt; assumption).
    reflexivity. }
  rewrite Hs. destruct (ledger_step false h e); [apply IH | reflexivity].
Qed.

Lemma ecx_FOEread_ledger a t mbx_cnt psize buf :
  ledger false nothing_held (trace (ecx_FOEread a t mbx_cnt psize buf))
  = Some nothing_held.
Proof.
  unfold ecx_FOEread.
  assert (H0 : let st0 := fst (FOEread_init a t mbx_cnt psize buf) in
               ledger false nothing_held (snd (FOEread_init a t mbx_cnt psize buf))
               = Some {| h_in := r_MbxIn st0; h_out := None |}
               /\ r_MbxOut st0 = None).
  { unfold FOEread_init, ecx_mbxreceive, nothing_held.
    destruct (0 <? stale_wkc t); cbn [fst snd r_MbxIn r_MbxOut]; ledger_run;
      split; reflexivity. }
  destruct (FOEread_init a t mbx_cnt psize buf) as [st0 ev0]; cbn [fst snd] in *.
  destruct H0 as (Hl0 & HO0).
  pose proof (FOEread_loop_ledger a psize (script t) st0 HO0) as HL.
  destruct (0 <? r_wkc st0).
  - destruct (FOEread_loop a psize (script t) st0) as [st ev]; cbn [fst snd trace] in *.
    destruct HL as (Hl & HO). unfold FOEread_exit.
    rewrite ledger_app, Hl0, ledger_app, Hl, HO. apply ledger_exit.
  - cbn [trace]. unfold FOEread_exit.
    rewrite ledger_app, Hl0. cbn [app]. rewrite HO0. apply ledger_exit.
Qed.

Lemma ecx_FOEwrite_ledger a t mbx_cnt psize buf :
  stores (wtrace (ecx_FOEwrite a t mbx_cnt psize buf)) = [] ->
  ledger false nothing_held (wtrace (ecx_FOEwrite a t mbx_cnt psize buf))
  = Some nothing_held.
Proof.
  unfold ecx_FOEwrite.
  assert (H0 : let st0 := fst (FOEwrite_init a t mbx_cnt psize) in
               ledger false nothing_held (snd (FOEwrite_init a t mbx_cnt psize))
               = Some {| h_in := w_MbxIn st0; h_out := None |}
               /\ w_MbxOut st0 = None).
  { unfold FOEwrite_init, ecx_mbxreceive, nothing_held.
    destruct (0 <? stale_wkc t); cbn [fst snd w_MbxIn w_MbxOut]; ledger_run;
      split; reflexivity. }
  destruct (FOEwrite_init a t mbx_cnt psize) as [st0 ev0]; cbn [fst snd] in *.
  destruct H0 as (Hl0 & HO0).
  pose proof (FOEwrite_loop_ledger a buf (script t) st0 HO0) as HL.
  destruct (0 <? w_wkc st0).
  - destruct (FOEwrite_loop a buf (script t) st0) as [st ev]; cbn [fst snd wtrace] in *.
    destruct HL as (Hl & HO). unfold FOEwrite_exit.
    rewrite !stores_app. intros Hst.
    apply app_eq_nil in Hst. destruct Hst as (_ & Hst).
    apply app_eq_nil in Hst. destruct Hst as (Hst & _).
    rewrite ledger_app, Hl0, ledger_app, (Hl Hst), HO. apply ledger_exit.
  - cbn [wtrace]. unfold FOEwrite_exit. intros _.
    rewrite ledger_app, Hl0. cbn [app]. rewrite HO0. apply ledger_exit.
Qed.

Lemma ecx_FOEwrite_resend_addr a t mbx_cnt psize buf :
  stores (wtrace (ecx_FOEwrite a t mbx_cnt psize buf)) <> [] ->
  exists cnt wkc,
    In (Ev_mbxsend MbxOut_addr cnt wkc) (wtrace (ecx_FOEwrite a t mbx_cnt psize buf)).
Proof.
  unfold ecx_FOEwrite.
  assert (H0 : stores (snd (FOEwrite_init a t mbx_cnt psize)) = []).
  { unfold FOEwrite_init, ecx_mbxreceive.
    destruct (0 <? stale_wkc t); reflexivity. }
  destruct (FOEwrite_init a t mbx_cnt psize) as [st0 ev0]; cbn [fst snd] in *.
  pose proof (FOEwrite_loop_resend_addr a buf (script t) st0) as HL.
  destruct (0 <? w_wkc st0).
  - destruct (FOEwrite_loop a buf (script t) st0) as [st ev]; cbn [fst snd wtrace] in *.
    unfold FOEwrite_exit.
    rewrite !stores_app, H0, !stores_drop_if, app_nil_r. cbn [app]. intros Hst.
    destruct (HL Hst) as (c & w & Hin). exists c, w.
    apply in_or_app. right. apply in_or_app. left. exact Hin.
  - cbn [wtrace]. unfold FOEwrite_exit.
    rewrite !stores_app, H0, !stores_drop_if. intros Hst. exfalso. apply Hst. reflexivity.
Qed.

(** C9, as amended.  On every exit path of [ecx_FOEread], and on every exit
    path of [ecx_FOEwrite] on which nothing is stored through [FOEp] into a
    buffer passed on before (no resend after BUSY), the ledger of the call
    is never broken and ends with nothing held, when a buffer counts as
    passed on by every [ecx_mbxsend]: each buffer received is dropped
    exactly once, each buffer taken with [ecx_getmbx] is passed to
    [ecx_mbxsend] exactly once, is never dropped and is not written after
    it was passed on, and at most one inbound and one outbound buffer are
    held at any moment.  On the paths on which every [ecx_mbxsend] returns
    a positive work counter the same holds when only a successful send
    passes the buffer on.  A write that resends after BUSY breaks the
    ledger, whoever has a buffer after a failed send; a write that is never
    answered with BUSY does not resend. *)
Theorem FOE_mailbox_buffers_released a t mbx_cnt psize buf :
  let rd := trace (ecx_FOEread a t mbx_cnt psize buf) in
  let wr := wtrace (ecx_FOEwrite a t mbx_cnt psize buf) in
  ledger false nothing_held rd = Some nothing_held /\
  (stores wr = [] -> ledger false nothing_held wr = Some nothing_held) /\
  (sends_taken rd -> ledger true nothing_held rd = Some nothing_held) /\
  (stores wr = [] -> sends_taken wr ->
   ledger true nothing_held wr = Some nothing_held) /\
  (stores wr <> [] -> forall k, ledger k nothing_held wr = None) /\
  (Forall (fun r => OpCode (rx_mbx r) <> ECT_FOE_BUSY) (script t) ->
   stores wr = []).
Proof.
  intros rd wr. unfold rd, wr.
  pose proof (ecx_FOEread_ledger a t mbx_cnt psize buf) as Hr.
  pose proof (ecx_FOEwrite_ledger a t mbx_cnt psize buf) as Hw.
  split; [exact Hr|]. split; [exact Hw|]. split; [|split; [|split]].
  - intros Hs. now rewrite ledger_sends_taken.
  - intros Hst Hs. rewrite ledger_sends_taken by exact Hs. exact (Hw Hst).
  - intros Hst k.
    destruct (ecx_FOEwrite_resend_addr a t mbx_cnt psize buf Hst) as (c & w & Hin).
    exact (ledger_addr k _ c w Hin nothing_held).
  - apply ecx_FOEwrite_no_BUSY.
Qed.

(** ** The mailbox counter *)

Lemma ec_nextmbxcnt_range cnt :
  1 <= uint8 (ec_nextmbxcnt cnt) <= 7 /\
  uint8 (ec_nextmbxcnt cnt) = cnt mod 7 + 1.
Proof.
  unfold ec_nextmbxcnt, uint8.
  pose proof (Z.mod_pos_bound cnt 7 ltac:(lia)).
  rewrite Z.mod_small by lia. lia.
Qed.

Lemma FOEread_iter_cnt a bs r st l :
  cnt_chain (r_mbx_cnt (fst (fst (FOEread_iter a bs r st)))) l ->
  cnt_chain (r_mbx_cnt st) (sends (snd (fst (FOEread_iter a bs r st))) ++ l).
Proof.
  unfold FOEread_iter, ecx_mbxreceive.
  destruct (r_MbxIn st); destruct (FOEhook a); split_ifs;
    cbn [fst snd r_mbx_cnt sends app drop_if cnt_chain MbxHeader mbxtype];
    intros Hl; repeat split; assumption.
Qed.

Lemma FOEread_loop_cnt a bs sc :
  forall st l,
  cnt_chain (r_mbx_cnt (fst (FOEread_loop a bs sc st))) l ->
  cnt_chain (r_mbx_cnt st) (sends (snd (FOEread_loop a bs sc st)) ++ l).
Proof.
  induction sc as [|r sc IH]; intros st l; cbn [FOEread_loop].
  - pose proof (FOEread_iter_cnt a bs silence st l) as Hs.
    destruct (FOEread_iter a bs silence st) as [[st1 ev1] w]. exact Hs.
  - pose proof (FOEread_iter_cnt a bs r st) as Hs.
    destruct (FOEread_iter a bs r st) as [[st1 ev1] [|]]; cbn [fst snd] in *;
      [|apply Hs].
    specialize (IH st1 l).
    destruct (FOEread_loop a bs sc st1) as [st2 ev2]; cbn [fst snd] in *.
    intros Hl. rewrite sends_app, <- app_assoc. apply Hs, IH, Hl.
Qed.

Lemma FOEwrite_iter_cnt a buf r st l :
  cnt_chain (w_mbx_cnt (fst (fst (FOEwrite_iter a buf r st)))) l ->
  cnt_chain (w_mbx_cnt st) (sends (snd (fst (FOEwrite_iter a buf r st))) ++ l).
Proof.
  unfold FOEwrite_iter, ecx_mbxreceive.
  destruct (w_MbxIn st); destruct (FOEhook a); split_ifs;
    cbn [fst snd w_mbx_cnt sends app drop_if cnt_chain MbxHeader mbxtype FOE_data];
    intros Hl; repeat split; assumption.
Qed.

Lemma FOEwrite_loop_cnt a buf sc :
  forall st l,
  cnt_chain (w_mbx_cnt (fst (FOEwrite_loop a buf sc st))) l ->
  cnt_chain (w_mbx_cnt st) (sends (snd (FOEwrite_loop a buf sc st)) ++ l).
Proof.
  induction sc as [|r sc IH]; intros st l; cbn [FOEwrite_loop].
  - pose proof (FOEwrite_iter_cnt a buf silence st l) as Hs.
    destruct (FOEwrite_iter a buf silence st) as [[st1 ev1] w]. exact Hs.
  - pose proof (FOEwrite_iter_cnt a buf r st) as Hs.
    destruct (FOEwrite_iter a buf r st) as [[st1 ev1] [|]]; cbn [fst snd] in *;
      [|apply Hs].
    specialize (IH st1 l).
    destruct (FOEwrite_loop a buf sc st1) as [st2 ev2]; cbn [fst snd] in *.
    intros Hl. rewrite sends_app, <- app_assoc. apply Hs, IH, Hl.
Qed.

(** X13.  On every send of both drivers the slave's [mbx_cnt] has been
    advanced by [ec_nextmbxcnt] and stored, and every packet that is sent in
    a mailbox buffer carries the new counter.  What the BUSY branch of the write passes
    to [ecx_mbxsend] is no mailbox buffer, and nothing is said of it. *)
Lemma FOE_mbx_cnt_chain a t mbx_cnt psize buf :
  cnt_chain mbx_cnt (sends (trace (ecx_FOEread a t mbx_cnt psize buf))) /\
  cnt_chain mbx_cnt (sends (wtrace (ecx_FOEwrite a t mbx_cnt psize buf))).
Proof.
  split.
  - unfold ecx_FOEread, FOEread_init, ecx_mbxreceive.
    destruct (0 <? stale_wkc t); cbn [fst snd r_wkc];
      (destruct (0 <? req_wkc t);
       [ match goal with
         | |- context [FOEread_loop a psize (script t) ?s] =>
             pose proof (FOEread_loop_cnt a psize (script t) s []) as HL;
             destruct (FOEread_loop a psize (script t) s) as [st ev]
         end
       | ]);
      cbn [trace fst snd r_mbx_cnt sends app cnt_chain MbxHeader mbxtype FOE_request] in *;
      unfold FOEread_exit; rewrite ?sends_app, ?sends_drop_if, ?app_nil_r;
      repeat split; try (rewrite app_nil_r in HL; apply HL; exact I).
  - unfold ecx_FOEwrite, FOEwrite_init, ecx_mbxreceive.
    destruct (0 <? stale_wkc t); cbn [fst snd w_wkc];
      (destruct (0 <? req_wkc t);
       [ match goal with
         | |- context [FOEwrite_loop a buf (script t) ?s] =>
             pose proof (FOEwrite_loop_cnt a buf (script t) s []) as HL;
             destruct (FOEwrite_loop a buf (script t) s) as [st ev]
         end
       | ]);
      cbn [wtrace fst snd w_mbx_cnt sends app cnt_chain MbxHeader mbxtype FOE_request] in *;
      unfold FOEwrite_exit; rewrite ?sends_app, ?sends_drop_if, ?app_nil_r;
      repeat split; try (rewrite app_nil_r in HL; apply HL; exact I).
Qed.

(** * Further properties of the drivers *)

(** ** Failures of the transport and unexpected mailboxes *)

Lemma FOEread_iter_MbxOut a bs r st :
  r_MbxOut st = None -> r_MbxOut (fst (fst (FOEread_iter a bs r st))) = None.
Proof.
  intros HO. unfold FOEread_iter, ecx_mbxreceive.
  split_ifs; simpl; auto.
Qed.

Lemma FOEread_turns_MbxOut a bs pre st st' ev :
  FOEread_turns a bs pre st = Some (st', ev) ->
  r_MbxOut st = None -> r_MbxOut st' = None.
Proof.
  revert st ev. induction pre as [|r pre IH]; intros st ev Ht HO; simpl in Ht.
  - now inversion Ht; subst.
  - pose proof (FOEread_iter_MbxOut a bs r st HO) as H1.
    destruct (FOEread_iter a bs r st) as [[st1 ev1] [|]]; [|discriminate].
    destruct (FOEread_turns a bs pre st1) as [[st2 ev2]|] eqn:Ht1; [|discriminate].
    inversion Ht; subst. eapply IH; eauto.
Qed.

Lemma FOEread_reached_MbxOut a t mbx_cnt psize buf pre st ev :
  FOEread_turns a psize pre (fst (FOEread_init a t mbx_cnt psize buf)) = Some (st, ev) ->
  r_MbxOut st = None.
Proof.
  intros Ht. eapply FOEread_turns_MbxOut; [exact Ht|].
  apply (FOEread_init_fields a t mbx_cnt psize buf).
Qed.

Lemma FOEwrite_reached_MbxOut a t mbx_cnt psize buf pre st ev :
  FOEwrite_turns a buf pre (fst (FOEwrite_init a t mbx_cnt psize)) = Some (st, ev) ->
  w_MbxOut st = None.
Proof.
  intros Ht. eapply FOEwrite_turns_MbxOut; [exact Ht|].
  apply (FOEwrite_init_fields a t mbx_cnt psize).
Qed.

(** The turn of the read loop that receives a mailbox which is no FoE DATA
    packet. *)
Lemma FOEread_iter_unexpected a bs r st :
  0 < rx_wkc r ->
  ~ (is_FOE (rx_mbx r) /\ OpCode (rx_mbx r) = ECT_FOE_DATA) ->
  exists wkc,
    FOEread_iter a bs r st =
    ({| r_mbx_cnt := r_mbx_cnt st; r_psize := r_dataread st;
        r_buf := r_buf st; r_p := r_p st;
        r_dataread := r_dataread st; r_prevpacket := r_prevpacket st;
        r_MbxIn := Some (r_pool st); r_MbxOut := r_MbxOut st;
        r_wkc := wkc; r_pool := S (r_pool st) |},
     drop_if (r_MbxIn st)
     ++ [Ev_mbxreceive (timeout a) (rx_wkc r) (Some (r_pool st, rx_mbx r))],
     false) /\
    (is_FOE (rx_mbx r) /\ OpCode (rx_mbx r) = ECT_FOE_ERROR ->
     wkc = - EC_ERR_TYPE_FOE_ERROR) /\
    (~ (is_FOE (rx_mbx r) /\ OpCode (rx_mbx r) = ECT_FOE_ERROR) ->
     wkc = - EC_ERR_TYPE_PACKET_ERROR).
Proof.
  intros Hwkc Hno. unfold FOEread_iter, ecx_mbxreceive, is_FOE in *.
  rewrite (proj2 (Z.ltb_lt _ _) Hwkc).
  destruct (Z.land (mbxtype (MbxHeader (rx_mbx r))) 0x0f =? ECT_MBXT_FOE) eqn:EF.
  - apply Z.eqb_eq in EF.
    destruct (OpCode (rx_mbx r) =? ECT_FOE_DATA) eqn:ED.
    { apply Z.eqb_eq in ED. exfalso. apply Hno. split; assumption. }
    destruct (OpCode (rx_mbx r) =? ECT_FOE_ERROR) eqn:EE.
    + apply Z.eqb_eq in EE. eexists. split; [reflexivity|].
      split; [reflexivity | intros Hn; exfalso; apply Hn; split; assumption].
    + apply Z.eqb_neq in EE. eexists. split; [reflexivity|].
      split; [intros (_ & He); contradiction | reflexivity].
  - apply Z.eqb_neq in EF. eexists. split; [reflexivity|].
    split; [intros (Hf & _); contradiction | reflexivity].
Qed.

(** X1.  When the read loop, in whatever turn, receives a mailbox that is no
    FoE DATA packet, the call ends at once: with minus EC_ERR_TYPE_FOE_ERROR
    for an FoE packet with opcode ERROR, with minus EC_ERR_TYPE_PACKET_ERROR
    for any other opcode and for a mailbox of another type.  Nothing is sent
    or copied, the buffer keeps what earlier turns landed, and [*psize] is
    [dataread]. *)
Theorem FOEread_unexpected_mailbox a t mbx_cnt psize buf pre r rest st ev :
  0 < req_wkc t -> script t = pre ++ r :: rest ->
  FOEread_turns a psize pre (fst (FOEread_init a t mbx_cnt psize buf)) = Some (st, ev) ->
  0 < rx_wkc r ->
  ~ (is_FOE (rx_mbx r) /\ OpCode (rx_mbx r) = ECT_FOE_DATA) ->
  let res := ecx_FOEread a t mbx_cnt psize buf in
  (is_FOE (rx_mbx r) /\ OpCode (rx_mbx r) = ECT_FOE_ERROR ->
   ret res = - EC_ERR_TYPE_FOE_ERROR) /\
  (~ (is_FOE (rx_mbx r) /\ OpCode (rx_mbx r) = ECT_FOE_ERROR) ->
   ret res = - EC_ERR_TYPE_PACKET_ERROR) /\
  ret res < 0 /\
  psize_out res = r_dataread st /\ dataread_out res = r_dataread st /\
  buf_out res = r_buf st /\
  trace res =
    snd (FOEread_init a t mbx_cnt psize buf) ++ ev ++ drop_if (r_MbxIn st)
    ++ [Ev_mbxreceive (timeout a) (rx_wkc r) (Some (r_pool st, rx_mbx r));
        Ev_dropmbx (r_pool st)].
Proof.
  intros Hreq Hsc Ht Hwkc Hno res.
  destruct (FOEread_iter_unexpected a psize r st Hwkc Hno) as (wkc & Hit & He & Hp).
  pose proof (FOEread_reached_MbxOut _ _ _ _ _ _ _ _ Ht) as HO.
  unfold res. rewrite (ecx_FOEread_stops _ _ _ _ _ _ _ _ _ _ _ _ Hreq Hsc Ht Hit).
  unfold FOEread_exit. simpl. rewrite HO. simpl.
  pose proof EC_ERR_TYPE_positive as (Hpe & Hfe & _).
  split; [exact He|]. split; [exact Hp|]. split.
  - assert (Hdec : (is_FOE (rx_mbx r) /\ OpCode (rx_mbx r) = ECT_FOE_ERROR) \/
                   ~ (is_FOE (rx_mbx r) /\ OpCode (rx_mbx r) = ECT_FOE_ERROR)).
    { unfold is_FOE.
      destruct (Z.eq_dec (Z.land (mbxtype (MbxHeader (rx_mbx r))) 0x0f) ECT_MBXT_FOE);
        destruct (Z.eq_dec (OpCode (rx_mbx r)) ECT_FOE_ERROR); tauto. }
    destruct Hdec as [Hd | Hd]; [rewrite (He Hd) | rewrite (Hp Hd)]; lia.
  - repeat split. now rewrite <- !app_assoc.
Qed.

(** The turn of the write loop that receives a mailbox it has no case
    for. *)
Lemma FOEwrite_iter_unexpected a buf r st :
  0 < rx_wkc r ->
  ~ is_FOE (rx_mbx r) \/
  (OpCode (rx_mbx r) <> ECT_FOE_ACK /\ OpCode (rx_mbx r) <> ECT_FOE_BUSY /\
   OpCode (rx_mbx r) <> ECT_FOE_ERROR) ->
  FOEwrite_iter a buf r st =
  ({| w_mbx_cnt := w_mbx_cnt st; w_psize := w_psize st; w_p := w_p st;
      w_sendpacket := w_sendpacket st; w_segmentdata := w_segmentdata st;
      w_dofinalzero := w_dofinalzero st;
      w_MbxIn := Some (w_pool st); w_MbxOut := w_MbxOut st;
      w_FOEp := w_FOEp st; w_FOEp_mem := w_FOEp_mem st;
      w_wkc := - EC_ERR_TYPE_PACKET_ERROR; w_pool := S (w_pool st) |},
   drop_if (w_MbxIn st)
   ++ [Ev_mbxreceive (timeout a) (rx_wkc r) (Some (w_pool st, rx_mbx r))],
   false).
Proof.
  intros Hwkc Hbad. unfold FOEwrite_iter, ecx_mbxreceive, is_FOE in *.
  rewrite (proj2 (Z.ltb_lt _ _) Hwkc).
  destruct (Z.land (mbxtype (MbxHeader (rx_mbx r))) 0x0f =? ECT_MBXT_FOE) eqn:EF;
    [|reflexivity].
  apply Z.eqb_eq in EF. destruct Hbad as [Hn | (Ha & Hb & He)]; [contradiction|].
  apply Z.eqb_neq in Ha, Hb, He. rewrite Ha, Hb, He. reflexivity.
Qed.

(** The turn of the write loop that receives an ACK with another number than
    [sendpacket]. *)
Lemma FOEwrite_iter_ACK_other a buf r st :
  0 < rx_wkc r -> is_FOE (rx_mbx r) -> OpCode (rx_mbx r) = ECT_FOE_ACK ->
  packetnumber_of (rx_mbx r) <> w_sendpacket st ->
  FOEwrite_iter a buf r st =
  ({| w_mbx_cnt := w_mbx_cnt st; w_psize := w_psize st; w_p := w_p st;
      w_sendpacket := w_sendpacket st; w_segmentdata := w_segmentdata st;
      w_dofinalzero := w_dofinalzero st;
      w_MbxIn := Some (w_pool st); w_MbxOut := w_MbxOut st;
      w_FOEp := w_FOEp st; w_FOEp_mem := w_FOEp_mem st;
      w_wkc := - EC_ERR_TYPE_FOE_PACKETNUMBER; w_pool := S (w_pool st) |},
   drop_if (w_MbxIn st)
   ++ [Ev_mbxreceive (timeout a) (rx_wkc r) (Some (w_pool st, rx_mbx r))],
   false).
Proof.
  intros Hwkc HF Hop Hpn. unfold FOEwrite_iter, ecx_mbxreceive, is_FOE in *.
  rewrite (proj2 (Z.ltb_lt _ _) Hwkc), HF, Z.eqb_refl, Hop.
  simpl (ECT_FOE_ACK =? ECT_FOE_ACK). cbv iota zeta.
  unfold packetnumber_of in Hpn. apply Z.eqb_neq in Hpn. rewrite Hpn. reflexivity.
Qed.

(** X2.  When the write loop, in whatever turn, receives an ACK whose packet
    number is not [sendpacket], the call ends at once with minus
    EC_ERR_TYPE_FOE_PACKETNUMBER, a negative number: nothing is sent, no
    hook is called, and the loop variables stay as they were. *)
Theorem FOEwrite_ACK_out_of_sequence a t mbx_cnt psize buf pre r rest st ev :
  0 < req_wkc t -> script t = pre ++ r :: rest ->
  FOEwrite_turns a buf pre (fst (FOEwrite_init a t mbx_cnt psize)) = Some (st, ev) ->
  0 < rx_wkc r -> is_FOE (rx_mbx r) -> OpCode (rx_mbx r) = ECT_FOE_ACK ->
  packetnumber_of (rx_mbx r) <> w_sendpacket st ->
  let res := ecx_FOEwrite a t mbx_cnt psize buf in
  wret res = - EC_ERR_TYPE_FOE_PACKETNUMBER /\ wret res < 0 /\
  w_psize (wfinal res) = w_psize st /\ w_p (wfinal res) = w_p st /\
  w_sendpacket (wfinal res) = w_sendpacket st /\
  wtrace res =
    snd (FOEwrite_init a t mbx_cnt psize) ++ ev ++ drop_if (w_MbxIn st)
    ++ [Ev_mbxreceive (timeout a) (rx_wkc r) (Some (w_pool st, rx_mbx r));
        Ev_dropmbx (w_pool st)].
Proof.
  intros Hreq Hsc Ht Hwkc HF Hop Hpn res.
  pose proof (FOEwrite_iter_ACK_other a buf r st Hwkc HF Hop Hpn) as Hit.
  pose proof (FOEwrite_reached_MbxOut _ _ _ _ _ _ _ _ Ht) as HO.
  unfold res. rewrite (ecx_FOEwrite_stops _ _ _ _ _ _ _ _ _ _ _ _ Hreq Hsc Ht Hit).
  unfold FOEwrite_exit. simpl. rewrite HO. simpl.
  pose proof EC_ERR_TYPE_positive as (_ & _ & _ & Hpn' & _).
  split; [reflexivity|]. split; [lia|]. repeat split.
  now rewrite <- !app_assoc.
Qed.

(** X3.  When the write loop, in whatever turn, receives a mailbox that is
    not of type FoE, or an FoE packet whose opcode is none of ACK, BUSY and
    ERROR, the call ends at once with minus EC_ERR_TYPE_PACKET_ERROR, a
    negative number: nothing is sent and the loop variables stay as they
    were. *)
Theorem FOEwrite_unexpected_mailbox a t mbx_cnt psize buf pre r rest st ev :
  0 < req_wkc t -> script t = pre ++ r :: rest ->
  FOEwrite_turns a buf pre (fst (FOEwrite_init a t mbx_cnt psize)) = Some (st, ev) ->
  0 < rx_wkc r ->
  ~ is_FOE (rx_mbx r) \/
  (OpCode (rx_mbx r) <> ECT_FOE_ACK /\ OpCode (rx_mbx r) <> ECT_FOE_BUSY /\
   OpCode (rx_mbx r) <> ECT_FOE_ERROR) ->
  let res := ecx_FOEwrite a t mbx_cnt psize buf in
  wret res = - EC_ERR_TYPE_PACKET_ERROR /\ wret res < 0 /\
  w_psize (wfinal res) = w_psize st /\ w_p (wfinal res) = w_p st /\
  w_sendpacket (wfinal res) = w_sendpacket st /\
  wtrace res =
    snd (FOEwrite_init a t mbx_cnt psize) ++ ev ++ drop_if (w_MbxIn st)
    ++ [Ev_mbxreceive (timeout a) (rx_wkc r) (Some (w_pool st, rx_mbx r));
        Ev_dropmbx (w_pool st)].
Proof.
  intros Hreq Hsc Ht Hwkc Hbad res.
  pose proof (FOEwrite_iter_unexpected a buf r st Hwkc Hbad) as Hit.
  pose proof (FOEwrite_reached_MbxOut _ _ _ _ _ _ _ _ Ht) as HO.
  unfold res. rewrite (ecx_FOEwrite_stops _ _ _ _ _ _ _ _ _ _ _ _ Hreq Hsc Ht Hit).
  unfold FOEwrite_exit. simpl. rewrite HO. simpl.
  pose proof EC_ERR_TYPE_positive as (Hpe & _).
  split; [reflexivity|]. split; [lia|]. repeat split.
  now rewrite <- !app_assoc.
Qed.

(** X4.  When the transport does not take the request, either driver
    returns the work counter of that send as it is and never waits for an
    answer: the only events are the emptying of the out mailbox, the one
    send, and the release of a mailbox that the emptying has brought.  A read
    leaves its buffer and [*psize] alone, a write sends no DATA. *)
Theorem FOE_request_not_taken a t mbx_cnt psize buf :
  req_wkc t <= 0 ->
  let rd := ecx_FOEread a t mbx_cnt psize buf in
  let wr := ecx_FOEwrite a t mbx_cnt psize buf in
  ret rd = req_wkc t /\ buf_out rd = buf /\ psize_out rd = psize /\
  trace rd = snd (FOEread_init a t mbx_cnt psize buf)
             ++ drop_if (r_MbxIn (fst (FOEread_init a t mbx_cnt psize buf))) /\
  length (sends (trace rd)) = 1%nat /\
  wret wr = req_wkc t /\ DATA_sent (wtrace wr) = [] /\
  wtrace wr = snd (FOEwrite_init a t mbx_cnt psize)
              ++ drop_if (w_MbxIn (fst (FOEwrite_init a t mbx_cnt psize))) /\
  length (sends (wtrace wr)) = 1%nat.
Proof.
  intros Hreq rd wr. unfold rd, wr, ecx_FOEread, ecx_FOEwrite.
  unfold FOEread_init, FOEwrite_init, ecx_mbxreceive, FOEread_exit, FOEwrite_exit.
  destruct (0 <? stale_wkc t); cbn [fst snd r_wkc w_wkc];
    replace (0 <? req_wkc t) with false by (symmetry; apply Z.ltb_ge; assumption);
    simpl; repeat split.
Qed.

(** The turn of either loop in which the receive fails. *)
Lemma FOEread_iter_receive_fails a bs r st :
  rx_wkc r <= 0 ->
  FOEread_iter a bs r st =
  ({| r_mbx_cnt := r_mbx_cnt st; r_psize := r_psize st;
      r_buf := r_buf st; r_p := r_p st;
      r_dataread := r_dataread st; r_prevpacket := r_prevpacket st;
      r_MbxIn := None; r_MbxOut := r_MbxOut st;
      r_wkc := rx_wkc r; r_pool := r_pool st |},
   drop_if (r_MbxIn st) ++ [Ev_mbxreceive (timeout a) (rx_wkc r) None], false).
Proof.
  intros Hwkc. unfold FOEread_iter, ecx_mbxreceive.
  replace (0 <? rx_wkc r) with false by (symmetry; apply Z.ltb_ge; assumption).
  reflexivity.
Qed.

Lemma FOEwrite_iter_receive_fails a buf r st :
  rx_wkc r <= 0 ->
  FOEwrite_iter a buf r st =
  ({| w_mbx_cnt := w_mbx_cnt st; w_psize := w_psize st; w_p := w_p st;
      w_sendpacket := w_sendpacket st; w_segmentdata := w_segmentdata st;
      w_dofinalzero := w_dofinalzero st;
      w_MbxIn := None; w_MbxOut := w_MbxOut st;
      w_FOEp := w_FOEp st; w_FOEp_mem := w_FOEp_mem st;
      w_wkc := rx_wkc r; w_pool := w_pool st |},
   drop_if (w_MbxIn st) ++ [Ev_mbxreceive (timeout a) (rx_wkc r) None], false).
Proof.
  intros Hwkc. unfold FOEwrite_iter, ecx_mbxreceive.
  replace (0 <? rx_wkc r) with false by (symmetry; apply Z.ltb_ge; assumption).
  reflexivity.
Qed.

(** X5.  When a receive of the read loop fails, in whatever turn, the call
    returns the work counter of that receive as it is, without a retry and
    without sending anything more; what earlier turns have landed in the
    buffer and counted in [*psize] stays. *)
Theorem FOEread_receive_fails a t mbx_cnt psize buf pre r rest st ev :
  0 < req_wkc t -> script t = pre ++ r :: rest ->
  FOEread_turns a psize pre (fst (FOEread_init a t mbx_cnt psize buf)) = Some (st, ev) ->
  rx_wkc r <= 0 ->
  let res := ecx_FOEread a t mbx_cnt psize buf in
  ret res = rx_wkc r /\
  buf_out res = r_buf st /\ psize_out res = r_psize st /\
  dataread_out res = r_dataread st /\
  trace res =
    snd (FOEread_init a t mbx_cnt psize buf) ++ ev ++ drop_if (r_MbxIn st)
    ++ [Ev_mbxreceive (timeout a) (rx_wkc r) None].
Proof.
  intros Hreq Hsc Ht Hwkc res.
  pose proof (FOEread_iter_receive_fails a psize r st Hwkc) as Hit.
  pose proof (FOEread_reached_MbxOut _ _ _ _ _ _ _ _ Ht) as HO.
  unfold res. rewrite (ecx_FOEread_stops _ _ _ _ _ _ _ _ _ _ _ _ Hreq Hsc Ht Hit).
  unfold FOEread_exit. simpl. rewrite HO. simpl.
  repeat split. now rewrite !app_nil_r.
Qed.

(** X6.  When a receive of the write loop fails, in whatever turn, the call
    returns the work counter of that receive as it is, without a retry and
    without sending anything more. *)
Theorem FOEwrite_receive_fails a t mbx_cnt psize buf pre r rest st ev :
  0 < req_wkc t -> script t = pre ++ r :: rest ->
  FOEwrite_turns a buf pre (fst (FOEwrite_init a t mbx_cnt psize)) = Some (st, ev) ->
  rx_wkc r <= 0 ->
  let res := ecx_FOEwrite a t mbx_cnt psize buf in
  wret res = rx_wkc r /\
  w_psize (wfinal res) = w_psize st /\ w_sendpacket (wfinal res) = w_sendpacket st /\
  wtrace res =
    snd (FOEwrite_init a t mbx_cnt psize) ++ ev ++ drop_if (w_MbxIn st)
    ++ [Ev_mbxreceive (timeout a) (rx_wkc r) None].
Proof.
  intros Hreq Hsc Ht Hwkc res.
  pose proof (FOEwrite_iter_receive_fails a buf r st Hwkc) as Hit.
  pose proof (FOEwrite_reached_MbxOut _ _ _ _ _ _ _ _ Ht) as HO.
  unfold res. rewrite (ecx_FOEwrite_stops _ _ _ _ _ _ _ _ _ _ _ _ Hreq Hsc Ht Hit).
  unfold FOEwrite_exit. simpl. rewrite HO. simpl.
  repeat split. now rewrite !app_nil_r.
Qed.

(** ** Wrapped integers *)

Lemma int32_congr z : exists k, int32 z = z + k * 4294967296.
Proof.
  unfold int32. exists (- ((z + 2147483648) / 4294967296)).
  pose proof (Z.div_mod (z + 2147483648) 4294967296 ltac:(lia)). lia.
Qed.

Lemma int32_int32_add z d : int32 (int32 z + d) = int32 (z + d).
Proof.
  destruct (int32_congr z) as (k & ->). unfold int32.
  replace (z + k * 4294967296 + d + 2147483648)
    with (z + d + 2147483648 + k * 4294967296) by lia.
  now rewrite Z_mod_plus_full.
Qed.

Lemma uint32_int32 z : uint32 (int32 z) = uint32 z.
Proof.
  destruct (int32_congr z) as (k & ->). unfold uint32.
  now rewrite Z_mod_plus_full.
Qed.

Lemma int32_range z : - 2147483648 <= int32 z <= INT32_MAX.
Proof.
  unfold int32, INT32_MAX.
  pose proof (Z.mod_pos_bound (z + 2147483648) 4294967296 ltac:(lia)). lia.
Qed.

(** ** The turns of the read loop, by their test *)

Lemma ACK_sent_app tr1 tr2 : ACK_sent (tr1 ++ tr2) = ACK_sent tr1 ++ ACK_sent tr2.
Proof.
  induction tr1 as [|e tr1 IH]; simpl; [reflexivity|].
  destruct e as [| |[id m|]| | | |]; try assumption.
  destruct (OpCode m =? ECT_FOE_ACK); simpl; congruence.
Qed.

Lemma hooks_app tr1 tr2 : hooks (tr1 ++ tr2) = hooks tr1 ++ hooks tr2.
Proof.
  induction tr1 as [|e tr1 IH]; simpl; [reflexivity|].
  destruct e; simpl; congruence.
Qed.

Lemma ACK_sent_drop_if o : ACK_sent (drop_if o) = [].
Proof. destruct o; reflexivity. Qed.

Lemma hooks_drop_if o : hooks (drop_if o) = [].
Proof. destruct o; reflexivity. Qed.

(** The turn that accepts. *)
Lemma FOEread_iter_accepts a bs r st :
  FOEread_accepts bs r st = true ->
  let seg := segmentdata_of (rx_mbx r) in
  let bytes := mem_read (Data (rx_mbx r)) 0 seg in
  let n := int32 (r_prevpacket st + 1) in
  let cnt := uint8 (ec_nextmbxcnt (r_mbx_cnt st)) in
  let dataread := int32 (r_dataread st + seg) in
  FOEread_iter a bs r st =
  ({| r_mbx_cnt := cnt; r_psize := dataread;
      r_buf := memcpy (r_buf st) (r_p st) bytes; r_p := r_p st + seg;
      r_dataread := dataread; r_prevpacket := n;
      r_MbxIn := Some (r_pool st); r_MbxOut := None;
      r_wkc := tx_wkc r; r_pool := S (S (r_pool st)) |},
   drop_if (r_MbxIn st)
   ++ [Ev_mbxreceive (timeout a) (rx_wkc r) (Some (r_pool st, rx_mbx r))]
   ++ [Ev_memcpy_p (r_p st) bytes; Ev_getmbx (S (r_pool st));
       Ev_mbxsend (MbxOut_buf (S (r_pool st)) (FOE_ack cnt n)) cnt (tx_wkc r)]
   ++ (if FOEhook a then [Ev_FOEhook (slave a) n dataread] else []),
   if tx_wkc r <=? 0 then false else seg =? maxdata_of a).
Proof.
  unfold FOEread_accepts. intros Hacc.
  apply andb_true_iff in Hacc. destruct Hacc as (Hacc & Hfit).
  apply andb_true_iff in Hacc. destruct Hacc as (Hacc & Hpn).
  apply andb_true_iff in Hacc. destruct Hacc as (Hacc & Hop).
  apply andb_true_iff in Hacc. destruct Hacc as (Hrx & HF).
  unfold packetnumber_of, segmentdata_of in *.
  unfold FOEread_iter, ecx_mbxreceive. rewrite Hrx, HF, Hop.
  cbv iota zeta. rewrite Hpn, Hfit. cbn [andb].
  apply Z.eqb_eq in Hpn. rewrite Hpn. reflexivity.
Qed.

(** The turn that does not accept: it ends the loop and touches neither
    the buffer nor the counters of the transfer. *)
Lemma FOEread_iter_stops a bs r st :
  FOEread_accepts bs r st = false ->
  snd (FOEread_iter a bs r st) = false /\
  let st' := fst (fst (FOEread_iter a bs r st)) in
  let ev := snd (fst (FOEread_iter a bs r st)) in
  r_buf st' = r_buf st /\ r_dataread st' = r_dataread st /\ r_p st' = r_p st /\
  r_mbx_cnt st' = r_mbx_cnt st /\
  (r_psize st' = r_psize st \/ r_psize st' = r_dataread st) /\
  accepted ev = [] /\ ACK_sent ev = [] /\ hooks ev = [] /\ sends ev = [].
Proof.
  unfold FOEread_accepts, packetnumber_of, segmentdata_of. intros Hacc.
  unfold FOEread_iter, ecx_mbxreceive.
  destruct (0 <? rx_wkc r);
    [destruct (Z.land (mbxtype (MbxHeader (rx_mbx r))) 0x0f =? ECT_MBXT_FOE);
     [destruct (OpCode (rx_mbx r) =? ECT_FOE_DATA);
      [cbn [andb] in Hacc; rewrite Hacc|]|]|];
    cbn [fst snd r_buf r_dataread r_p r_mbx_cnt r_psize];
    rewrite accepted_app, ACK_sent_app, hooks_app, sends_app,
      accepted_drop_if, ACK_sent_drop_if, hooks_drop_if, sends_drop_if;
    simpl; repeat split; auto.
Qed.

(** What the events of an accepting turn show. *)
Lemma FOEread_accept_events o tmo w got off bytes id cnt n wkc (hk : bool) sl d :
  let ev := drop_if o ++ [Ev_mbxreceive tmo w got] ++
            [Ev_memcpy_p off bytes; Ev_getmbx id;
             Ev_mbxsend (MbxOut_buf id (FOE_ack cnt n)) cnt wkc]
            ++ (if hk then [Ev_FOEhook sl n d] else []) in
  accepted ev = [bytes] /\ ACK_sent ev = [FOE_ack cnt n] /\
  sends ev = [(MbxOut_buf id (FOE_ack cnt n), cnt)] /\
  hooks ev = (if hk then [(sl, n, d)] else []).
Proof.
  intros ev. unfold ev.
  rewrite accepted_app, ACK_sent_app, sends_app, hooks_app,
    accepted_drop_if, ACK_sent_drop_if, sends_drop_if, hooks_drop_if.
  destruct hk; simpl; repeat split.
Qed.

Lemma FOEread_accepts_silence bs st : FOEread_accepts bs silence st = false.
Proof. reflexivity. Qed.

(** The accepting turn, by what it leaves and shows. *)
Lemma FOEread_iter_accepts_obs a bs r st :
  FOEread_accepts bs r st = true ->
  let seg := segmentdata_of (rx_mbx r) in
  let bytes := mem_read (Data (rx_mbx r)) 0 seg in
  let n := int32 (r_prevpacket st + 1) in
  let cnt := uint8 (ec_nextmbxcnt (r_mbx_cnt st)) in
  let st' := fst (fst (FOEread_iter a bs r st)) in
  let ev := snd (fst (FOEread_iter a bs r st)) in
  snd (FOEread_iter a bs r st)
  = (if tx_wkc r <=? 0 then false else seg =? maxdata_of a) /\
  r_buf st' = memcpy (r_buf st) (r_p st) bytes /\
  r_p st' = r_p st + seg /\
  r_dataread st' = int32 (r_dataread st + seg) /\
  r_psize st' = r_dataread st' /\
  r_prevpacket st' = n /\
  r_wkc st' = tx_wkc r /\
  accepted ev = [bytes] /\ ACK_sent ev = [FOE_ack cnt n] /\
  sends ev = [(MbxOut_buf (S (r_pool st)) (FOE_ack cnt n), cnt)] /\
  hooks ev = (if FOEhook a then [(slave a, n, r_dataread st')] else []).
Proof.
  intros Hacc seg bytes n cnt.
  pose proof (FOEread_iter_accepts a bs r st Hacc) as Hit. cbv zeta in Hit.
  rewrite Hit. cbn [fst snd r_buf r_p r_dataread r_psize r_prevpacket r_wkc].
  destruct (FOEread_accept_events (r_MbxIn st) (timeout a) (rx_wkc r)
              (Some (r_pool st, rx_mbx r)) (r_p st) bytes
              (S (r_pool st)) cnt n (tx_wkc r) (FOEhook a) (slave a)
              (int32 (r_dataread st + seg)))
    as (Ha & Hk & Hs & Hh).
  repeat split; assumption.
Qed.

(** The ACKs of the loop are numbered on from the last accepted packet, and
    there is one send for each accepted segment. *)
Lemma FOEread_loop_ACKs a bs sc :
  forall st n, r_prevpacket st = int32 (Z.of_nat n) ->
  let ev := snd (FOEread_loop a bs sc st) in
  map U32 (ACK_sent ev)
  = map (fun i => htoel (uint32 (Z.of_nat i))) (seq (S n) (length (accepted ev))) /\
  length (sends ev) = length (accepted ev) /\
  length (ACK_sent ev) = length (accepted ev) /\
  Forall (fun m => length_ (MbxHeader m) = htoes 6 /\ Payload m = []) (ACK_sent ev).
Proof.
  assert (Hstop : forall r st,
            FOEread_accepts bs r st = false ->
            let ev := snd (fst (FOEread_iter a bs r st)) in
            forall n : nat,
            map U32 (ACK_sent ev)
            = map (fun i => htoel (uint32 (Z.of_nat i))) (seq (S n) (length (accepted ev))) /\
            length (sends ev) = length (accepted ev) /\
            length (ACK_sent ev) = length (accepted ev) /\
            Forall (fun m => length_ (MbxHeader m) = htoes 6 /\ Payload m = [])
              (ACK_sent ev)).
  { intros r st Hno ev n.
    destruct (FOEread_iter_stops a bs r st Hno) as (_ & _ & _ & _ & _ & _ & Ha & Hk & _ & Hs).
    unfold ev. rewrite Ha, Hk, Hs. simpl. repeat split. constructor. }
  induction sc as [|r sc IH]; intros st n Hn; cbn [FOEread_loop].
  - specialize (Hstop silence st (FOEread_accepts_silence bs st) n).
    destruct (FOEread_iter a bs silence st) as [[st1 ev1] w]. exact Hstop.
  - destruct (FOEread_accepts bs r st) eqn:Hacc.
    + destruct (FOEread_iter_accepts_obs a bs r st Hacc)
        as (_ & _ & _ & _ & _ & Hpp & _ & Ha & Hk & Hs & _).
      destruct (FOEread_iter a bs r st) as [[s1 ev1] w]. cbn [fst snd] in *.
      assert (Hnum : U32 (FOE_ack (uint8 (ec_nextmbxcnt (r_mbx_cnt st)))
                            (int32 (r_prevpacket st + 1)))
                     = htoel (uint32 (Z.of_nat (S n)))).
      { simpl. rewrite Hn, int32_int32_add, uint32_int32. do 2 f_equal. lia. }
      assert (Hn1 : r_prevpacket s1 = int32 (Z.of_nat (S n))).
      { rewrite Hpp, Hn, int32_int32_add. f_equal. lia. }
      destruct w.
      * specialize (IH s1 (S n) Hn1).
        destruct (FOEread_loop a bs sc s1) as [st2 ev2]. cbn [fst snd] in *.
        destruct IH as (IH1 & IH2 & IH3 & IH4).
        rewrite ACK_sent_app, accepted_app, sends_app, Ha, Hk, Hs.
        cbn [app length map seq]. rewrite Hnum.
        repeat split.
        -- f_equal. exact IH1.
        -- now rewrite IH2.
        -- now rewrite IH3.
        -- constructor; [split; reflexivity | exact IH4].
      * cbn [fst snd]. rewrite Ha, Hk, Hs. cbn [length map seq]. rewrite Hnum.
        repeat split. constructor; [split; reflexivity | constructor].
    + specialize (Hstop r st Hacc n).
      destruct (FOEread_iter_stops a bs r st Hacc) as (Hw & _).
      destruct (FOEread_iter a bs r st) as [[st1 ev1] w]. cbn [fst snd] in *.
      subst w. exact Hstop.
Qed.

Lemma FOEread_init_obs a t mbx_cnt psize buf :
  ACK_sent (snd (FOEread_init a t mbx_cnt psize buf)) = [] /\
  hooks (snd (FOEread_init a t mbx_cnt psize buf)) = [] /\
  length (sends (snd (FOEread_init a t mbx_cnt psize buf))) = 1%nat.
Proof.
  unfold FOEread_init, ecx_mbxreceive. destruct (0 <? stale_wkc t); repeat split.
Qed.

Lemma FOEread_exit_obs st :
  ACK_sent (FOEread_exit st) = [] /\ hooks (FOEread_exit st) = [] /\
  sends (FOEread_exit st) = [].
Proof.
  unfold FOEread_exit.
  rewrite ACK_sent_app, hooks_app, sends_app, !ACK_sent_drop_if, !hooks_drop_if,
    !sends_drop_if. repeat split.
Qed.

(** X7.  In every call of [ecx_FOEread], however it ends, the ACKs sent are
    numbered 1, 2, 3, ... without a gap, one for each segment copied into
    the caller's buffer; each has the length field of an empty payload, and
    besides the request and these ACKs nothing is sent. *)
Theorem FOEread_ACKs_numbered a t mbx_cnt psize buf :
  let tr := trace (ecx_FOEread a t mbx_cnt psize buf) in
  map U32 (ACK_sent tr)
  = map (fun i => htoel (uint32 (Z.of_nat i))) (seq 1 (length (accepted tr))) /\
  length (ACK_sent tr) = length (accepted tr) /\
  length (sends tr) = S (length (accepted tr)) /\
  Forall (fun m => length_ (MbxHeader m) = htoes 6 /\ Payload m = []) (ACK_sent tr).
Proof.
  intros tr. unfold tr, ecx_FOEread.
  destruct (FOEread_init_fields a t mbx_cnt psize buf)
    as (_ & _ & _ & _ & Hp0 & _ & Ha0).
  destruct (FOEread_init_obs a t mbx_cnt psize buf) as (Hk0 & _ & Hs0).
  destruct (FOEread_init a t mbx_cnt psize buf) as [st0 ev0]; cbn [fst snd] in *.
  destruct (0 <? r_wkc st0).
  - pose proof (FOEread_loop_ACKs a psize (script t) st0 0%nat Hp0) as HL.
    destruct (FOEread_loop a psize (script t) st0) as [st ev]; cbn [fst snd trace] in *.
    destruct (FOEread_exit_obs st) as (Hke & _ & Hse).
    destruct HL as (H1 & H2 & H3 & H4).
    rewrite !ACK_sent_app, !accepted_app, !sends_app, Hk0, Ha0, Hke, Hse,
      FOEread_exit_accepted, !app_nil_r, !length_app, Hs0.
    cbn [app]. repeat split; try assumption. simpl. now rewrite H2.
  - cbn [trace]. destruct (FOEread_exit_obs st0) as (Hke & _ & Hse).
    rewrite !ACK_sent_app, !accepted_app, !sends_app, Hk0, Ha0, Hke, Hse,
      FOEread_exit_accepted, !length_app, Hs0.
    simpl. repeat split. constructor.
Qed.

(** ** The caller's buffer and the hook of a read *)

Lemma size_concat (l : list (list Z)) : size (concat l) = total l.
Proof.
  induction l as [|x l IH]; [reflexivity|].
  simpl concat. rewrite size_app, IH. reflexivity.
Qed.

Lemma total_nonneg (l : list (list Z)) : 0 <= total l.
Proof.
  induction l as [|x l IH]; simpl; [lia|]. unfold size. lia.
Qed.

(** A segment copied to the end of what has landed. *)
Lemma memcpy_landed (A bytes : list Z) (buf : list Z) d :
  size A = d -> 0 <= d ->
  memcpy (A ++ skipn (Z.to_nat d) buf) d bytes
  = (A ++ bytes) ++ skipn (Z.to_nat (d + size bytes)) buf.
Proof.
  intros HA Hd. unfold memcpy, size in *.
  assert (HlA : length A = Z.to_nat d) by lia.
  rewrite <- app_assoc at 1.
  rewrite firstn_app, HlA, Nat.sub_diag. simpl firstn at 2.
  rewrite firstn_all2 by lia. rewrite app_nil_r.
  rewrite skipn_app, HlA.
  rewrite (skipn_all2 A) by lia. simpl app at 2.
  replace (Z.to_nat d + length bytes - Z.to_nat d)%nat with (length bytes) by lia.
  rewrite skipn_skipn.
  rewrite <- app_assoc. do 3 f_equal. lia.
Qed.

Lemma FOEread_loop_landed a bs buf sc :
  bs + 65535 <= INT32_MAX ->
  forall st acc n,
  FOEread_landed bs buf st acc -> r_prevpacket st = int32 (Z.of_nat n) ->
  let st' := fst (FOEread_loop a bs sc st) in
  let ev := snd (FOEread_loop a bs sc st) in
  FOEread_landed bs buf st' (acc ++ accepted ev) /\
  ((r_psize st' = r_psize st /\ accepted ev = []) \/ r_psize st' = r_dataread st') /\
  hooks ev = (if FOEhook a
              then FOEread_hook_calls (slave a) n (total acc) (accepted ev)
              else []).
Proof.
  intros Hbs.
  assert (Hstop : forall r st acc n,
            FOEread_accepts bs r st = false ->
            FOEread_landed bs buf st acc ->
            let st' := fst (fst (FOEread_iter a bs r st)) in
            let ev := snd (fst (FOEread_iter a bs r st)) in
            FOEread_landed bs buf st' (acc ++ accepted ev) /\
            ((r_psize st' = r_psize st /\ accepted ev = [])
             \/ r_psize st' = r_dataread st') /\
            hooks ev = (if FOEhook a
                        then FOEread_hook_calls (slave a) n (total acc) (accepted ev)
                        else [])).
  { intros r st acc n Hno (Hp & Hd & Hr & Hb).
    destruct (FOEread_iter_stops a bs r st Hno)
      as (_ & Hb' & Hd' & Hp' & _ & Hps & Ha & _ & Hh & _).
    cbv zeta. rewrite Ha, Hh, app_nil_r. unfold FOEread_landed.
    rewrite Hb', Hd', Hp'.
    split; [tauto|]. split.
    - destruct Hps as [Hps | Hps]; [left; split; [exact Hps | reflexivity] | right; exact Hps].
    - destruct (FOEhook a); reflexivity. }
  induction sc as [|r sc IH]; intros st acc n HI Hn; cbn [FOEread_loop].
  - specialize (Hstop silence st acc n (FOEread_accepts_silence bs st) HI).
    destruct (FOEread_iter a bs silence st) as [[st1 ev1] w]. exact Hstop.
  - destruct (FOEread_accepts bs r st) eqn:Hacc.
    + destruct (FOEread_iter_accepts_obs a bs r st Hacc)
        as (_ & Hb1 & Hp1 & Hd1 & Hps1 & Hpp1 & _ & Ha & _ & _ & Hh).
      pose proof (segmentdata_of_range (rx_mbx r)) as Hseg.
      assert (Hfit : int32 (r_dataread st + segmentdata_of (rx_mbx r)) <= bs).
      { unfold FOEread_accepts in Hacc. apply andb_true_iff in Hacc.
        destruct Hacc as (_ & Hf). apply Z.leb_le in Hf. exact Hf. }
      destruct HI as (Hp & Hd & Hr & Hb).
      rewrite int32_id in Hfit, Hd1 by (unfold INT32_MAX in *; lia).
      set (bytes := mem_read (Data (rx_mbx r)) 0 (segmentdata_of (rx_mbx r))) in *.
      assert (Hsz : size bytes = segmentdata_of (rx_mbx r))
        by (apply size_mem_read; lia).
      destruct (FOEread_iter a bs r st) as [[s1 ev1] w]. cbn [fst snd] in *.
      assert (HI1 : FOEread_landed bs buf s1 (acc ++ [bytes])).
      { unfold FOEread_landed. rewrite total_app. simpl total.
        rewrite Hp1, Hd1, Hb1, Hb, Hp, Hd, Hsz.
        split; [reflexivity|]. split; [lia|]. split; [lia|].
        rewrite concat_app. simpl concat. rewrite app_nil_r.
        rewrite memcpy_landed by (rewrite ?size_concat; lia).
        rewrite Hsz. do 3 f_equal. lia. }
      assert (Hn1 : r_prevpacket s1 = int32 (Z.of_nat (S n))).
      { rewrite Hpp1, Hn, int32_int32_add. f_equal. lia. }
      assert (Hh1 : hooks ev1 = (if FOEhook a
                                 then FOEread_hook_calls (slave a) n (total acc) [bytes]
                                 else [])).
      { rewrite Hh. destruct (FOEhook a); [|reflexivity].
        unfold FOEread_hook_calls. cbn [length seq running combine map fst snd].
        rewrite Hn, int32_int32_add, Hd1, Hd, Hsz.
        replace (Z.of_nat (S n)) with (Z.of_nat n + 1) by lia. reflexivity. }
      destruct w.
      * specialize (IH s1 (acc ++ [bytes]) (S n) HI1 Hn1).
        destruct (FOEread_loop a bs sc s1) as [st2 ev2]. cbn [fst snd] in *.
        destruct IH as (IH1 & IH2 & IH3).
        rewrite accepted_app, hooks_app, Ha, Hh1, IH3.
        rewrite <- app_assoc in IH1. simpl app in IH1 at 2.
        split; [exact IH1|]. split.
        -- right. destruct IH2 as [(E & E0) | E]; [|exact E].
           destruct IH1 as (_ & Hd2 & _). rewrite E0 in Hd2.
           destruct HI1 as (_ & Hd1' & _).
           rewrite E, Hps1, Hd2, Hd1'. reflexivity.
        -- destruct (FOEhook a); [|reflexivity].
           unfold FOEread_hook_calls. rewrite total_app. simpl total.
           cbn [length seq running combine map fst snd app].
           replace (total acc + (size bytes + 0)) with (total acc + size bytes) by lia.
           reflexivity.
      * cbn [fst snd]. rewrite Ha, Hh1. split; [exact HI1|]. split; [right; exact Hps1|].
        reflexivity.
    + specialize (Hstop r st acc n Hacc HI).
      destruct (FOEread_iter_stops a bs r st Hacc) as (Hw & _).
      destruct (FOEread_iter a bs r st) as [[st1 ev1] w]. cbn [fst snd] in *.
      subst w. exact Hstop.
Qed.

Lemma ecx_FOEread_landed a t mbx_cnt psize buf :
  psize + 65535 <= INT32_MAX ->
  let res := ecx_FOEread a t mbx_cnt psize buf in
  let acc := accepted (trace res) in
  buf_out res = concat acc ++ skipn (Z.to_nat (total acc)) buf /\
  dataread_out res = total acc /\
  0 <= total acc <= Z.max 0 psize /\
  ((psize_out res = psize /\ acc = []) \/ psize_out res = total acc).
Proof.
  intros Hbs res acc. unfold acc, res, ecx_FOEread.
  destruct (FOEread_init_fields a t mbx_cnt psize buf)
    as (_ & Hps0 & Hb0 & Hd0 & Hp0 & (_ & _ & Hpp0) & Ha0).
  destruct (FOEread_init a t mbx_cnt psize buf) as [st0 ev0]; cbn [fst snd] in *.
  assert (HI0 : FOEread_landed psize buf st0 []).
  { unfold FOEread_landed. simpl. rewrite Hpp0, Hd0, Hb0. repeat split; lia. }
  destruct (0 <? r_wkc st0).
  - pose proof (FOEread_loop_landed a psize buf (script t) Hbs st0 [] 0%nat HI0 Hp0) as HL.
    destruct (FOEread_loop a psize (script t) st0) as [st ev]; cbn [fst snd trace] in *.
    destruct HL as ((_ & Hd & Hr & Hb) & Hps & _). simpl app in *.
    cbn [buf_out dataread_out psize_out].
    rewrite !accepted_app, Ha0, FOEread_exit_accepted, app_nil_r. simpl app.
    split; [exact Hb|]. split; [exact Hd|]. split; [exact Hr|].
    destruct Hps as [(E & E0) | E]; [left | right]; [split; congruence | congruence].
  - cbn [trace buf_out dataread_out psize_out].
    rewrite !accepted_app, Ha0, FOEread_exit_accepted. simpl.
    rewrite Hb0, Hd0. repeat split; try lia. left. split; [exact Hps0 | reflexivity].
Qed.

(** X8.  On every return of [ecx_FOEread], success or failure, the caller's
    buffer holds the accepted segments in order from its start, and behind
    them what the caller passed; [dataread] is their total size, which is
    never more than the buffer size passed in [*psize], and [*psize] is
    either untouched, with nothing accepted, or [dataread]. *)
Theorem FOEread_buffer_on_return a t mbx_cnt psize buf :
  psize + 65535 <= INT32_MAX ->
  let res := ecx_FOEread a t mbx_cnt psize buf in
  let acc := accepted (trace res) in
  buf_out res = concat acc ++ skipn (Z.to_nat (total acc)) buf /\
  dataread_out res = total acc /\
  0 <= total acc <= Z.max 0 psize /\
  ((psize_out res = psize /\ acc = []) \/ psize_out res = total acc).
Proof.
  exact (ecx_FOEread_landed a t mbx_cnt psize buf).
Qed.

Lemma FOEwrite_iter_no_hook a buf r st :
  FOEhook a = false -> hooks (snd (fst (FOEwrite_iter a buf r st))) = [].
Proof.
  intros Hh. unfold FOEwrite_iter, ecx_mbxreceive. rewrite Hh.
  destruct (w_MbxIn st); split_ifs; reflexivity.
Qed.

Lemma FOEwrite_loop_no_hook a buf sc :
  FOEhook a = false -> forall st, hooks (snd (FOEwrite_loop a buf sc st)) = [].
Proof.
  intros Hh. induction sc as [|r sc IH]; intros st; cbn [FOEwrite_loop].
  - pose proof (FOEwrite_iter_no_hook a buf silence st Hh) as Hs.
    destruct (FOEwrite_iter a buf silence st) as [[st1 ev1] w]. exact Hs.
  - pose proof (FOEwrite_iter_no_hook a buf r st Hh) as Hs.
    destruct (FOEwrite_iter a buf r st) as [[st1 ev1] [|]]; cbn [fst snd] in *;
      [|exact Hs].
    specialize (IH st1). destruct (FOEwrite_loop a buf sc st1) as [st2 ev2].
    cbn [fst snd] in *. now rewrite hooks_app, Hs, IH.
Qed.

(** X9.  [ecx_FOEdefinehook] returns 1 and leaves the mailbox length alone.
    With a hook set, every call of [ecx_FOEread] calls it once for each
    accepted segment, with the slave, the packet number 1, 2, 3, ... and
    the bytes read so far; with the hook cleared, neither driver calls
    anything. *)
Theorem FOEhook_calls a t mbx_cnt psize buf :
  psize + 65535 <= INT32_MAX ->
  snd (ecx_FOEdefinehook a true) = 1 /\
  mbx_l (fst (ecx_FOEdefinehook a true)) = mbx_l a /\
  (let res := ecx_FOEread (fst (ecx_FOEdefinehook a true)) t mbx_cnt psize buf in
   hooks (trace res)
   = FOEread_hook_calls (slave a) 0 0 (accepted (trace res))) /\
  hooks (trace (ecx_FOEread (fst (ecx_FOEdefinehook a false)) t mbx_cnt psize buf)) = [] /\
  hooks (wtrace (ecx_FOEwrite (fst (ecx_FOEdefinehook a false)) t mbx_cnt psize buf)) = [].
Proof.
  intros Hbs. split; [reflexivity|]. split; [reflexivity|].
  assert (Hrd : forall a', 
            hooks (trace (ecx_FOEread a' t mbx_cnt psize buf))
            = (if FOEhook a'
               then FOEread_hook_calls (slave a') 0 0
                      (accepted (trace (ecx_FOEread a' t mbx_cnt psize buf)))
               else [])).
  { intros a'. unfold ecx_FOEread.
    destruct (FOEread_init_fields a' t mbx_cnt psize buf)
      as (_ & _ & Hb0 & Hd0 & Hp0 & (_ & _ & Hpp0) & Ha0).
    destruct (FOEread_init_obs a' t mbx_cnt psize buf) as (_ & Hh0 & _).
    destruct (FOEread_init a' t mbx_cnt psize buf) as [st0 ev0]; cbn [fst snd] in *.
    assert (HI0 : FOEread_landed psize buf st0 []).
    { unfold FOEread_landed. simpl. rewrite Hpp0, Hd0, Hb0. repeat split; lia. }
    destruct (0 <? r_wkc st0).
    - pose proof (FOEread_loop_landed a' psize buf (script t) Hbs st0 [] 0%nat HI0 Hp0) as HL.
      destruct (FOEread_loop a' psize (script t) st0) as [st ev]; cbn [fst snd trace] in *.
      destruct HL as (_ & _ & Hh). destruct (FOEread_exit_obs st) as (_ & Hhe & _).
      rewrite !hooks_app, !accepted_app, Hh0, Ha0, Hhe, FOEread_exit_accepted, Hh,
        !app_nil_r. reflexivity.
    - cbn [trace]. destruct (FOEread_exit_obs st0) as (_ & Hhe & _).
      rewrite !hooks_app, !accepted_app, Hh0, Ha0, Hhe, FOEread_exit_accepted.
      destruct (FOEhook a'); reflexivity. }
  split; [|split].
  - cbv zeta. rewrite Hrd. reflexivity.
  - rewrite Hrd. reflexivity.
  - unfold ecx_FOEwrite, FOEwrite_init, ecx_mbxreceive, FOEwrite_exit.
    set (a' := fst (ecx_FOEdefinehook a false)).
    assert (Hh : FOEhook a' = false) by reflexivity.
    destruct (0 <? stale_wkc t); cbn [fst snd w_wkc];
      (destruct (0 <? req_wkc t);
       [ match goal with
         | |- context [FOEwrite_loop a' buf (script t) ?s] =>
             pose proof (FOEwrite_loop_no_hook a' buf (script t) Hh s) as HL;
             destruct (FOEwrite_loop a' buf (script t) s) as [st ev]
         end
       | ]);
      cbn [wtrace fst snd] in *;
      rewrite ?hooks_app, ?hooks_drop_if, ?HL; reflexivity.
Qed.

(** ** A slave that sends the file in sequence *)

Lemma FOEread_accepts_DATA_turn bs r st :
  DATA_turn r ->
  packetnumber_of (rx_mbx r) = int32 (r_prevpacket st + 1) ->
  int32 (r_dataread st + segmentdata_of (rx_mbx r)) <= bs ->
  FOEread_accepts bs r st = true.
Proof.
  intros (Hrx & HF & Hop & _) Hpn Hfit. unfold FOEread_accepts, is_FOE in *.
  rewrite (proj2 (Z.ltb_lt _ _) Hrx), HF, Hop, Hpn, (proj2 (Z.leb_le _ _) Hfit).
  rewrite !Z.eqb_refl. reflexivity.
Qed.

(** Full segments in sequence keep the loop going. *)
Lemma FOEread_turns_full a bs pre :
  bs + 65535 <= INT32_MAX ->
  forall st n,
  r_prevpacket st = Z.of_nat n -> Z.of_nat (n + length pre) < INT32_MAX ->
  0 <= r_dataread st ->
  r_dataread st + Z.of_nat (length pre) * maxdata_of a <= bs ->
  Forall DATA_turn pre ->
  map (fun r => packetnumber_of (rx_mbx r)) pre
  = map Z.of_nat (seq (S n) (length pre)) ->
  Forall (fun r => segmentdata_of (rx_mbx r) = maxdata_of a) pre ->
  exists st' ev,
    FOEread_turns a bs pre st = Some (st', ev) /\
    accepted ev = map payload_of pre /\
    r_prevpacket st' = Z.of_nat (n + length pre) /\
    r_dataread st' = r_dataread st + Z.of_nat (length pre) * maxdata_of a.
Proof.
  intros Hbs. induction pre as [|r pre IH]; intros st n Hn Hlen Hd Hfit HD Hnum Hfull.
  - exists st, []. simpl. rewrite Nat.add_0_r. repeat split; [assumption | lia].
  - inversion HD as [|? ? Hr HD']; subst. inversion Hfull as [|? ? Hf Hfull']; subst.
    simpl length in *. simpl seq in Hnum. simpl map in Hnum.
    injection Hnum as Hpn Hnum'.
    pose proof (maxdata_of_nonneg a) as Hm.
    assert (Hacc : FOEread_accepts bs r st = true).
    { apply FOEread_accepts_DATA_turn; [exact Hr | |].
      - rewrite Hn, int32_id by (unfold INT32_MAX in *; lia). rewrite Hpn. lia.
      - rewrite Hf, int32_id by (unfold INT32_MAX in *; nia). nia. }
    destruct (FOEread_iter_accepts_obs a bs r st Hacc)
      as (Hw & _ & _ & Hd1 & _ & Hpp1 & _ & Ha & _).
    destruct Hr as (_ & _ & _ & Htx).
    replace (tx_wkc r <=? 0) with false in Hw by (symmetry; apply Z.leb_gt; assumption).
    rewrite Hf, Z.eqb_refl in Hw.
    rewrite Hf, int32_id in Hd1 by (unfold INT32_MAX in *; nia).
    rewrite Hn, int32_id in Hpp1 by (unfold INT32_MAX in *; lia).
    cbn [FOEread_turns].
    destruct (FOEread_iter a bs r st) as [[s1 ev1] w]. cbn [fst snd] in *. subst w.
    destruct (IH s1 (S n)) as (st' & ev & Ht & Hacc' & Hpp' & Hd');
      try assumption; try lia; try nia.
    exists st', (ev1 ++ ev). rewrite Ht. split; [reflexivity|].
    rewrite accepted_app, Ha, Hacc'. split; [reflexivity|].
    split; [rewrite Hpp'; f_equal; lia | nia].
Qed.

(** The read of a file that the slave sends in numbered DATA packets, full
    ones and a last one of another size. *)
Lemma ecx_FOEread_delivers a t mbx_cnt psize buf pre r rest :
  psize + 65535 <= INT32_MAX -> Z.of_nat (S (length pre)) < INT32_MAX ->
  0 < req_wkc t -> script t = pre ++ r :: rest ->
  Forall DATA_turn (pre ++ [r]) ->
  map (fun r => packetnumber_of (rx_mbx r)) (pre ++ [r])
  = map Z.of_nat (seq 1 (S (length pre))) ->
  Forall (fun r => segmentdata_of (rx_mbx r) = maxdata_of a) pre ->
  segmentdata_of (rx_mbx r) <> maxdata_of a ->
  Z.of_nat (length pre) * maxdata_of a + segmentdata_of (rx_mbx r) <= psize ->
  let res := ecx_FOEread a t mbx_cnt psize buf in
  let file := concat (map payload_of (pre ++ [r])) in
  ret res = tx_wkc r /\ 0 < ret res /\
  accepted (trace res) = map payload_of (pre ++ [r]) /\
  psize_out res = size file /\
  size file = Z.of_nat (length pre) * maxdata_of a + segmentdata_of (rx_mbx r) /\
  buf_out res = file ++ skipn (Z.to_nat (size file)) buf.
Proof.
  intros Hbs Hlen Hreq Hsc HD Hnum Hfull Hlast Hfit res file.
  pose proof (segmentdata_of_range (rx_mbx r)) as Hseg.
  pose proof (maxdata_of_nonneg a) as Hm.
  apply Forall_app in HD. destruct HD as (HDpre & HDr).
  inversion HDr as [|? ? Hr _]; subst.
  replace (S (length pre)) with (length pre + 1)%nat in Hnum by lia.
  rewrite seq_app, !map_app in Hnum. simpl in Hnum.
  apply app_inj_tail in Hnum. destruct Hnum as (Hnum & Hpn).
  destruct (FOEread_init_fields a t mbx_cnt psize buf)
    as (_ & _ & _ & Hd0 & Hp0 & _ & Ha0).
  destruct (FOEread_turns_full a psize pre Hbs
              (fst (FOEread_init a t mbx_cnt psize buf)) 0%nat)
    as (st & ev & Ht & Hacc & Hpp & Hd); try assumption; try lia; try nia.
  rewrite Hd0 in Hd. simpl in Hpp.
  assert (Hok : FOEread_accepts psize r st = true).
  { apply FOEread_accepts_DATA_turn; [exact Hr | |].
    - rewrite Hpp, int32_id by (unfold INT32_MAX in *; lia). rewrite Hpn. lia.
    - rewrite Hd, int32_id by (unfold INT32_MAX in *; nia). nia. }
  destruct (FOEread_iter_accepts_obs a psize r st Hok)
    as (Hw & _ & _ & _ & _ & _ & Hwkc & Ha & _).
  destruct Hr as (_ & _ & _ & Htx).
  replace (tx_wkc r <=? 0) with false in Hw by (symmetry; apply Z.leb_gt; assumption).
  replace (segmentdata_of (rx_mbx r) =? maxdata_of a) with false in Hw
    by (symmetry; apply Z.eqb_neq; assumption).
  destruct (FOEread_iter a psize r st) as [[s1 ev1] w] eqn:Hit. cbn [fst snd] in *.
  subst w.
  pose proof (ecx_FOEread_landed a t mbx_cnt psize buf Hbs) as HL. cbv zeta in HL.
  assert (Htr : accepted (trace (ecx_FOEread a t mbx_cnt psize buf))
                = map payload_of (pre ++ [r])).
  { rewrite (ecx_FOEread_stops _ _ _ _ _ _ _ _ _ _ _ _ Hreq Hsc Ht Hit). simpl.
    rewrite !accepted_app, Ha0, FOEread_exit_accepted, Hacc, Ha, map_app. simpl.
    now rewrite app_nil_r. }
  assert (Hsize : size file
                  = Z.of_nat (length pre) * maxdata_of a + segmentdata_of (rx_mbx r)).
  { unfold file. rewrite size_concat, map_app, total_app. simpl.
    unfold payload_of at 2. rewrite size_mem_read by lia.
    assert (Hpre : forall l, Forall (fun r0 => segmentdata_of (rx_mbx r0) = maxdata_of a) l ->
                   total (map payload_of l) = Z.of_nat (length l) * maxdata_of a).
    { induction 1 as [|x l Hx _ IHl]; [reflexivity|].
      simpl map. simpl total. rewrite IHl. unfold payload_of.
      rewrite size_mem_read by (rewrite Hx; lia). rewrite Hx. simpl length. lia. }
    rewrite (Hpre pre Hfull). lia. }
  unfold res. rewrite Htr in HL. fold file in HL. rewrite <- size_concat in HL.
  fold file in HL.
  destruct HL as (Hb & Hdr & _ & Hps).
  assert (Hret : ret (ecx_FOEread a t mbx_cnt psize buf) = tx_wkc r).
  { rewrite (ecx_FOEread_stops _ _ _ _ _ _ _ _ _ _ _ _ Hreq Hsc Ht Hit). simpl.
    exact Hwkc. }
  rewrite Hret. repeat split; try assumption.
  destruct Hps as [(_ & E) | E]; [|exact E].
  exfalso. destruct pre; discriminate E.
Qed.

(** X10.  When the slave sends, in answer to the READ request, DATA packets
    numbered 1, 2, 3, ..., all with [maxdata] octets but the last, which has
    another size, none with more than [EC_MAXFOEDATA] octets, the size of
    [Data], and they fit the buffer, [ecx_FOEread] accepts them all:
    it returns the positive work counter of the last ACK send, [*psize] is
    the size of the file, the buffer holds the payloads in order and behind
    them what the caller passed, no segment copied is longer than [Data],
    and what the slave sends after the last packet is not looked at. *)
Theorem FOEread_delivers a t mbx_cnt psize buf pre r rest :
  psize + 65535 <= INT32_MAX -> Z.of_nat (S (length pre)) < INT32_MAX ->
  0 < req_wkc t -> script t = pre ++ r :: rest ->
  Forall DATA_turn (pre ++ [r]) ->
  map (fun r => packetnumber_of (rx_mbx r)) (pre ++ [r])
  = map Z.of_nat (seq 1 (S (length pre))) ->
  Forall (fun r => segmentdata_of (rx_mbx r) = maxdata_of a) pre ->
  segmentdata_of (rx_mbx r) <> maxdata_of a ->
  Forall (fun r => segmentdata_of (rx_mbx r) <= EC_MAXFOEDATA) (pre ++ [r]) ->
  Z.of_nat (length pre) * maxdata_of a + segmentdata_of (rx_mbx r) <= psize ->
  let res := ecx_FOEread a t mbx_cnt psize buf in
  let file := concat (map payload_of (pre ++ [r])) in
  ret res = tx_wkc r /\ 0 < ret res /\
  accepted (trace res) = map payload_of (pre ++ [r]) /\
  psize_out res = size file /\
  size file = Z.of_nat (length pre) * maxdata_of a + segmentdata_of (rx_mbx r) /\
  buf_out res = file ++ skipn (Z.to_nat (size file)) buf /\
  Forall (fun s => size s <= EC_MAXFOEDATA) (accepted (trace res)).
Proof.
  intros Hbs Hlen Hreq Hsc HD Hnum Hfull Hlast Harr Hfit.
  destruct (ecx_FOEread_delivers a t mbx_cnt psize buf pre r rest
              Hbs Hlen Hreq Hsc HD Hnum Hfull Hlast Hfit)
    as (W1 & W2 & W3 & W4 & W5 & W6).
  cbv zeta. repeat (split; [assumption|]).
  rewrite W3. apply Forall_map.
  eapply Forall_impl; [|exact Harr]. intros x Hx. cbv beta in Hx.
  unfold payload_of. rewrite size_mem_read; [exact Hx|].
  apply segmentdata_of_range.
Qed.

(** ** The turns of the write loop, by their tests *)

(** The turn that sends the next DATA packet. *)
Lemma FOEwrite_iter_sends a buf r st :
  FOEwrite_sends a r st = true ->
  let seg := tsize_of (w_psize st) (maxdata_of a) in
  let psize := int32 (w_psize st - seg) in
  let cnt := uint8 (ec_nextmbxcnt (w_mbx_cnt st)) in
  let n := int32 (w_sendpacket st + 1) in
  let pkt := FOE_data ec_clearmbx cnt n seg (mem_read buf (w_p st) seg) in
  FOEwrite_iter a buf r st =
  ({| w_mbx_cnt := cnt; w_psize := psize; w_p := w_p st + seg;
      w_sendpacket := n; w_segmentdata := seg;
      w_dofinalzero := (psize =? 0) && (seg =? maxdata_of a);
      w_MbxIn := Some (w_pool st); w_MbxOut := None;
      w_FOEp := S (w_pool st); w_FOEp_mem := pkt;
      w_wkc := tx_wkc r; w_pool := S (S (w_pool st)) |},
   drop_if (w_MbxIn st)
   ++ [Ev_mbxreceive (timeout a) (rx_wkc r) (Some (w_pool st, rx_mbx r))]
   ++ (if FOEhook a
       then [Ev_FOEhook (slave a) (packetnumber_of (rx_mbx r)) (w_psize st)]
       else [])
   ++ [Ev_getmbx (S (w_pool st));
       Ev_mbxsend (MbxOut_buf (S (w_pool st)) pkt) cnt (tx_wkc r)],
   if tx_wkc r <=? 0 then false else true).
Proof.
  unfold FOEwrite_sends. intros Hs.
  apply andb_true_iff in Hs. destruct Hs as (Hs & Hgo).
  apply andb_true_iff in Hs. destruct Hs as (Hs & Hpn).
  apply andb_true_iff in Hs. destruct Hs as (Hs & Hop).
  apply andb_true_iff in Hs. destruct Hs as (Hrx & HF).
  unfold packetnumber_of in *.
  unfold FOEwrite_iter, ecx_mbxreceive. rewrite Hrx, HF, Hop.
  cbv iota zeta. rewrite Hpn, Hgo. reflexivity.
Qed.

(** The turn that resends after BUSY. *)
Lemma FOEwrite_iter_resends a buf r st :
  FOEwrite_resends a r st = true ->
  let back := int32 (w_psize st + w_segmentdata st) in
  let seg := tsize_of back (maxdata_of a) in
  let psize := int32 (back - seg) in
  let cnt := uint8 (ec_nextmbxcnt (w_mbx_cnt st)) in
  let n := int32 (int32 (w_sendpacket st - 1) + 1) in
  let pkt := FOE_data (w_FOEp_mem st) cnt n seg
               (mem_read buf (w_p st - w_segmentdata st) seg) in
  FOEwrite_iter a buf r st =
  ({| w_mbx_cnt := cnt; w_psize := psize;
      w_p := w_p st - w_segmentdata st + seg;
      w_sendpacket := n; w_segmentdata := seg;
      w_dofinalzero := (psize =? 0) && (seg =? maxdata_of a);
      w_MbxIn := Some (w_pool st); w_MbxOut := w_MbxOut st;
      w_FOEp := w_FOEp st; w_FOEp_mem := pkt;
      w_wkc := tx_wkc r; w_pool := S (w_pool st) |},
   drop_if (w_MbxIn st)
   ++ [Ev_mbxreceive (timeout a) (rx_wkc r) (Some (w_pool st, rx_mbx r))]
   ++ [Ev_store_FOEp (w_FOEp st) pkt; Ev_mbxsend MbxOut_addr cnt (tx_wkc r)],
   if tx_wkc r <=? 0 then false else true).
Proof.
  unfold FOEwrite_resends. intros Hs.
  apply andb_true_iff in Hs. destruct Hs as (Hs & Hgo).
  apply andb_true_iff in Hs. destruct Hs as (Hs & Hsp).
  apply andb_true_iff in Hs. destruct Hs as (Hs & Hop).
  apply andb_true_iff in Hs. destruct Hs as (Hs & Hna).
  apply andb_true_iff in Hs. destruct Hs as (Hrx & HF).
  apply negb_true_iff in Hna.
  unfold FOEwrite_iter, ecx_mbxreceive. rewrite Hrx, HF, Hna, Hop, Hsp.
  cbv iota zeta. rewrite Hgo. reflexivity.
Qed.

(** Every other turn ends the loop, sends no DATA packet and stores
    nothing through [FOEp]. *)
Lemma FOEwrite_iter_other a buf r st :
  FOEwrite_sends a r st = false -> FOEwrite_resends a r st = false ->
  snd (FOEwrite_iter a buf r st) = false /\
  DATA_sent (snd (fst (FOEwrite_iter a buf r st))) = [] /\
  stores (snd (fst (FOEwrite_iter a buf r st))) = [] /\
  sends (snd (fst (FOEwrite_iter a buf r st))) = [].
Proof.
  unfold FOEwrite_sends, FOEwrite_resends, packetnumber_of.
  unfold FOEwrite_iter, ecx_mbxreceive.
  destruct (0 <? rx_wkc r); cbn [andb].
  2:{ intros _ _. cbv zeta. cbn [fst snd].
      rewrite DATA_sent_app, stores_app, sends_app, DATA_sent_drop_if,
        stores_drop_if, sends_drop_if. repeat split. }
  destruct (Z.land (mbxtype (MbxHeader (rx_mbx r))) 0x0f =? ECT_MBXT_FOE); cbn [andb].
  2:{ intros _ _. cbv zeta. cbn [fst snd].
      rewrite DATA_sent_app, stores_app, sends_app, DATA_sent_drop_if,
        stores_drop_if, sends_drop_if. repeat split. }
  destruct (OpCode (rx_mbx r) =? ECT_FOE_ACK); cbn [andb negb].
  - destruct (int32 (etohl (PacketNumber (rx_mbx r))) =? w_sendpacket st); cbn [andb].
    + intros Hs _. cbv zeta. rewrite Hs. cbn [fst snd].
      rewrite !DATA_sent_app, !stores_app, !sends_app, DATA_sent_drop_if,
        stores_drop_if, sends_drop_if.
      destruct (FOEhook a); repeat split.
    + intros _ _. cbv zeta. cbn [fst snd].
      rewrite DATA_sent_app, stores_app, sends_app, DATA_sent_drop_if,
        stores_drop_if, sends_drop_if. repeat split.
  - intros _. destruct (OpCode (rx_mbx r) =? ECT_FOE_BUSY); cbn [andb].
    + destruct (negb (w_sendpacket st =? 0)); cbn [andb].
      * intros Hs. cbv zeta. rewrite Hs. cbn [fst snd].
        rewrite DATA_sent_app, stores_app, sends_app, DATA_sent_drop_if,
          stores_drop_if, sends_drop_if. repeat split.
      * intros _. cbv zeta. cbn [fst snd].
        rewrite DATA_sent_app, stores_app, sends_app, DATA_sent_drop_if,
          stores_drop_if, sends_drop_if. repeat split.
    + intros _. cbv zeta.
      destruct (OpCode (rx_mbx r) =? ECT_FOE_ERROR);
        [destruct (ErrorCode (rx_mbx r) =? 0x8001)|];
        cbn [fst snd];
        rewrite DATA_sent_app, stores_app, sends_app, DATA_sent_drop_if,
          stores_drop_if, sends_drop_if; repeat split.
Qed.

(** ** The DATA packets of a write on every path *)

Lemma int32_idem z : int32 (int32 z) = int32 z.
Proof.
  replace (int32 z) with (int32 z + 0) at 1 by lia.
  rewrite int32_int32_add. f_equal. lia.
Qed.

Lemma memcpy_same l : memcpy l 0 l = l.
Proof.
  unfold memcpy. simpl. rewrite skipn_all. apply app_nil_r.
Qed.

Lemma FOE_numbers_snoc k :
  FOE_numbers (S k) = FOE_numbers k ++ [htoel (uint32 (Z.of_nat (S k)))].
Proof.
  unfold FOE_numbers. replace (S k) with (k + 1)%nat at 1 by lia.
  rewrite seq_app, map_app. cbn [seq map]. reflexivity.
Qed.

Lemma tsize_of_bounds psize maxdata :
  0 <= psize -> 0 < maxdata ->
  0 <= tsize_of psize maxdata <= psize /\ tsize_of psize maxdata <= maxdata /\
  (tsize_of psize maxdata < psize -> tsize_of psize maxdata = maxdata) /\
  (psize <= maxdata -> tsize_of psize maxdata = psize).
Proof.
  intros Hp Hm. unfold tsize_of. destruct (psize >? maxdata) eqn:E.
  - apply Z.gtb_lt in E. lia.
  - rewrite Z.gtb_ltb in E. apply Z.ltb_ge in E. lia.
Qed.

Lemma FOEwrite_sent_in_order maxdata buf st sent :
  FOEwrite_sent maxdata buf st sent -> FOEwrite_in_order maxdata buf sent.
Proof.
  intros (_ & _ & _ & Hcat & _ & Hnum & Hhdr & Hshape).
  unfold FOEwrite_in_order. split; [exact Hnum|]. split; [exact Hhdr|].
  split; [eexists; exact Hcat|].
  destruct Hshape as [(-> & _) | (S' & m & -> & HS' & Hm & _)].
  - split; constructor.
  - rewrite removelast_last. split; [exact HS'|].
    apply Forall_app. split.
    + eapply Forall_impl; [|exact HS']. simpl. intros x Hx. lia.
    + constructor; [exact Hm | constructor].
Qed.

(** The invariant after the send of the next DATA packet. *)
Lemma FOEwrite_sent_after_send a buf r st sent :
  0 < maxdata_of a -> size buf <= INT32_MAX ->
  FOEwrite_sent (maxdata_of a) buf st sent ->
  FOEwrite_sends a r st = true ->
  exists pkt,
    DATA_sent (snd (fst (FOEwrite_iter a buf r st))) = [pkt] /\
    stores (snd (fst (FOEwrite_iter a buf r st))) = [] /\
    snd (FOEwrite_iter a buf r st) = (if tx_wkc r <=? 0 then false else true) /\
    w_wkc (fst (fst (FOEwrite_iter a buf r st))) = tx_wkc r /\
    Data pkt = mem_read buf (w_p st) (tsize_of (w_psize st) (maxdata_of a)) /\
    FOEwrite_sent (maxdata_of a) buf (fst (fst (FOEwrite_iter a buf r st)))
      (sent ++ [pkt]).
Proof.
  intros Hmax Hbuf (Hps & Hp & Hsum & Hcat & Hsp & Hnum & Hhdr & Hshape) Hs.
  pose proof (FOEwrite_iter_sends a buf r st Hs) as Hit. cbv zeta in Hit.
  rewrite Hit. cbn [fst snd].
  set (seg := tsize_of (w_psize st) (maxdata_of a)) in *.
  destruct (tsize_of_bounds (w_psize st) (maxdata_of a) Hps Hmax)
    as (Hseg & Hsegm & Hfull & _). fold seg in Hseg, Hsegm, Hfull.
  set (bytes := mem_read buf (w_p st) seg) in *.
  set (pkt := FOE_data ec_clearmbx (uint8 (ec_nextmbxcnt (w_mbx_cnt st)))
                (int32 (w_sendpacket st + 1)) seg bytes) in *.
  assert (HD : Data pkt = bytes) by (unfold pkt; simpl; apply memcpy_nil).
  assert (Hsz : size bytes = seg) by (apply size_mem_read; lia).
  exists pkt.
  split.
  { rewrite !DATA_sent_app, DATA_sent_drop_if. simpl.
    destruct (FOEhook a); reflexivity. }
  split.
  { rewrite !stores_app, stores_drop_if. simpl. destruct (FOEhook a); reflexivity. }
  split; [reflexivity|]. split; [reflexivity|]. split; [exact HD|].
  assert (HU : U32 pkt = htoel (uint32 (int32 (w_sendpacket st + 1)))) by reflexivity.
  assert (HL : length_ (MbxHeader pkt) = htoes (uint16 (6 + seg))) by reflexivity.
  assert (Hpk : pkt = FOE_data ec_clearmbx (uint8 (ec_nextmbxcnt (w_mbx_cnt st)))
                        (int32 (w_sendpacket st + 1)) seg (Data pkt))
    by (rewrite HD; reflexivity).
  unfold FOEwrite_sent.
  cbn [w_psize w_p w_sendpacket w_dofinalzero w_segmentdata w_FOEp_mem].
  clearbody pkt.
  rewrite int32_id by (unfold INT32_MAX in *; lia).
  rewrite length_app. cbn [length].
  split; [lia|]. split; [lia|]. split; [lia|]. split.
  { rewrite map_app, concat_app. cbn [map concat]. rewrite app_nil_r, Hcat, HD.
    unfold bytes. apply firstn_mem_read; lia. }
  split.
  { rewrite Hsp, int32_int32_add. f_equal. lia. }
  split.
  { rewrite map_app, Hnum. replace (length sent + 1)%nat with (S (length sent)) by lia.
    rewrite FOE_numbers_snoc. f_equal. cbn [map].
    rewrite HU, Hsp, int32_int32_add, uint32_int32. do 3 f_equal. lia. }
  split.
  { apply Forall_app. split; [exact Hhdr|]. constructor; [|constructor].
    unfold DATA_header_ok. rewrite HL. do 3 f_equal.
    fold (size (Data pkt)). rewrite HD. lia. }
  right. exists sent, pkt. rewrite HD, Hsz.
  split; [reflexivity|]. split.
  { destruct Hshape as [(-> & _) | (S' & m & -> & HS' & Hm & _ & Hf & Hdfz & _)];
      [constructor|].
    apply Forall_app. split; [exact HS'|]. constructor; [|constructor].
    destruct (Z.eq_dec (w_psize st) 0) as [E0|E0]; [|lia].
    unfold FOEwrite_sends in Hs. apply andb_true_iff in Hs. destruct Hs as (_ & Hgo).
    fold seg in Hgo. assert (seg = 0) by lia.
    rewrite Hdfz, E0 in Hgo. replace (seg =? 0) with true in Hgo
      by (symmetry; apply Z.eqb_eq; assumption).
    simpl in Hgo. apply Z.eqb_eq in Hgo. exact Hgo. }
  split; [lia|]. split; [lia|]. split; [lia|]. split; [reflexivity|].
  split; [reflexivity|]. split.
  { unfold bytes. f_equal. lia. }
  eexists. rewrite <- HD. exact Hpk.
Qed.

(** The turn that resends after BUSY leaves the loop variables where they
    were and stores the last DATA packet again, with the next counter. *)
Lemma FOEwrite_resend_rewinds a buf r st sent :
  0 < maxdata_of a -> size buf <= INT32_MAX ->
  FOEwrite_sent (maxdata_of a) buf st sent ->
  FOEwrite_resends a r st = true ->
  exists m,
    last sent ec_clearmbx = m /\ sent <> [] /\
    FOEwrite_iter a buf r st =
    ({| w_mbx_cnt := uint8 (ec_nextmbxcnt (w_mbx_cnt st));
        w_psize := w_psize st; w_p := w_p st;
        w_sendpacket := w_sendpacket st; w_segmentdata := w_segmentdata st;
        w_dofinalzero := w_dofinalzero st;
        w_MbxIn := Some (w_pool st); w_MbxOut := w_MbxOut st;
        w_FOEp := w_FOEp st;
        w_FOEp_mem := FOE_data ec_clearmbx (uint8 (ec_nextmbxcnt (w_mbx_cnt st)))
                        (w_sendpacket st) (w_segmentdata st) (Data m);
        w_wkc := tx_wkc r; w_pool := S (w_pool st) |},
     drop_if (w_MbxIn st)
     ++ [Ev_mbxreceive (timeout a) (rx_wkc r) (Some (w_pool st, rx_mbx r))]
     ++ [Ev_store_FOEp (w_FOEp st)
           (FOE_data ec_clearmbx (uint8 (ec_nextmbxcnt (w_mbx_cnt st)))
              (w_sendpacket st) (w_segmentdata st) (Data m));
         Ev_mbxsend MbxOut_addr (uint8 (ec_nextmbxcnt (w_mbx_cnt st))) (tx_wkc r)],
     if tx_wkc r <=? 0 then false else true) /\
    U32 m = htoel (uint32 (w_sendpacket st)) /\
    size (Data m) = w_segmentdata st /\
    exists cnt, w_FOEp_mem st
                = FOE_data ec_clearmbx cnt (w_sendpacket st) (w_segmentdata st) (Data m).
Proof.
  intros Hmax Hbuf (Hps & Hp & Hsum & Hcat & Hsp & Hnum & Hhdr & Hshape) Hs.
  pose proof (FOEwrite_iter_resends a buf r st Hs) as Hit. cbv zeta in Hit.
  assert (Hsp0 : w_sendpacket st <> 0).
  { unfold FOEwrite_resends in Hs.
    apply andb_true_iff in Hs. destruct Hs as (Hs & _).
    apply andb_true_iff in Hs. destruct Hs as (_ & Hs).
    apply negb_true_iff, Z.eqb_neq in Hs. exact Hs. }
  destruct Hshape as [(-> & _) | (S' & m & -> & HS' & Hm & Hmp & Hf & Hdfz & Hseg & HD & (cnt & Hmem))].
  { exfalso. apply Hsp0. rewrite Hsp. reflexivity. }
  exists m. split; [apply last_last|]. split; [destruct S'; discriminate|].
  assert (Hm0 : 0 <= size (Data m)) by (unfold size; lia).
  assert (Hback : int32 (w_psize st + w_segmentdata st) = w_psize st + size (Data m)).
  { rewrite Hseg. apply int32_id. unfold INT32_MAX in *. lia. }
  assert (Hts : tsize_of (w_psize st + size (Data m)) (maxdata_of a) = size (Data m)).
  { destruct (tsize_of_bounds (w_psize st + size (Data m)) (maxdata_of a)
                ltac:(lia) Hmax) as (_ & _ & Hfull & Hsmall).
    destruct (Z.eq_dec (w_psize st) 0) as [E0 | E0].
    - rewrite E0 in *. simpl. apply Hsmall. lia.
    - assert (size (Data m) = maxdata_of a) by (apply Hf; lia).
      unfold tsize_of. replace (w_psize st + size (Data m) >? maxdata_of a) with true
        by (symmetry; apply Z.gtb_lt; lia). lia. }
  rewrite Hback, Hts in Hit.
  replace (w_psize st + size (Data m) - size (Data m)) with (w_psize st) in Hit by lia.
  rewrite (int32_id (w_psize st)) in Hit by (unfold INT32_MAX in *; lia).
  rewrite Hseg in Hit.
  replace (w_p st - size (Data m) + size (Data m)) with (w_p st) in Hit by lia.
  assert (Hn : int32 (int32 (w_sendpacket st - 1) + 1) = w_sendpacket st).
  { rewrite int32_int32_add. replace (w_sendpacket st - 1 + 1) with (w_sendpacket st) by lia.
    rewrite Hsp. apply int32_idem. }
  rewrite Hn in Hit. rewrite <- Hdfz in Hit. rewrite <- HD in Hit.
  assert (Hpk : forall c, FOE_data (w_FOEp_mem st) c (w_sendpacket st) (size (Data m)) (Data m)
                          = FOE_data ec_clearmbx c (w_sendpacket st) (size (Data m)) (Data m)).
  { intros c. rewrite Hmem. unfold FOE_data. simpl.
    rewrite memcpy_nil, memcpy_same. reflexivity. }
  rewrite Hpk in Hit. rewrite Hseg.
  split; [exact Hit|]. split.
  { rewrite map_app in Hnum. rewrite length_app in Hnum. simpl in Hnum.
    replace (length S' + 1)%nat with (S (length S')) in Hnum by lia.
    rewrite FOE_numbers_snoc in Hnum. apply app_inj_tail in Hnum.
    destruct Hnum as (_ & Hu). rewrite Hu, Hsp, length_app, uint32_int32. simpl.
    do 2 f_equal. lia. }
  split; [reflexivity|]. exists cnt. rewrite <- Hseg. exact Hmem.
Qed.

(** One turn of the write loop, whatever it receives. *)
Lemma FOEwrite_iter_sent a buf r st sent :
  0 < maxdata_of a -> size buf <= INT32_MAX ->
  FOEwrite_sent (maxdata_of a) buf st sent ->
  let st' := fst (fst (FOEwrite_iter a buf r st)) in
  let ev := snd (fst (FOEwrite_iter a buf r st)) in
  FOEwrite_in_order (maxdata_of a) buf (sent ++ DATA_sent ev) /\
  (snd (FOEwrite_iter a buf r st) = true ->
   FOEwrite_sent (maxdata_of a) buf st' (sent ++ DATA_sent ev)).
Proof.
  intros Hmax Hbuf HI. cbv zeta.
  destruct (FOEwrite_sends a r st) eqn:Hs.
  - destruct (FOEwrite_sent_after_send a buf r st sent Hmax Hbuf HI Hs)
      as (pkt & HD & _ & _ & _ & _ & HI').
    rewrite HD. split; [eapply FOEwrite_sent_in_order; exact HI' | intros _; exact HI'].
  - destruct (FOEwrite_resends a r st) eqn:Hr.
    + destruct (FOEwrite_resend_rewinds a buf r st sent Hmax Hbuf HI Hr)
        as (m & Hlast & Hne & Hit & HU & Hsz & (cnt0 & Hmem)).
      rewrite Hit. cbn [fst snd].
      rewrite !DATA_sent_app, DATA_sent_drop_if. cbn [DATA_sent app]. rewrite app_nil_r.
      split; [eapply FOEwrite_sent_in_order; exact HI|]. intros _.
      destruct HI as (Hps & Hp & Hsum & Hcat & Hsp & Hnum & Hhdr & Hshape).
      unfold FOEwrite_sent.
      cbn [w_psize w_p w_sendpacket w_dofinalzero w_segmentdata w_FOEp_mem].
      repeat (split; [assumption|]).
      destruct Hshape as [(E & _) | (S' & m' & E & HS' & Hm & Hmp & Hf & Hdfz & Hseg & HDm & _)];
        [contradiction|].
      right. exists S', m'. repeat (split; [assumption|]).
      assert (m' = m) by (rewrite E in Hlast; rewrite last_last in Hlast; exact Hlast).
      subst m'. eexists. reflexivity.
    + destruct (FOEwrite_iter_other a buf r st Hs Hr) as (Hw & HD & _).
      rewrite HD, Hw, app_nil_r.
      split; [eapply FOEwrite_sent_in_order; exact HI | discriminate].
Qed.

Lemma FOEwrite_loop_in_order a buf sc :
  0 < maxdata_of a -> size buf <= INT32_MAX ->
  forall st sent,
  FOEwrite_sent (maxdata_of a) buf st sent ->
  FOEwrite_in_order (maxdata_of a) buf
    (sent ++ DATA_sent (snd (FOEwrite_loop a buf sc st))).
Proof.
  intros Hmax Hbuf. induction sc as [|r sc IH]; intros st sent HI; cbn [FOEwrite_loop].
  - destruct (FOEwrite_iter_sent a buf silence st sent Hmax Hbuf HI) as (Ho & _).
    destruct (FOEwrite_iter a buf silence st) as [[st1 ev1] w]. exact Ho.
  - destruct (FOEwrite_iter_sent a buf r st sent Hmax Hbuf HI) as (Ho & Hc).
    destruct (FOEwrite_iter a buf r st) as [[st1 ev1] [|]]; cbn [fst snd] in *;
      [|exact Ho].
    specialize (IH st1 _ (Hc eq_refl)).
    destruct (FOEwrite_loop a buf sc st1) as [st2 ev2]; cbn [fst snd] in *.
    rewrite DATA_sent_app, app_assoc. exact IH.
Qed.


Lemma FOEwrite_init_sent a t mbx_cnt psize buf :
  0 <= psize -> psize = size buf ->
  FOEwrite_sent (maxdata_of a) buf (fst (FOEwrite_init a t mbx_cnt psize)) [].
Proof.
  intros Hps Hsz.
  destruct (FOEwrite_init_fields a t mbx_cnt psize) as (_ & _ & Hsp & Hp & Hc & Hd & _).
  unfold FOEwrite_sent. rewrite Hp, Hc, Hd, Hsp. simpl.
  split; [exact Hps|]. split; [lia|]. split; [exact Hsz|].
  split; [reflexivity|]. split; [reflexivity|]. split; [reflexivity|].
  split; [constructor|]. left. split; reflexivity.
Qed.

(** X11.  On every path of [ecx_FOEwrite], whatever the slave answers and
    wherever the call ends, for a positive [maxdata] that is not more than
    [EC_MAXFOEDATA], the size of [Data], the DATA packets passed on in
    mailbox buffers are numbered 1, 2, 3, ... without a gap, their payloads
    are the file from
    its start on with nothing left out, repeated or out of order, every one
    but the last has [maxdata] octets, each carries the length of its
    payload, and no payload is longer than [Data]. *)
Theorem FOEwrite_DATA_in_order a t mbx_cnt psize buf :
  0 < maxdata_of a -> maxdata_of a <= EC_MAXFOEDATA ->
  0 <= psize <= INT32_MAX -> psize = size buf ->
  let D := DATA_sent (wtrace (ecx_FOEwrite a t mbx_cnt psize buf)) in
  FOEwrite_in_order (maxdata_of a) buf D /\
  Forall (fun x => size (Data x) <= EC_MAXFOEDATA) D.
Proof.
  intros Hmax Harr Hps Hsz D.
  assert (HO : FOEwrite_in_order (maxdata_of a) buf D).
  { unfold D, ecx_FOEwrite.
    pose proof (FOEwrite_init_sent a t mbx_cnt psize buf ltac:(lia) Hsz) as HI.
    destruct (FOEwrite_init_fields a t mbx_cnt psize) as (_ & _ & _ & _ & _ & _ & HD0).
    destruct (FOEwrite_init a t mbx_cnt psize) as [st0 ev0]; cbn [fst snd] in *.
    destruct (0 <? w_wkc st0).
    - pose proof (FOEwrite_loop_in_order a buf (script t) Hmax ltac:(lia) st0 [] HI) as HL.
      destruct (FOEwrite_loop a buf (script t) st0) as [st ev]; cbn [fst snd wtrace] in *.
      unfold FOEwrite_exit.
      rewrite !DATA_sent_app, HD0, !DATA_sent_drop_if, !app_nil_r. exact HL.
    - cbn [wtrace]. unfold FOEwrite_exit.
      rewrite !DATA_sent_app, HD0, !DATA_sent_drop_if. simpl.
      eapply FOEwrite_sent_in_order. exact HI. }
  split; [exact HO|].
  destruct HO as (_ & _ & _ & _ & Hle).
  eapply Forall_impl; [|exact Hle]. intros x Hx. cbv beta in Hx. lia.
Qed.



(** ** The request packet *)

(** The request packet of lines 93-113 and 234-254, field by field. *)
Lemma FOE_request_fields op a cnt :
  size (filename a) <= 65535 -> 0 <= EC_MAXFOEDATA <= 65535 ->
  let n := Z.min (Z.min (size (filename a)) EC_MAXFOEDATA) (maxdata_of a) in
  let req := FOE_request op a cnt in
  OpCode req = op /\ U32 req = htoel (uint32 (password a)) /\
  FileName req = firstn (Z.to_nat n) (filename a) /\
  length_ (MbxHeader req) = htoes (uint16 (6 + n)) /\
  mbxtype (MbxHeader req) = uint8 (ECT_MBXT_FOE + MBX_HDR_SET_CNT cnt).
Proof.
  intros Hfn HM. cbv zeta.
  pose proof (maxdata_of_nonneg a) as Hm.
  assert (H0 : 0 <= size (filename a)) by (unfold size; lia).
  unfold FOE_request, FileName. cbn [OpCode U32 Payload MbxHeader length_ mbxtype].
  fold (size (filename a)).
  assert (E1 : uint16 (size (filename a)) = size (filename a))
    by (unfold uint16; apply Z.mod_small; lia).
  assert (E2 : uint16 EC_MAXFOEDATA = EC_MAXFOEDATA)
    by (unfold uint16; apply Z.mod_small; lia).
  rewrite E1, E2.
  set (f1 := if size (filename a) >? EC_MAXFOEDATA then EC_MAXFOEDATA
             else size (filename a)).
  assert (Hf1 : f1 = Z.min (size (filename a)) EC_MAXFOEDATA).
  { unfold f1. destruct (Z.gtb_spec (size (filename a)) EC_MAXFOEDATA); lia. }
  set (f2 := if f1 >? maxdata_of a then maxdata_of a else f1).
  assert (Hf2 : f2 = Z.min (Z.min (size (filename a)) EC_MAXFOEDATA) (maxdata_of a)).
  { unfold f2. destruct (Z.gtb_spec f1 (maxdata_of a)); lia. }
  rewrite <- Hf2.
  repeat split.
  rewrite mem_read_inside by lia. reflexivity.
Qed.

(** X14.  Whatever happens afterwards, the first packet that either driver
    passes to [ecx_mbxsend] is the request, in a mailbox buffer: opcode READ
    or WRITE, the password, and of the file name the first [n] octets, where
    [n] is the smallest of the length of the name, [EC_MAXFOEDATA] and
    [maxdata].  A longer name is cut, not refused; the length field counts
    the six octets before the name and the [n] octets sent. *)
Theorem FOE_request_first a t mbx_cnt psize buf rbuf :
  size (filename a) <= 65535 -> 0 <= EC_MAXFOEDATA <= 65535 ->
  let n := Z.min (Z.min (size (filename a)) EC_MAXFOEDATA) (maxdata_of a) in
  let cnt := uint8 (ec_nextmbxcnt mbx_cnt) in
  (exists id rest,
     sends (trace (ecx_FOEread a t mbx_cnt psize rbuf))
     = (MbxOut_buf id (FOE_request ECT_FOE_READ a cnt), cnt) :: rest) /\
  (exists id rest,
     sends (wtrace (ecx_FOEwrite a t mbx_cnt psize buf))
     = (MbxOut_buf id (FOE_request ECT_FOE_WRITE a cnt), cnt) :: rest) /\
  forall op, let req := FOE_request op a cnt in
    OpCode req = op /\ U32 req = htoel (uint32 (password a)) /\
    FileName req = firstn (Z.to_nat n) (filename a) /\
    length_ (MbxHeader req) = htoes (uint16 (6 + n)).
Proof.
  intros Hfn HM. cbv zeta. split; [|split].
  - unfold ecx_FOEread, FOEread_init, ecx_mbxreceive.
    destruct (0 <? stale_wkc t); cbn [fst snd r_wkc];
      (destruct (0 <? req_wkc t);
       [ match goal with
         | |- context [FOEread_loop ?a ?b ?c ?s] =>
             destruct (FOEread_loop a b c s) as [st ev]
         end | ]);
      cbn [trace fst snd app sends]; eexists; eexists; reflexivity.
  - unfold ecx_FOEwrite, FOEwrite_init, ecx_mbxreceive.
    destruct (0 <? stale_wkc t); cbn [fst snd w_wkc];
      (destruct (0 <? req_wkc t);
       [ match goal with
         | |- context [FOEwrite_loop ?a ?b ?c ?s] =>
             destruct (FOEwrite_loop a b c s) as [st ev]
         end | ]);
      cbn [wtrace fst snd app sends]; eexists; eexists; reflexivity.
  - intros op.
    destruct (FOE_request_fields op a (uint8 (ec_nextmbxcnt mbx_cnt)) Hfn HM)
      as (E1 & E2 & E3 & E4 & _).
    repeat split; assumption.
Qed.

(** ** What is written can be read *)

Lemma DATA_sent_OpCode tr : Forall (fun m => OpCode m = ECT_FOE_DATA) (DATA_sent tr).
Proof.
  induction tr as [|e tr IH]; simpl; [constructor|].
  destruct e as [| |[id m|]| | | |]; try assumption.
  destruct (OpCode m =? ECT_FOE_DATA) eqn:E; [|assumption].
  constructor; [apply Z.eqb_eq, E | assumption].
Qed.

(** The low nibble of the mailbox type that the drivers write. *)
Lemma FOE_mbxtype_nibble cnt :
  0 <= ECT_MBXT_FOE < 16 ->
  Z.land (uint8 (ECT_MBXT_FOE + MBX_HDR_SET_CNT cnt)) 0x0f = ECT_MBXT_FOE.
Proof.
  intros HF. change 0x0f with (Z.ones 4). rewrite Z.land_ones by lia.
  unfold uint8, MBX_HDR_SET_CNT, uint8. rewrite Z.shiftl_mul_pow2 by lia.
  change (2 ^ 4) with 16.
  rewrite (Z.mod_mod_divide _ 256 16) by (exists 16; reflexivity).
  rewrite Z.add_mod by lia.
  rewrite (Z.mod_mod_divide _ 256 16) by (exists 16; reflexivity).
  rewrite Z.mod_mul by lia. rewrite Z.add_0_r, Z.mod_mod by lia.
  apply Z.mod_small. lia.
Qed.

(** Every DATA packet that a turn of the write loop sends in a mailbox
    buffer has the mailbox type of FoE. *)
Lemma FOEwrite_iter_DATA_FOE a buf r st :
  0 <= ECT_MBXT_FOE < 16 ->
  Forall is_FOE (DATA_sent (snd (fst (FOEwrite_iter a buf r st)))).
Proof.
  intros HF.
  unfold FOEwrite_iter, ecx_mbxreceive.
  destruct (w_MbxIn st); destruct (FOEhook a); split_ifs; simpl;
    try constructor; try constructor.
  all: unfold is_FOE; simpl; apply FOE_mbxtype_nibble; exact HF.
Qed.

Lemma FOEwrite_loop_DATA_FOE a buf sc :
  0 <= ECT_MBXT_FOE < 16 ->
  forall st, Forall is_FOE (DATA_sent (snd (FOEwrite_loop a buf sc st))).
Proof.
  intros HF. induction sc as [|r sc IH]; intros st; cbn [FOEwrite_loop].
  - pose proof (FOEwrite_iter_DATA_FOE a buf silence st HF) as Hs.
    destruct (FOEwrite_iter a buf silence st) as [[st1 ev1] w]. exact Hs.
  - pose proof (FOEwrite_iter_DATA_FOE a buf r st HF) as Hs.
    destruct (FOEwrite_iter a buf r st) as [[st1 ev1] [|]]; cbn [fst snd] in *;
      [|exact Hs].
    specialize (IH st1).
    destruct (FOEwrite_loop a buf sc st1) as [st2 ev2]; cbn [fst snd] in *.
    rewrite DATA_sent_app. apply Forall_app. split; assumption.
Qed.

(** A write that returns a positive work counter and was never answered with
    BUSY: what its DATA packets are. *)
Lemma ecx_FOEwrite_complete a t mbx_cnt psize buf :
  0 <= ECT_MBXT_FOE < 16 ->
  0 < maxdata_of a -> 0 <= psize <= INT32_MAX -> psize = size buf ->
  Forall (fun r => OpCode (rx_mbx r) <> ECT_FOE_BUSY) (script t) ->
  0 < wret (ecx_FOEwrite a t mbx_cnt psize buf) ->
  let D := DATA_sent (wtrace (ecx_FOEwrite a t mbx_cnt psize buf)) in
  FOEwrite_in_order (maxdata_of a) buf D /\ Forall is_FOE D /\
  concat (map Data D) = buf /\ segmented (maxdata_of a) (map Data D).
Proof.
  intros HF Hmax Hps Hsz Hnb Hret. cbv zeta.
  assert (HI : FOEwrite_inv (maxdata_of a) buf
                 (fst (FOEwrite_init a t mbx_cnt psize)) []).
  { destruct (FOEwrite_init_fields a t mbx_cnt psize) as (_ & _ & _ & Hp & Hc & Hd & _).
    unfold FOEwrite_inv. rewrite Hp, Hc, Hd. simpl.
    repeat split; try lia. left. split; reflexivity. }
  pose proof (FOEwrite_init_sent a t mbx_cnt psize buf ltac:(lia) Hsz) as HI'.
  unfold ecx_FOEwrite in *.
  destruct (FOEwrite_init_fields a t mbx_cnt psize) as (Hw & _ & _ & _ & _ & _ & HD0).
  destruct (FOEwrite_init a t mbx_cnt psize) as [st0 ev0]; cbn [fst snd] in *.
  destruct (0 <? w_wkc st0) eqn:E.
  - destruct (FOEwrite_loop_segments a buf (script t) Hmax Hnb st0 [] HI) as (Hh & Hs).
    pose proof (FOEwrite_loop_in_order a buf (script t) Hmax ltac:(lia) st0 [] HI') as Ho.
    pose proof (FOEwrite_loop_DATA_FOE a buf (script t) HF st0) as Hf.
    destruct (FOEwrite_loop a buf (script t) st0) as [st ev]; cbn [fst snd wtrace wret] in *.
    unfold FOEwrite_exit.
    rewrite !DATA_sent_app, HD0, !DATA_sent_drop_if, !app_nil_r. cbn [app] in *.
    split; [exact Ho|]. split; [exact Hf|]. apply Hs. exact Hret.
  - exfalso. cbn [wret] in Hret. apply Z.ltb_ge in E. lia.
Qed.

(** What the read finds in a DATA packet that the write has sent, on a host
    whose byte-order macros undo each other. *)
Lemma segmentdata_of_sent m :
  (forall x, 0 <= x < 65536 -> etohs (htoes x) = x) ->
  DATA_header_ok m -> size (Data m) + 6 < 65536 ->
  segmentdata_of m = size (Data m).
Proof.
  intros Hs Hh Hsz. unfold segmentdata_of. rewrite Hh. fold (size (Data m)).
  assert (H0 : 0 <= size (Data m)) by (unfold size; lia).
  assert (E : uint16 (6 + size (Data m)) = 6 + size (Data m))
    by (unfold uint16; apply Z.mod_small; lia).
  rewrite E, Hs by lia.
  replace (6 + size (Data m) - 6) with (size (Data m)) by lia.
  unfold uint16. apply Z.mod_small. lia.
Qed.

Lemma payload_of_sent r :
  segmentdata_of (rx_mbx r) = size (Data (rx_mbx r)) ->
  payload_of r = Data (rx_mbx r).
Proof.
  intros E. unfold payload_of. rewrite E.
  rewrite mem_read_inside by (unfold size; lia).
  unfold size. rewrite Nat2Z.id. simpl. apply firstn_all.
Qed.

Lemma packetnumber_of_sent k (D : list ec_FOEt) :
  (forall x, 0 <= x < 4294967296 -> etohl (htoel x) = x) ->
  map U32 D = FOE_numbers k -> Z.of_nat k <= INT32_MAX ->
  map packetnumber_of D = map Z.of_nat (seq 1 k).
Proof.
  intros Hl Hnum Hk.
  replace (map packetnumber_of D) with (map (fun x => int32 (etohl x)) (map U32 D))
    by (rewrite map_map; reflexivity).
  rewrite Hnum. unfold FOE_numbers. rewrite map_map.
  apply map_ext_in. intros i Hi. apply in_seq in Hi.
  unfold INT32_MAX in Hk.
  assert (E : uint32 (Z.of_nat i) = Z.of_nat i)
    by (unfold uint32; apply Z.mod_small; lia).
  rewrite E, Hl by lia. apply int32_id. unfold INT32_MAX. lia.
Qed.

(** X15.  What is written can be read back.  Take a write that was never
    answered with BUSY and returned a positive work counter, on a host whose
    byte-order macros undo each other and whose FoE mailbox type fits the
    low nibble, for a [maxdata] that is not more than [EC_MAXFOEDATA], the
    size of [Data].  A slave with the same [maxdata] that answers a READ request
    with the DATA packets of that write, in a buffer that is large enough,
    makes [ecx_FOEread] return a positive work counter, set [*psize] to the
    size of the file written, and leave the file at the start of the
    caller's buffer; no segment copied is longer than [Data]. *)
Theorem FOE_written_is_read a t mbx_cnt psize buf a' t' mbx_cnt' rpsize rbuf sc rest :
  (forall x, 0 <= x < 65536 -> etohs (htoes x) = x) ->
  (forall x, 0 <= x < 4294967296 -> etohl (htoel x) = x) ->
  0 <= ECT_MBXT_FOE < 16 ->
  0 < maxdata_of a -> maxdata_of a <= EC_MAXFOEDATA ->
  maxdata_of a + 6 < 65536 ->
  0 <= psize -> psize = size buf ->
  Forall (fun r => OpCode (rx_mbx r) <> ECT_FOE_BUSY) (script t) ->
  0 < wret (ecx_FOEwrite a t mbx_cnt psize buf) ->
  maxdata_of a' = maxdata_of a ->
  0 < req_wkc t' -> script t' = sc ++ rest ->
  map rx_mbx sc = DATA_sent (wtrace (ecx_FOEwrite a t mbx_cnt psize buf)) ->
  Forall (fun r => 0 < rx_wkc r /\ 0 < tx_wkc r) sc ->
  psize <= rpsize -> rpsize + 65535 <= INT32_MAX ->
  let R := ecx_FOEread a' t' mbx_cnt' rpsize rbuf in
  0 < ret R /\ psize_out R = psize /\
  buf_out R = buf ++ skipn (Z.to_nat psize) rbuf /\
  Forall (fun s => size s <= EC_MAXFOEDATA) (accepted (trace R)).
Proof.
  intros Hs Hl HF Hmax Harr Hmax6 Hps Hsz Hnb Hret Ha' Hreq Hsc Hmap Hwkc Hfit Hrp.
  assert (Hps' : 0 <= psize <= INT32_MAX) by (unfold INT32_MAX in *; lia).
  destruct (ecx_FOEwrite_complete a t mbx_cnt psize buf HF Hmax Hps' Hsz Hnb Hret)
    as (Ho & Hfoe & Hcat & Hseg).
  pose proof (DATA_sent_OpCode (wtrace (ecx_FOEwrite a t mbx_cnt psize buf))) as Hop.
  rewrite <- Hmap in *.
  destruct Ho as (Hnum & Hhdr & _ & _ & Hle).
  destruct Hseg as (P' & l & HP & Hfull & Hlast).
  (* every packet, as the read sees it *)
  assert (Hsd : Forall (fun r => segmentdata_of (rx_mbx r) = size (Data (rx_mbx r))) sc).
  { rewrite Forall_map in Hhdr, Hle. rewrite Forall_forall in *.
    intros r Hr. apply segmentdata_of_sent; [exact Hs | apply Hhdr, Hr|].
    specialize (Hle r Hr). cbv beta in Hle. lia. }
  assert (Hpl : map payload_of sc = map Data (map rx_mbx sc)).
  { rewrite map_map. apply map_ext_in. intros r Hr.
    apply payload_of_sent. rewrite Forall_forall in Hsd. apply Hsd, Hr. }
  assert (Hsg : map (fun r => segmentdata_of (rx_mbx r)) sc = map size (P' ++ [l])).
  { rewrite <- HP, !map_map. apply map_ext_in. intros r Hr.
    rewrite Forall_forall in Hsd. apply Hsd, Hr. }
  destruct (exists_last (l := sc)) as (pre & r & ->).
  { intros ->. simpl in HP. destruct P'; discriminate. }
  assert (Hlen : length pre = length P').
  { apply (f_equal (@length _)) in HP.
    rewrite !length_map, !length_app in HP. simpl in HP. lia. }
  rewrite !map_app in Hsg. cbn [map] in Hsg.
  apply app_inj_tail in Hsg. destruct Hsg as (Hsgp & Hsgl).
  assert (Hsize : size buf = Z.of_nat (length P') * maxdata_of a + size l).
  { rewrite <- Hcat, HP, concat_app, size_app, (size_concat_full _ _ Hfull).
    simpl. rewrite app_nil_r. reflexivity. }
  assert (Hl0 : 0 <= size l) by (unfold size; lia).
  assert (Hfullpre : Forall (fun r => segmentdata_of (rx_mbx r) = maxdata_of a') pre).
  { rewrite Ha'. clear - Hsgp Hfull. revert P' Hsgp Hfull.
    induction pre as [|x pre IH]; intros [|p P'] Hsgp Hfull; try discriminate;
      constructor.
    - inversion Hsgp. inversion Hfull; subst. congruence.
    - inversion Hsgp. inversion Hfull; subst. eapply IH; eassumption. }
  destruct (ecx_FOEread_delivers a' t' mbx_cnt' rpsize rbuf pre r rest)
    as (Hr1 & Hr2 & Hr3 & Hr4 & _ & Hr6).
  - exact Hrp.
  - unfold INT32_MAX in *. rewrite Hlen. nia.
  - exact Hreq.
  - rewrite Hsc, <- app_assoc. reflexivity.
  - rewrite Forall_map in Hfoe, Hop. rewrite Forall_forall in *.
    intros x Hx. destruct (Hwkc x Hx) as (W1 & W2).
    repeat split; [exact W1 | apply Hfoe, Hx | apply Hop, Hx | exact W2].
  - replace (map (fun r0 => packetnumber_of (rx_mbx r0)) (pre ++ [r]))
      with (map packetnumber_of (map rx_mbx (pre ++ [r])))
      by (rewrite map_map; reflexivity).
    rewrite (packetnumber_of_sent _ _ Hl Hnum).
    + replace (length (map rx_mbx (pre ++ [r]))) with (S (length pre))
        by (rewrite length_map, length_app; simpl; lia).
      reflexivity.
    + rewrite length_map, length_app, Hlen. simpl. unfold INT32_MAX in *. nia.
  - exact Hfullpre.
  - rewrite Ha', Hsgl. lia.
  - rewrite Ha', Hsgl, Hlen. lia.
  - cbv zeta. rewrite Hr3, Hr4, Hr6, Hpl, Hcat, <- Hsz.
    split; [exact Hr2|]. split; [reflexivity|]. split; [reflexivity|].
    apply Forall_map. eapply Forall_impl; [|exact Hle].
    intros x Hx. cbv beta in Hx. lia.
Qed.

End Properties.

(** * Runs on the little-endian host *)

(** An instance of the segmentation of writes: eight octets in segments of
    four to an acknowledging slave. *)
Lemma FOEwrite_ends_with_short_DATA_witness :
  0 < wret (@ecx_FOEwrite soem_le slave16 (session acks_script) 0 8 S4_file) /\
  exists P' s,
    map Data (DATA_sent (wtrace (@ecx_FOEwrite soem_le slave16
                                   (session acks_script) 0 8 S4_file)))
    = P' ++ [s; []] /\ size s = maxdata_of slave16.
Proof.
  assert (Hret : 0 < wret (@ecx_FOEwrite soem_le slave16 (session acks_script) 0 8 S4_file))
    by (vm_compute; reflexivity).
  split; [exact Hret|].
  refine (proj1 (proj2 (proj2 (proj2 (proj2
    (@FOEwrite_ends_with_short_DATA soem_le slave16 (session acks_script) 0 8 S4_file
       _ _ _ _ _ Hret))))) _ _).
  - vm_compute; reflexivity.
  - vm_compute; discriminate.
  - unfold INT32_MAX; lia.
  - reflexivity.
  - repeat constructor; intro E; vm_compute in E; discriminate E.
  - lia.
  - vm_compute; reflexivity.
Defined.

(** C1 as stated fails: the slave answers the WRITE request of an empty file
    with BUSY, the call returns a positive work counter, and no DATA packet
    has been sent. *)
Lemma FOEwrite_BUSY_first_sends_no_DATA :
  0 < wret BUSY_first /\
  ~ segmented (maxdata_of slave16) (map Data (DATA_sent (wtrace BUSY_first))) /\
  map Data (DATA_sent (wtrace BUSY_first)) <> [[]].
Proof.
  split; [vm_compute; reflexivity|]. split.
  - intros (P' & l & HP & _). vm_compute in HP. destruct P'; discriminate HP.
  - vm_compute. discriminate.
Qed.

(** C2, on scenario S4.  The call succeeds, and the BUSY has rewound the
    loop variables to where they stood after the first DATA packet; but the
    DATA packet number 1 is stored a second time into buffer 2, which was
    passed to [ecx_mbxsend] before, and what the third [ecx_mbxsend] is
    given is the address of [MbxOut], not a mailbox buffer. *)
Theorem FOEwrite_BUSY_resend_S4 :
  wret S4 = 1 /\
  S4_after [answer (FOE_mbx ECT_FOE_ACK 0 [])] = Some (4, 4, 1, 4) /\
  S4_after [answer (FOE_mbx ECT_FOE_ACK 0 []); answer (FOE_mbx ECT_FOE_BUSY 0 [])]
  = Some (4, 4, 1, 4) /\
  sends (wtrace S4) =
    [(MbxOut_buf 0 (@FOE_request soem_le ECT_FOE_WRITE slave16 1), 1);
     (MbxOut_buf 2 (DATA_pkt 2 1 [10; 11; 12; 13]), 2);
     (MbxOut_addr, 3);
     (MbxOut_buf 5 (DATA_pkt 4 2 [14; 15; 16; 17]), 4);
     (MbxOut_buf 7 (DATA_pkt 5 3 []), 5)] /\
  stores (wtrace S4) = [(2%nat, DATA_pkt 3 1 [10; 11; 12; 13])].
Proof.
  repeat split; vm_compute; reflexivity.
Qed.

(** A BUSY that answers a DATA packet without payload is not answered with a
    resend at all: [sendpacket] is counted down and the call returns the
    work counter of the receive. *)
Lemma FOEwrite_BUSY_after_empty_DATA :
  wret empty_BUSY = 1 /\
  sends (wtrace empty_BUSY) =
    [(MbxOut_buf 0 (@FOE_request soem_le ECT_FOE_WRITE slave16 1), 1);
     (MbxOut_buf 2 (DATA_pkt 2 1 []), 2)] /\
  w_sendpacket (wfinal empty_BUSY) = 0.
Proof.
  repeat split; vm_compute; reflexivity.
Qed.

(** C7, on scenario S4.  The slave's [mbx_cnt] is advanced and stored before
    each of the five sends, but only four of the counters are carried by
    what is sent: the send after the BUSY passes no mailbox buffer, and the
    packet with counter 3 stays in the buffer of the send before. *)
Theorem FOE_mbx_cnt_S4 :
  map snd (sends (wtrace S4)) = [1; 2; 3; 4; 5] /\
  map (fun x => carried_cnt (fst x)) (sends (wtrace S4))
  = [Some 1; Some 2; None; Some 4; Some 5] /\
  map (fun x => Z.shiftr (mbxtype (MbxHeader (snd x))) 4) (stores (wtrace S4)) = [3].
Proof.
  repeat split; vm_compute; reflexivity.
Qed.

(** An instance of the refusal of a DATA packet: scenario S3. *)
Lemma FOEread_DATA_refused_witness :
  ret (@ecx_FOEread soem_le slave16 (session [S3_round]) 0 5 (repeat 255 5)) = - 6 /\
  buf_out (@ecx_FOEread soem_le slave16 (session [S3_round]) 0 5 (repeat 255 5))
  = repeat 255 5 /\
  psize_out (@ecx_FOEread soem_le slave16 (session [S3_round]) 0 5 (repeat 255 5)) = 0.
Proof.
  pose proof (@FOEread_DATA_refused soem_le slave16 (session [S3_round]) 0 5
                (repeat 255 5) [] S3_round []
                (fst (@FOEread_init soem_le slave16 (session [S3_round]) 0 5 (repeat 255 5)))
                []
                ltac:(unfold INT32_MAX; lia) ltac:(unfold INT32_MAX; simpl; lia)
                ltac:(simpl; lia) eq_refl eq_refl ltac:(simpl; lia) eq_refl eq_refl
                ltac:(right; vm_compute; reflexivity)) as W.
  cbv zeta in W. destruct W as (W1 & _ & W3 & _ & W5 & _).
  split; [exact W1 | split; [exact W3 | exact W5]].
Defined.

(** An instance of the end of a read by a short segment: scenario S1. *)
Lemma FOEread_continues_iff_full_witness :
  ret (@ecx_FOEread soem_le slave128 (session [S1_round]) 0 100 (repeat 0 100)) = 1 /\
  psize_out (@ecx_FOEread soem_le slave128 (session [S1_round]) 0 100 (repeat 0 100)) = 5.
Proof.
  pose proof (@FOEread_continues_iff_full soem_le slave128 (session [S1_round]) 0 100
                (repeat 0 100) [] S1_round []
                (fst (@FOEread_init soem_le slave128 (session [S1_round]) 0 100 (repeat 0 100)))
                []
                ltac:(unfold INT32_MAX; lia) ltac:(unfold INT32_MAX; simpl; lia)
                ltac:(simpl; lia) eq_refl eq_refl ltac:(simpl; lia) eq_refl eq_refl
                eq_refl ltac:(vm_compute; discriminate) ltac:(simpl; lia)) as W.
  destruct W as (_ & W). cbv zeta in W.
  destruct (W ltac:(vm_compute; reflexivity)) as (W1 & _ & _ & W4).
  split; [exact W1 | exact W4].
Defined.

(** C5 as stated fails: the READ request is not taken, [dataread] is 0 and
    [*psize] is still the 100 the caller passed. *)
Lemma FOEread_psize_kept_on_send_failure :
  ret read_no_session = 0 /\
  psize_out read_no_session = 100 /\ dataread_out read_no_session = 0 /\
  psize_out read_no_session <> dataread_out read_no_session.
Proof.
  repeat split; try (vm_compute; reflexivity). vm_compute. discriminate.
Qed.

(** Instances of what a read leaves in [*psize]: scenario S3, and the
    request that is not taken. *)
Lemma FOEread_psize_on_return_witness :
  psize_out (@ecx_FOEread soem_le slave16 (session [S3_round]) 0 5 (repeat 255 5))
  = dataread_out (@ecx_FOEread soem_le slave16 (session [S3_round]) 0 5 (repeat 255 5)) /\
  psize_out (@ecx_FOEread soem_le slave16 no_session 0 100 (repeat 0 100)) = 100.
Proof.
  split.
  - apply (proj1 (@FOEread_psize_on_return soem_le slave16 (session [S3_round]) 0 5
                    (repeat 255 5))); simpl; lia.
  - apply (proj2 (@FOEread_psize_on_return soem_le slave16 no_session 0 100
                    (repeat 0 100))).
    left. simpl. lia.
Defined.

(** C6 as stated fails: with [maxdata] 4 a DATA packet of eight octets is
    accepted, and the call returns a positive work counter. *)
Lemma FOEread_accepts_long_segment :
  0 < ret read_long_DATA /\ psize_out read_long_DATA = 8 /\
  ~ Forall (fun s => size s <= maxdata_of slave16) (accepted (trace read_long_DATA)).
Proof.
  split; [vm_compute; reflexivity|]. split; [vm_compute; reflexivity|].
  intros HF. vm_compute in HF. inversion HF as [|s l Hs _]; subst.
  apply Hs. reflexivity.
Qed.

(** An instance of the sum of the accepted segments: scenario S2. *)
Lemma FOEread_size_is_sum_witness :
  0 < ret S2 /\ psize_out S2 = total (accepted (trace S2)).
Proof.
  assert (Hret : 0 < ret S2) by (vm_compute; reflexivity).
  split; [exact Hret|].
  apply (@FOEread_size_is_sum soem_le slave16 (session S2_script) 0 10 (repeat 0 10)).
  - unfold INT32_MAX; lia.
  - exact Hret.
Defined.

(** An instance of the end of a write by ERROR: scenario S5. *)
Lemma FOEwrite_ERROR_terminates_witness :
  wret (@ecx_FOEwrite soem_le slave16 (session [S5_round]) 0 8 S4_file) = - 10 /\
  length (sends (wtrace (@ecx_FOEwrite soem_le slave16 (session [S5_round]) 0 8 S4_file)))
  = 1%nat.
Proof.
  pose proof (@FOEwrite_ERROR_terminates soem_le slave16 (session [S5_round]) 0 8 S4_file
                [] S5_round []
                (fst (@FOEwrite_init soem_le slave16 (session [S5_round]) 0 8))
                []
                ltac:(simpl; lia) eq_refl eq_refl ltac:(simpl; lia) eq_refl eq_refl) as W.
  cbv zeta in W. destruct W as (W1 & _ & _ & W4).
  split; [exact W1 | rewrite W4; reflexivity].
Defined.

(** An instance of BUSY before any DATA: the WRITE request of scenario S4
    answered with BUSY. *)
Lemma FOEwrite_BUSY_before_DATA_witness :
  wret (@ecx_FOEwrite soem_le slave16 (session [BUSY_round]) 0 8 S4_file) = 1 /\
  DATA_sent (wtrace (@ecx_FOEwrite soem_le slave16 (session [BUSY_round]) 0 8 S4_file)) = [].
Proof.
  pose proof (@FOEwrite_BUSY_before_DATA soem_le slave16 (session [BUSY_round]) 0 8 S4_file
                BUSY_round []
                ltac:(simpl; lia) eq_refl ltac:(simpl; lia) eq_refl eq_refl) as W.
  destruct W as (_ & W). cbv zeta in W. destruct W as (W1 & _ & W3 & _).
  split; [exact W1 | exact W3].
Defined.

(** C9 as stated fails: the READ request is not taken; the buffer taken with
    [ecx_getmbx] is still the caller's after the failed [ecx_mbxsend], and the
    call returns without having dropped it. *)
Lemma FOEread_failed_send_keeps_buffer :
  ledger true nothing_held (trace read_no_session)
  = Some {| h_in := None; h_out := Some 0%nat |} /\
  ledger true nothing_held (trace read_no_session) <> Some nothing_held.
Proof.
  split; [vm_compute; reflexivity|]. vm_compute. discriminate.
Qed.

(** Instances of the ledger of a call: the file of scenario S4 written to
    an acknowledging slave, every send taken, and scenario S4 itself, whose
    resend after BUSY breaks the ledger. *)
Lemma FOE_mailbox_buffers_released_witness :
  stores (wtrace S4_acked) = [] /\ sends_taken (wtrace S4_acked) /\
  ledger true nothing_held (wtrace S4_acked) = Some nothing_held /\
  ledger true nothing_held (wtrace S4) = None.
Proof.
  assert (Hst : stores (wtrace S4_acked) = []) by (vm_compute; reflexivity).
  assert (Hs : sends_taken (wtrace S4_acked)).
  { unfold sends_taken.
    match goal with
    | |- Forall _ ?t => let t' := eval vm_compute in t in change t with t'
    end.
    repeat constructor. }
  split; [exact Hst|]. split; [exact Hs|]. split.
  - exact (proj1 (proj2 (proj2 (proj2
      (@FOE_mailbox_buffers_released soem_le slave16 (session acks_script) 0 8 S4_file))))
      Hst Hs).
  - exact (proj1 (proj2 (proj2 (proj2 (proj2
      (@FOE_mailbox_buffers_released soem_le slave16 (session S4_script) 0 8 S4_file)))))
      ltac:(vm_compute; discriminate) true).
Defined.

(** ** Instances of the further properties *)

(** A read whose request is answered with ERROR (the round of scenario
    S5). *)
Lemma FOEread_unexpected_mailbox_witness :
  ret (@ecx_FOEread soem_le slave16 (session [S5_round]) 0 5 (repeat 255 5)) = - 5 /\
  buf_out (@ecx_FOEread soem_le slave16 (session [S5_round]) 0 5 (repeat 255 5))
  = repeat 255 5.
Proof.
  pose proof (@FOEread_unexpected_mailbox soem_le slave16 (session [S5_round]) 0 5
                (repeat 255 5) [] S5_round []
                (fst (@FOEread_init soem_le slave16 (session [S5_round]) 0 5 (repeat 255 5)))
                []
                ltac:(simpl; lia) eq_refl eq_refl ltac:(simpl; lia)
                ltac:(intros [_ E]; vm_compute in E; discriminate)) as W.
  cbv zeta in W. destruct W as (W1 & _ & _ & _ & _ & W6 & _).
  split; [apply W1; split; vm_compute; reflexivity | exact W6].
Defined.

(** A write whose request is answered with ACK number 7. *)
Lemma FOEwrite_ACK_out_of_sequence_witness :
  wret (@ecx_FOEwrite soem_le slave16 (session [ACK7_round]) 0 8 S4_file) = - 7 /\
  DATA_sent (wtrace (@ecx_FOEwrite soem_le slave16 (session [ACK7_round]) 0 8 S4_file)) = [].
Proof.
  pose proof (@FOEwrite_ACK_out_of_sequence soem_le slave16 (session [ACK7_round]) 0 8
                S4_file [] ACK7_round []
                (fst (@FOEwrite_init soem_le slave16 (session [ACK7_round]) 0 8))
                []
                ltac:(simpl; lia) eq_refl eq_refl ltac:(simpl; lia) eq_refl eq_refl
                ltac:(vm_compute; discriminate)) as W.
  cbv zeta in W. destruct W as (W1 & _ & _ & _ & _ & W6).
  split; [exact W1 | rewrite W6; reflexivity].
Defined.

(** A write whose request is answered with a DATA packet. *)
Lemma FOEwrite_unexpected_mailbox_witness :
  wret (@ecx_FOEwrite soem_le slave16 (session [DATA_round]) 0 8 S4_file) = - 3 /\
  DATA_sent (wtrace (@ecx_FOEwrite soem_le slave16 (session [DATA_round]) 0 8 S4_file)) = [].
Proof.
  pose proof (@FOEwrite_unexpected_mailbox soem_le slave16 (session [DATA_round]) 0 8
                S4_file [] DATA_round []
                (fst (@FOEwrite_init soem_le slave16 (session [DATA_round]) 0 8))
                []
                ltac:(simpl; lia) eq_refl eq_refl ltac:(simpl; lia)
                ltac:(right; repeat split; vm_compute; discriminate)) as W.
  cbv zeta in W. destruct W as (W1 & _ & _ & _ & _ & W6).
  split; [exact W1 | rewrite W6; reflexivity].
Defined.

(** A read and a write whose request is not taken. *)
Lemma FOE_request_not_taken_witness :
  ret (@ecx_FOEread soem_le slave16 no_session 0 8 S4_file) = 0 /\
  buf_out (@ecx_FOEread soem_le slave16 no_session 0 8 S4_file) = S4_file /\
  wret (@ecx_FOEwrite soem_le slave16 no_session 0 8 S4_file) = 0.
Proof.
  pose proof (@FOE_request_not_taken soem_le slave16 no_session 0 8 S4_file
                ltac:(simpl; lia)) as W.
  cbv zeta in W. destruct W as (W1 & W2 & _ & _ & _ & W6 & _).
  split; [exact W1 | split; [exact W2 | exact W6]].
Defined.

(** A read whose request is taken and never answered. *)
Lemma FOEread_receive_fails_witness :
  ret (@ecx_FOEread soem_le slave16 (session [silence]) 0 5 (repeat 255 5)) = 0 /\
  buf_out (@ecx_FOEread soem_le slave16 (session [silence]) 0 5 (repeat 255 5))
  = repeat 255 5.
Proof.
  pose proof (@FOEread_receive_fails soem_le slave16 (session [silence]) 0 5
                (repeat 255 5) [] silence []
                (fst (@FOEread_init soem_le slave16 (session [silence]) 0 5 (repeat 255 5)))
                []
                ltac:(simpl; lia) eq_refl eq_refl ltac:(simpl; lia)) as W.
  cbv zeta in W. destruct W as (W1 & W2 & _).
  split; [exact W1 | exact W2].
Defined.

(** A write whose request is taken and never answered. *)
Lemma FOEwrite_receive_fails_witness :
  wret (@ecx_FOEwrite soem_le slave16 (session [silence]) 0 8 S4_file) = 0 /\
  w_psize (wfinal (@ecx_FOEwrite soem_le slave16 (session [silence]) 0 8 S4_file)) = 8.
Proof.
  pose proof (@FOEwrite_receive_fails soem_le slave16 (session [silence]) 0 8
                S4_file [] silence []
                (fst (@FOEwrite_init soem_le slave16 (session [silence]) 0 8))
                []
                ltac:(simpl; lia) eq_refl eq_refl ltac:(simpl; lia)) as W.
  cbv zeta in W. destruct W as (W1 & W2 & _).
  split; [exact W1 | exact W2].
Defined.

(** The buffer after scenario S2. *)
Lemma FOEread_buffer_on_return_witness :
  buf_out S2 = concat (accepted (trace S2))
               ++ skipn (Z.to_nat (total (accepted (trace S2)))) (repeat 0 10) /\
  dataread_out S2 = total (accepted (trace S2)).
Proof.
  pose proof (@FOEread_buffer_on_return soem_le slave16 (session S2_script) 0 10
                (repeat 0 10) ltac:(unfold INT32_MAX; lia)) as W.
  cbv zeta in W. destruct W as (W1 & W2 & _).
  split; [exact W1 | exact W2].
Defined.

(** The hook calls of scenario S2. *)
Lemma FOEhook_calls_witness :
  hooks (trace (@ecx_FOEread soem_le (fst (ecx_FOEdefinehook slave16 true))
                  (session S2_script) 0 10 (repeat 0 10)))
  = [(1, 1, 4); (1, 2, 8); (1, 3, 10)] /\
  hooks (trace (@ecx_FOEread soem_le (fst (ecx_FOEdefinehook slave16 false))
                  (session S2_script) 0 10 (repeat 0 10))) = [].
Proof.
  pose proof (@FOEhook_calls soem_le slave16 (session S2_script) 0 10
                (repeat 0 10) ltac:(unfold INT32_MAX; lia)) as W.
  destruct W as (_ & _ & W3 & W4 & _). cbv zeta in W3.
  split; [rewrite W3; vm_compute; reflexivity | exact W4].
Defined.

(** Scenario S2 as a delivery: two full segments and a short one. *)
Lemma FOEread_delivers_witness :
  ret S2 = 1 /\ psize_out S2 = 10 /\ buf_out S2 = [0; 1; 2; 3; 4; 5; 6; 7; 8; 9].
Proof.
  pose proof (@FOEread_delivers soem_le slave16 (session S2_script) 0 10 (repeat 0 10)
                [answer (FOE_mbx ECT_FOE_DATA 1 [0; 1; 2; 3]);
                 answer (FOE_mbx ECT_FOE_DATA 2 [4; 5; 6; 7])]
                (answer (FOE_mbx ECT_FOE_DATA 3 [8; 9])) []
                ltac:(unfold INT32_MAX; lia) ltac:(unfold INT32_MAX; simpl; lia)
                ltac:(simpl; lia) eq_refl
                ltac:(repeat constructor; vm_compute; reflexivity)
                eq_refl
                ltac:(repeat constructor)
                ltac:(vm_compute; discriminate)
                ltac:(repeat constructor; vm_compute; discriminate)
                ltac:(vm_compute; discriminate)) as W.
  cbv zeta in W. destruct W as (W1 & _ & _ & W4 & _ & W6 & _). unfold S2.
  split; [exact W1 | split; [rewrite W4 | rewrite W6]; vm_compute; reflexivity].
Defined.

(** The DATA packets of scenario S4, with its BUSY. *)
Lemma FOEwrite_DATA_in_order_witness :
  @FOEwrite_in_order soem_le 4 S4_file (DATA_sent (wtrace S4)) /\
  Forall (fun x => size (Data x) <= 1474) (DATA_sent (wtrace S4)).
Proof.
  exact (@FOEwrite_DATA_in_order soem_le slave16 (session S4_script) 0 8 S4_file
           ltac:(vm_compute; reflexivity) ltac:(vm_compute; discriminate)
           ltac:(unfold INT32_MAX; lia) eq_refl).
Defined.


(** The requests for the file "a". *)
Lemma FOE_request_first_witness :
  FileName (@FOE_request soem_le ECT_FOE_READ slave16 1) = [97] /\
  length_ (MbxHeader (@FOE_request soem_le ECT_FOE_WRITE slave16 1)) = 7.
Proof.
  pose proof (@FOE_request_first soem_le slave16 (session []) 0 8 S4_file S4_file
                ltac:(vm_compute; discriminate)
                ltac:(split; vm_compute; discriminate)) as W.
  cbv zeta in W. destruct W as (_ & _ & W).
  split.
  - destruct (W ECT_FOE_READ) as (_ & _ & W3 & _). exact W3.
  - destruct (W ECT_FOE_WRITE) as (_ & _ & _ & W4). exact W4.
Defined.

(** The file of scenario S4, written to an acknowledging slave and read
    back into a buffer of twelve octets. *)
Lemma FOE_written_is_read_witness :
  0 < ret (@ecx_FOEread soem_le slave16 (session S4_echo) 0 12 (repeat 255 12)) /\
  psize_out (@ecx_FOEread soem_le slave16 (session S4_echo) 0 12 (repeat 255 12)) = 8 /\
  buf_out (@ecx_FOEread soem_le slave16 (session S4_echo) 0 12 (repeat 255 12))
  = S4_file ++ [255; 255; 255; 255].
Proof.
  refine (let W := @FOE_written_is_read soem_le slave16 (session acks_script) 0 8 S4_file
           slave16 (session S4_echo) 0 12 (repeat 255 12) S4_echo []
           ltac:(intros; reflexivity) ltac:(intros; reflexivity)
           ltac:(cbn; lia)
           ltac:(vm_compute; reflexivity) ltac:(vm_compute; discriminate)
           ltac:(vm_compute; reflexivity)
           ltac:(lia) eq_refl
           ltac:(repeat constructor; vm_compute; discriminate)
           ltac:(vm_compute; reflexivity)
           eq_refl ltac:(simpl; lia)
           ltac:(vm_compute; reflexivity)
           ltac:(vm_compute; reflexivity)
           ltac:(vm_compute; repeat constructor)
           ltac:(lia) ltac:(unfold INT32_MAX; lia) in _).
  cbv zeta in W. destruct W as (W1 & W2 & W3 & _).
  split; [exact W1 | split; [exact W2 | exact W3]].
Defined.
